(** * pyfrost.network_http.sa : the signature aggregator

    A shallow embedding of [src/pyfrost/network_http/sa.py]: the transport
    wrapper [post_request] and the coordinator class [SA] with its two
    ceremonies [request_nonces] and [request_signature].

    Python values are an inductive type, Python dicts are insertion-ordered
    association lists, exceptions are values of an [outcome] type, and the
    calls the coordinator makes to its collaborators (node directory,
    network, uuid source, crypto provider) are recorded in an explicit
    trace threaded through a small state-and-exception monad. *)

From Stdlib Require Import ZArith String List Ascii Bool Arith Lia DecimalString.
From Stdlib.Strings Require Import Byte.
Import ListNotations.
Open Scope string_scope.
Open Scope list_scope.

Set Warnings "-register-all".

(* ================================================================== *)
(** ** Python values *)
(* ================================================================== *)

(** JSON documents, as the body of a response carries them.  Numbers are
    integers here; documents with fractional numbers are outside the
    model. *)
Inductive json : Type :=
| JNull
| JBool (b : bool)
| JNum (z : Z)
| JStr (s : string)
| JArr (l : list json)
| JObj (d : list (string * json)).

(** The Python objects the coordinator handles: JSON data, plus [bytes]
    (the message hash the crypto provider returns). *)
Inductive pyval : Type :=
| PNone
| PBool (b : bool)
| PInt (z : Z)
| PStr (s : string)
| PBytes (b : list byte)
| PList (l : list pyval)
| PDict (d : list (string * pyval)).

(** [type(v).__name__] *)
Definition py_type_name (v : pyval) : string :=
  match v with
  | PNone => "NoneType"
  | PBool _ => "bool"
  | PInt _ => "int"
  | PStr _ => "str"
  | PBytes _ => "bytes"
  | PList _ => "list"
  | PDict _ => "dict"
  end.

(** [bool(v)]: the truth value used by [if v:]. *)
Definition truthy (v : pyval) : bool :=
  match v with
  | PNone => false
  | PBool b => b
  | PInt z => negb (Z.eqb z 0)
  | PStr s => negb (String.eqb s "")
  | PBytes b => match b with [] => false | _ => true end
  | PList l => match l with [] => false | _ => true end
  | PDict d => match d with [] => false | _ => true end
  end.

(** [v is None] *)
Definition is_none (v : pyval) : bool :=
  match v with PNone => true | _ => false end.

(** Objects that have a [__hash__]: everything but lists and dicts. *)
Definition hashable (v : pyval) : bool :=
  match v with
  | PList _ | PDict _ => false
  | _ => true
  end.

(* ------------------------------------------------------------------ *)
(** *** Dicts: insertion-ordered association lists *)

Section Dict.
Context {V : Type}.

(** [d.get(k)] as an option; also the test behind [d[k]]. *)
Fixpoint dict_get (k : string) (d : list (string * V)) : option V :=
  match d with
  | [] => None
  | (k', v) :: d' => if String.eqb k k' then Some v else dict_get k d'
  end.

(** [d[k] = v]: an existing key keeps its position, a new key goes last. *)
Fixpoint dict_set (k : string) (v : V) (d : list (string * V))
  : list (string * V) :=
  match d with
  | [] => [(k, v)]
  | (k', v') :: d' =>
      if String.eqb k k' then (k', v) :: d' else (k', v') :: dict_set k v d'
  end.

Definition dict_keys (d : list (string * V)) : list string := map fst d.
Definition dict_values (d : list (string * V)) : list V := map snd d.

(** [dict(zip(keys, values))] *)
Definition dict_of_zip (keys : list string) (values : list V)
  : list (string * V) :=
  fold_left (fun d kv => dict_set (fst kv) (snd kv) d) (combine keys values) [].
End Dict.

(** The Python object a JSON document decodes to.  When an object
    repeats a member name, the last value wins and the name keeps its
    first position, as in [json.loads]. *)
Fixpoint of_json (j : json) : pyval :=
  match j with
  | JNull => PNone
  | JBool b => PBool b
  | JNum z => PInt z
  | JStr s => PStr s
  | JArr l => PList (map of_json l)
  | JObj d =>
      PDict (fold_left (fun acc kv => dict_set (fst kv) (snd kv) acc)
                       (map (fun kv => (fst kv, of_json (snd kv))) d) [])
  end.

(** The list without the later repetitions of its elements: the key order
    of a dict filled by going through the list. *)
Fixpoint first_occurrences (l : list string) : list string :=
  match l with
  | [] => []
  | x :: l' => x :: filter (fun y => negb (String.eqb y x)) (first_occurrences l')
  end.

(** [a == b].  Booleans compare as the integers 0 and 1; dicts compare
    without regard to key order. *)
Definition Z_of_bool (b : bool) : Z := if b then 1%Z else 0%Z.

Definition byte_eqb (x y : byte) : bool := N.eqb (Byte.to_N x) (Byte.to_N y).

Fixpoint bytes_eqb (x y : list byte) : bool :=
  match x, y with
  | [], [] => true
  | a :: x', b :: y' => byte_eqb a b && bytes_eqb x' y'
  | _, _ => false
  end.

Fixpoint py_eq (a b : pyval) {struct a} : bool :=
  match a, b with
  | PNone, PNone => true
  | PBool x, PBool y => Bool.eqb x y
  | PBool x, PInt y => Z.eqb (Z_of_bool x) y
  | PInt x, PBool y => Z.eqb x (Z_of_bool y)
  | PInt x, PInt y => Z.eqb x y
  | PStr x, PStr y => String.eqb x y
  | PBytes x, PBytes y => bytes_eqb x y
  | PList xs, PList ys =>
      (fix go (xs ys : list pyval) : bool :=
         match xs, ys with
         | [], [] => true
         | x :: xs', y :: ys' => py_eq x y && go xs' ys'
         | _, _ => false
         end) xs ys
  | PDict xs, PDict ys =>
      Nat.eqb (length xs) (length ys) &&
      (fix go (xs : list (string * pyval)) : bool :=
         match xs with
         | [] => true
         | (k, v) :: xs' =>
             match dict_get k ys with
             | Some v' => py_eq v v'
             | None => false
             end && go xs'
         end) xs
  | _, _ => false
  end.

(** [bytes.hex()]: two lowercase hexadecimal digits per byte. *)
Definition hex_digit (n : N) : ascii :=
  match n with
  | 0%N => "0" | 1%N => "1" | 2%N => "2" | 3%N => "3"
  | 4%N => "4" | 5%N => "5" | 6%N => "6" | 7%N => "7"
  | 8%N => "8" | 9%N => "9" | 10%N => "a" | 11%N => "b"
  | 12%N => "c" | 13%N => "d" | 14%N => "e" | _ => "f"
  end%char.

Fixpoint bytes_hex (b : list byte) : string :=
  match b with
  | [] => ""
  | x :: b' =>
      String (hex_digit (N.div (Byte.to_N x) 16))
        (String (hex_digit (N.modulo (Byte.to_N x) 16)) (bytes_hex b'))
  end.

(** [str(n)] for an int. *)
Definition str_of_int (z : Z) : string := NilZero.string_of_int (Z.to_int z).

(* ================================================================== *)
(** ** Exceptions and outcomes *)
(* ================================================================== *)

(** Where an exception class sits in the hierarchy that the [except]
    clauses of [post_request] test. *)
Inductive exn_class : Type :=
| TimeoutClass      (* asyncio.TimeoutError and its subclasses *)
| ExceptionClass    (* any other subclass of Exception *)
| BaseOnlyClass.    (* BaseException outside Exception: CancelledError, ... *)

Record exn : Type := Exn {
  exn_class_of : exn_class;
  exn_name : string;     (* type(e).__name__ *)
  exn_text : string      (* str(e) *)
}.

Inductive outcome (A : Type) : Type :=
| Returned (a : A)
| Raised (e : exn).
Arguments Returned {A} a.
Arguments Raised {A} e.

Definition KeyError (k : string) : exn :=
  Exn ExceptionClass "KeyError" ("'" ++ k ++ "'").
Definition AttributeError (v : pyval) (attr : string) : exn :=
  Exn ExceptionClass "AttributeError"
      ("'" ++ py_type_name v ++ "' object has no attribute '" ++ attr ++ "'").
Definition TypeError (msg : string) : exn :=
  Exn ExceptionClass "TypeError" msg.
Definition IndexError : exn :=
  Exn ExceptionClass "IndexError" "list index out of range".

(** [v.get(k)]: only dicts have the method. *)
Definition py_get (v : pyval) (k : string) : outcome pyval :=
  match v with
  | PDict d => Returned (match dict_get k d with Some x => x | None => PNone end)
  | _ => Raised (AttributeError v "get")
  end.

(** [v[k]] with a string key. *)
Definition py_getitem (v : pyval) (k : string) : outcome pyval :=
  match v with
  | PDict d =>
      match dict_get k d with
      | Some x => Returned x
      | None => Raised (KeyError k)
      end
  | PList _ => Raised (TypeError "list indices must be integers or slices, not str")
  | PStr _ => Raised (TypeError "string indices must be integers, not 'str'")
  | PBytes _ => Raised (TypeError "byte indices must be integers or slices, not str")
  | _ => Raised (TypeError ("'" ++ py_type_name v ++ "' object is not subscriptable"))
  end.

(** [v[k] = x] with a string key. *)
Definition py_setitem (v : pyval) (k : string) (x : pyval) : outcome pyval :=
  match v with
  | PDict d => Returned (PDict (dict_set k x d))
  | PList _ => Raised (TypeError "list indices must be integers or slices, not str")
  | _ => Raised (TypeError ("'" ++ py_type_name v
                            ++ "' object does not support item assignment"))
  end.

(** [v.hex()] *)
Definition py_hex (v : pyval) : outcome pyval :=
  match v with
  | PBytes b => Returned (PStr (bytes_hex b))
  | _ => Raised (AttributeError v "hex")
  end.

(** [len(set(l))]: raises on the first unhashable element, otherwise counts
    the elements that differ under [==]. *)
Fixpoint py_set (l : list pyval) (acc : list pyval) : outcome (list pyval) :=
  match l with
  | [] => Returned acc
  | x :: l' =>
      if hashable x then
        py_set l' (if existsb (py_eq x) acc then acc else acc ++ [x])
      else Raised (TypeError ("unhashable type: '" ++ py_type_name x ++ "'"))
  end.

Definition len_set (l : list pyval) : outcome nat :=
  match py_set l [] with
  | Returned s => Returned (length s)
  | Raised e => Raised e
  end.

(** Exceptions inside pure code. *)
Definition obind {A B} (m : outcome A) (k : A -> outcome B) : outcome B :=
  match m with
  | Returned a => k a
  | Raised e => Raised e
  end.

Notation "x <-- m ;; k" := (obind m (fun x => k))
  (at level 61, m at next level, right associativity).

(** The results of a batch of tasks as the awaiter of a join-all gets
    them: all of them, or an exception one of them raised. *)
Fixpoint all_returned {A} (os : list (outcome A)) : outcome (list A) :=
  match os with
  | [] => Returned []
  | o :: os' =>
      match o, all_returned os' with
      | Returned a, Returned l => Returned (a :: l)
      | Raised e, _ => Raised e
      | Returned _, Raised e => Raised e
      end
  end.

(* ================================================================== *)
(** ** The collaborators of the module *)
(* ================================================================== *)

(** What [NodesInfo.lookup_node] gives for a known node: the two fields
    the coordinator reads. *)
Record node_info : Type := NodeInfo {
  host : string;
  port : Z
}.

(** [abstract.NodesInfo]: the node directory; it fails on an unknown id. *)
Record NodesInfo : Type := {
  lookup_node : string -> outcome node_info
}.

(** One HTTP exchange as [post_request] sees it: either entering
    [session.post(...)] raises (no connection, no response headers within
    the timeout, ...), or a response object arrives and [response.json()]
    then returns a document or raises. *)
Inductive http_exchange : Type :=
| RequestFails (e : exn)
| ResponseArrives (body : outcome json).

(** The network behind [aiohttp]. *)
Record Network : Type := {
  http_post : string -> pyval -> Z -> http_exchange
}.

Section Module_sa.

(** [fastecdsa] curve points, opaque to this module. *)
Variable Point : Type.

(** The functions of [pyfrost] and [pyfrost.frost] that the coordinator
    calls.  Each may raise. *)
Record CryptoProvider : Type := {
  aggregate_nonce : pyval -> pyval -> pyval -> outcome Point;
  pub_to_code : Point -> outcome pyval;
  code_to_pub : pyval -> outcome Point;
  aggregate_signatures : pyval -> list pyval -> Point -> pyval -> outcome pyval;
  verify_group_signature : pyval -> outcome pyval
}.

(** Calls that leave the module, in the order they are made. *)
Inductive event : Type :=
| EvLookup (node_id : string)
| EvPost (url : string) (body : pyval) (timeout : Z)
| EvAggregateNonce (message nonces_list public_key : pyval)
| EvPubToCode (p : Point)
| EvCodeToPub (code : pyval)
| EvAggregateSignatures (message : pyval) (signs : list pyval)
                        (nonce : Point) (public_key : pyval)
| EvVerify (aggregated_sign : pyval).

(** The world outside: the calls made so far and how many ids
    [uuid.uuid4()] has handed out. *)
Record world : Type := World {
  trace : list event;
  uuid_draws : nat
}.

Definition log (ev : event) (w : world) : world :=
  World (trace w ++ [ev]) (uuid_draws w).

(** Computations that may call out and may raise. *)
Definition M (A : Type) : Type := world -> outcome A * world.

Definition ret {A} (a : A) : M A := fun w => (Returned a, w).
Definition raise {A} (e : exn) : M A := fun w => (Raised e, w).
Definition bind {A B} (m : M A) (k : A -> M B) : M B :=
  fun w =>
    match m w with
    | (Returned a, w') => k a w'
    | (Raised e, w') => (Raised e, w')
    end.
Definition lift {A} (o : outcome A) : M A := fun w => (o, w).
(** An outward call: record it, then take the collaborator's answer. *)
Definition call {A} (ev : event) (o : outcome A) : M A :=
  fun w => (o, log ev w).

Notation "x <- m ;; k" := (bind m (fun x => k))
  (at level 61, m at next level, right associativity).

(** A list comprehension whose element expression may raise. *)
Fixpoint for_each {A B} (f : A -> M B) (l : list A) : M (list B) :=
  match l with
  | [] => ret []
  | a :: l' =>
      b <- f a ;;
      bs <- for_each f l' ;;
      ret (b :: bs)
  end.

(** [asyncio.gather] over the task list: every task is started; the
    results come back in task order; if some task raised, an exception
    reaches the awaiter.  The model takes the first in task order, where
    asyncio hands over the one raised first in time; the statements
    below only say that the propagated exception is one that a task
    raised. *)
Fixpoint gather {A} (tasks : list (M A)) : M (list A) :=
  fun w =>
    match tasks with
    | [] => (Returned [], w)
    | t :: ts =>
        let (o, w1) := t w in
        let (os, w2) := gather ts w1 in
        (match o, os with
         | Returned a, Returned l => Returned (a :: l)
         | Raised e, _ => Raised e
         | Returned _, Raised e => Raised e
         end, w2)
    end.

Variable net : Network.
Variable crypto : CryptoProvider.
(** The ids [uuid.uuid4()] hands out, draw by draw, as strings. *)
Variable uuid4 : nat -> string.

(* ---------------------------------------------------------------- *)
(** *** [post_request] (lines 11-25) *)

Definition timeout_sentinel : pyval :=
  PDict [("status", PStr "TIMEOUT");
         ("error", PStr "Communication timed out")].

Definition error_sentinel (e : exn) : pyval :=
  PDict [("status", PStr "ERROR");
         ("error", PStr ("An exception occurred: "
                         ++ exn_name e ++ ": " ++ exn_text e))].

(** The [try] covers [response.json()] only. *)
Definition post_request_result (x : http_exchange) : outcome pyval :=
  match x with
  | RequestFails e => Raised e
  | ResponseArrives (Returned j) => Returned (of_json j)
  | ResponseArrives (Raised e) =>
      match exn_class_of e with
      | TimeoutClass => Returned timeout_sentinel
      | ExceptionClass => Returned (error_sentinel e)
      | BaseOnlyClass => Raised e
      end
  end.

Definition post_request (url : string) (data : pyval) (timeout : Z)
  : M pyval :=
  call (EvPost url data timeout)
       (post_request_result (http_post net url data timeout)).

(* ---------------------------------------------------------------- *)
(** *** class [SA] *)

Record SA : Type := {
  nodes_info : NodesInfo;
  default_timeout : Z
}.

Variable self : SA.

(** [f'http://{node["host"]}:{node["port"]}' + call_method] *)
Definition node_url (call_method : string) (node : node_info) : string :=
  "http://" ++ host node ++ ":" ++ str_of_int (port node) ++ call_method.

Definition lookup (node_id : string) : M node_info :=
  call (EvLookup node_id) (lookup_node (nodes_info self) node_id).

(** Lines 39-44 and 67-73, the same in both ceremonies: resolve every
    member, build the urls, post the shared body to each, await all. *)
Definition fan_out (call_method : string) (request_data : pyval)
           (party : list string) : M (list pyval) :=
  node_info <- for_each lookup party ;;
  let urls := map (node_url call_method) node_info in
  let request_tasks :=
    map (fun url => post_request url request_data (default_timeout self)) urls in
  gather request_tasks.

(** [request_nonces] (lines 34-49).  The [logging.debug] line evaluates
    [json.dumps] on a dict of decoded JSON documents and sentinels under
    string keys, which cannot fail. *)
Definition request_nonces (party : list string) (number_of_nonces : Z)
  : M (list (string * pyval)) :=
  let call_method := "/v1/generate-nonces" in
  let request_data := PDict [("number_of_nonces", PInt number_of_nonces)] in
  responses <- fan_out call_method request_data party ;;
  let nonces_response := dict_of_zip party responses in
  ret nonces_response.

(* ---------------------------------------------------------------- *)
(** *** [request_signature] (lines 51-135) *)

(** The [dkg_key] dict: the two entries the coordinator reads. *)
Record dkg_key_t : Type := DkgKey {
  public_key : pyval;
  party : list string
}.

(** [set(a).issubset(set(b))] on node ids. *)
Definition issubset (a b : list string) : bool :=
  forallb (fun x => existsb (String.eqb x) b) a.

(** The four accumulators of the extraction loop (lines 78-81). *)
Record extraction : Type := Extraction {
  sample_result : list pyval;
  signs : list pyval;
  aggregated_public_nonces : list pyval;
  str_message : pyval
}.

Definition extraction_init : extraction := Extraction [] [] [] PNone.

(** [data.get('signature_data', {})] *)
Definition py_get_or_empty (v : pyval) (k : string) : outcome pyval :=
  match v with
  | PDict d =>
      Returned (match dict_get k d with Some x => x | None => PDict [] end)
  | _ => Raised (AttributeError v "get")
  end.

(** One turn of the loop at lines 82-93. *)
Definition extract_step (acc : extraction) (data : pyval)
  : outcome extraction :=
  _hash <-- py_get data "hash" ;;
  _signature_data <-- py_get data "signature_data" ;;
  sd <-- py_get_or_empty data "signature_data" ;;
  _aggregated_public_nonce <-- py_get sd "aggregated_public_nonce" ;;
  let acc1 :=
    if truthy _hash && is_none (str_message acc)
    then Extraction (sample_result acc ++ [data]) (signs acc)
                    (aggregated_public_nonces acc) _hash
    else acc in
  let acc2 :=
    if truthy _signature_data
    then Extraction (sample_result acc1) (signs acc1 ++ [_signature_data])
                    (aggregated_public_nonces acc1) (str_message acc1)
    else acc1 in
  let acc3 :=
    if truthy _aggregated_public_nonce
    then Extraction (sample_result acc2) (signs acc2)
                    (aggregated_public_nonces acc2 ++ [_aggregated_public_nonce])
                    (str_message acc2)
    else acc2 in
  Returned acc3.

Fixpoint extract_from (acc : extraction) (values : list pyval)
  : outcome extraction :=
  match values with
  | [] => Returned acc
  | data :: rest =>
      acc' <-- extract_step acc data ;;
      extract_from acc' rest
  end.

Definition extract (signatures : list (string * pyval)) : outcome extraction :=
  extract_from extraction_init (dict_values signatures).

(** The loop at lines 104-107.  It returns the mapping with the statuses
    it has set, and whether it set [response['result']] to ['FAILED'].
    The records it updates are also the ones held in [sample_result];
    that list is only read on the path where nothing was updated. *)
Fixpoint flag_disagreeing (aggregated_public_nonce : pyval)
         (signatures : list (string * pyval))
  : outcome (list (string * pyval) * bool) :=
  match signatures with
  | [] => Returned ([], false)
  | (node_id, data) :: rest =>
      sd <-- py_getitem data "signature_data" ;;
      reported <-- py_getitem sd "aggregated_public_nonce" ;;
      if negb (py_eq reported aggregated_public_nonce) then
        data' <-- py_setitem data "status" (PStr "MALICIOUS") ;;
        r <-- flag_disagreeing aggregated_public_nonce rest ;;
        Returned ((node_id, data') :: fst r, true)
      else
        r <-- flag_disagreeing aggregated_public_nonce rest ;;
        Returned ((node_id, data) :: fst r, snd r)
  end.

(** The loop at lines 108-111: stops at the first malicious record. *)
Fixpoint any_malicious (values : list pyval) : outcome bool :=
  match values with
  | [] => Returned false
  | data :: rest =>
      status <-- py_getitem data "status" ;;
      if py_eq status (PStr "MALICIOUS") then Returned true
      else any_malicious rest
  end.

(** Lines 99-107: when the reported nonces are not one single value,
    recompute the nonce and flag whoever disagrees with it.  The boolean
    stands for [response['result'] == 'FAILED']. *)
Definition recompute_and_flag (dkg_key : dkg_key_t) (nonces_list : pyval)
           (ex : extraction) (signatures : list (string * pyval))
  : M (list (string * pyval) * bool) :=
  n <- lift (len_set (aggregated_public_nonces ex)) ;;
  if negb (Nat.eqb n 1) then
    aggregated_public_nonce <-
      call (EvAggregateNonce (str_message ex) nonces_list (public_key dkg_key))
           (aggregate_nonce crypto (str_message ex) nonces_list
                            (public_key dkg_key)) ;;
    aggregated_public_nonce <-
      call (EvPubToCode aggregated_public_nonce)
           (pub_to_code crypto aggregated_public_nonce) ;;
    lift (flag_disagreeing aggregated_public_nonce signatures)
  else ret (signatures, false).

(** Lines 95-111: the consistency check. *)
Definition consistency_check (dkg_key : dkg_key_t) (nonces_list : pyval)
           (ex : extraction) (signatures : list (string * pyval))
  : M (list (string * pyval) * bool) :=
  flagged <- recompute_and_flag dkg_key nonces_list ex signatures ;;
  found <- lift (any_malicious (dict_values (fst flagged))) ;;
  ret (fst flagged, snd flagged || found).

Definition failed_response (signatures : pyval) : pyval :=
  PDict [("result", PStr "FAILED"); ("signatures", signatures)].

(** Lines 121-135: aggregation, verification and result shaping. *)
Definition aggregate_and_verify (dkg_key : dkg_key_t) (request_id : string)
           (ex : extraction) : M pyval :=
  first <- lift (match aggregated_public_nonces ex with
                 | x :: _ => Returned x
                 | [] => Raised IndexError
                 end) ;;
  aggregated_public_nonce <-
    call (EvCodeToPub first) (code_to_pub crypto first) ;;
  aggregated_sign <-
    call (EvAggregateSignatures (str_message ex) (signs ex)
                                aggregated_public_nonce (public_key dkg_key))
         (aggregate_signatures crypto (str_message ex) (signs ex)
                               aggregated_public_nonce (public_key dkg_key)) ;;
  verified <-
    call (EvVerify aggregated_sign)
         (verify_group_signature crypto aggregated_sign) ;;
  if truthy verified then
    lift (message_hash <-- py_getitem aggregated_sign "message_hash" ;;
          hex <-- py_hex message_hash ;;
          s1 <-- py_setitem aggregated_sign "message_hash" hex ;;
          s2 <-- py_setitem s1 "result" (PStr "SUCCESSFUL") ;;
          s3 <-- py_setitem s2 "signature_data" (PList (sample_result ex)) ;;
          py_setitem s3 "request_id" (PStr request_id))
  else
    lift (py_setitem aggregated_sign "result" (PStr "FAILED")).

(** [str(uuid.uuid4())] *)
Definition fresh_uuid : M string :=
  fun w => (Returned (uuid4 (uuid_draws w)),
            World (trace w) (S (uuid_draws w))).

(** The shared payload (lines 61-66). *)
Definition sign_request (request_id : string) (dkg_key : dkg_key_t)
           (nonces_list sa_data : pyval) : pyval :=
  PDict [("request_id", PStr request_id);
         ("dkg_public_key", public_key dkg_key);
         ("nonces_list", nonces_list);
         ("data", sa_data)].

(** Lines 78-135, everything after the responses are in. *)
Definition settle (dkg_key : dkg_key_t) (nonces_list : pyval)
           (request_id : string) (signatures : list (string * pyval))
  : M pyval :=
  ex <- lift (extract signatures) ;;
  checked <- consistency_check dkg_key nonces_list ex signatures ;;
  if snd checked then
    ret (failed_response (PDict (fst checked)))
  else
    aggregate_and_verify dkg_key request_id ex.

(** Lines 60-74: draw the request id, build the payload, fan out and
    key the responses by signer.  As for [request_nonces], the
    [logging.debug] line cannot fail and is left out. *)
Definition collect_signatures (dkg_key : dkg_key_t)
           (nonces_list sa_data : pyval) (sign_party : list string)
  : M (string * list (string * pyval)) :=
  let call_method := "/v1/sign" in
  request_id <- fresh_uuid ;;
  let request_data := sign_request request_id dkg_key nonces_list sa_data in
  responses <- fan_out call_method request_data sign_party ;;
  let signatures := dict_of_zip sign_party responses in
  ret (request_id, signatures).

Definition request_signature (dkg_key : dkg_key_t)
           (nonces_list sa_data : pyval) (sign_party : list string)
  : M pyval :=
  if negb (issubset sign_party (party dkg_key)) then
    ret (failed_response PNone)
  else
    collected <- collect_signatures dkg_key nonces_list sa_data sign_party ;;
    settle dkg_key nonces_list (fst collected) (snd collected).

End Module_sa.

Arguments EvLookup {Point} node_id.
Arguments EvPost {Point} url body timeout.
Arguments EvAggregateNonce {Point} message nonces_list public_key.
Arguments EvPubToCode {Point} p.
Arguments EvCodeToPub {Point} code.
Arguments EvAggregateSignatures {Point} message signs nonce public_key.
Arguments EvVerify {Point} aggregated_sign.
Arguments World {Point} trace uuid_draws.
Arguments trace {Point} w.
Arguments uuid_draws {Point} w.
Arguments log {Point} ev w.
Arguments ret {Point A} a w.
Arguments bind {Point A B} m k w.
Arguments lift {Point A} o w.
Arguments call {Point A} ev o w.

(* ================================================================== *)
(** ** A small deployment to run the model on *)
(* ================================================================== *)

Module Demo.

(** Three nodes; any other id is unknown to the directory. *)
Definition directory : NodesInfo :=
  {| lookup_node := fun node_id =>
       match dict_get node_id
               [("1", NodeInfo "10.0.0.1" 5001);
                ("2", NodeInfo "10.0.0.2" 5002);
                ("3", NodeInfo "10.0.0.3" 5003)] with
       | Some node => Returned node
       | None => Raised (KeyError node_id)
       end |}.

Definition sa : SA := {| nodes_info := directory; default_timeout := 200 |}.

(** A network given by what each url answers; an url outside the table
    refuses the connection. *)
Definition network (table : list (string * http_exchange)) : Network :=
  {| http_post := fun url _ _ =>
       match dict_get url table with
       | Some x => x
       | None => RequestFails
                   (Exn ExceptionClass "ClientConnectorError"
                        "Cannot connect to host")
       end |}.

Definition sign1 : string := "http://10.0.0.1:5001/v1/sign".
Definition sign2 : string := "http://10.0.0.2:5002/v1/sign".
Definition sign3 : string := "http://10.0.0.3:5003/v1/sign".

(** A signer's answer to [/v1/sign]. *)
Definition share (hash : string) (nonce : json) (status : string) : json :=
  JObj [("hash", JStr hash);
        ("signature_data",
         JObj [("aggregated_public_nonce", nonce); ("signature", JNum 11)]);
        ("status", JStr status)].

Definition ok (j : json) : http_exchange := ResponseArrives (Returned j).

Definition timed_out : http_exchange :=
  ResponseArrives (Raised (Exn TimeoutClass "TimeoutError" "")).

Definition undecodable : http_exchange :=
  ResponseArrives (Raised (Exn ExceptionClass "ValueError" "bad")).

(** All three signers agree on nonce 7. *)
Definition honest : Network :=
  network [(sign1, ok (share "aa" (JNum 7) "SUCCESSFUL"));
           (sign2, ok (share "bb" (JNum 7) "SUCCESSFUL"));
           (sign3, ok (share "cc" (JNum 7) "SUCCESSFUL"))].

(** Signer 2 reports nonce 5. *)
Definition forging : Network :=
  network [(sign1, ok (share "aa" (JNum 7) "SUCCESSFUL"));
           (sign2, ok (share "aa" (JNum 5) "SUCCESSFUL"));
           (sign3, ok (share "aa" (JNum 7) "SUCCESSFUL"))].

(** Signer 2 reports the empty nonce 0. *)
Definition forging_empty : Network :=
  network [(sign1, ok (share "aa" (JNum 7) "SUCCESSFUL"));
           (sign2, ok (share "aa" (JNum 0) "SUCCESSFUL"));
           (sign3, ok (share "aa" (JNum 7) "SUCCESSFUL"))].

(** Signer 2 declares itself malicious. *)
Definition confessing : Network :=
  network [(sign1, ok (share "aa" (JNum 7) "SUCCESSFUL"));
           (sign2, ok (share "aa" (JNum 7) "MALICIOUS"));
           (sign3, ok (share "aa" (JNum 7) "SUCCESSFUL"))].

(** Signer 3 does not deliver its body in time. *)
Definition slow3 : Network :=
  network [(sign1, ok (share "aa" (JNum 7) "SUCCESSFUL"));
           (sign2, ok (share "aa" (JNum 7) "SUCCESSFUL"));
           (sign3, timed_out)].

(** Signer 1 sends a body that is not JSON. *)
Definition garbled1 : Network := network [(sign1, undecodable)].

(** All three signers agree on nonce 5, which is not the correct one. *)
Definition colluding : Network :=
  network [(sign1, ok (share "aa" (JNum 5) "SUCCESSFUL"));
           (sign2, ok (share "aa" (JNum 5) "SUCCESSFUL"));
           (sign3, ok (share "aa" (JNum 5) "SUCCESSFUL"))].

(** Signer 1 sends an empty hash. *)
Definition hashless1 : Network :=
  network [(sign1, ok (share "" (JNum 7) "SUCCESSFUL"));
           (sign2, ok (share "bb" (JNum 7) "SUCCESSFUL"));
           (sign3, ok (share "cc" (JNum 7) "SUCCESSFUL"))].

(** The nonce endpoints. *)
Definition nonces : Network :=
  network [("http://10.0.0.1:5001/v1/generate-nonces", ok (JArr [JNum 1]));
           ("http://10.0.0.2:5002/v1/generate-nonces", ok (JArr [JNum 2]));
           ("http://10.0.0.3:5003/v1/generate-nonces", timed_out)].

(** A crypto provider over integers standing for points: the correct
    aggregated nonce is 7; a signature verifies when it was aggregated
    under that nonce. *)
Definition provider : CryptoProvider Z :=
  {| aggregate_nonce := fun _ _ _ => Returned 7%Z;
     pub_to_code := fun p => Returned (PInt p);
     code_to_pub := fun c =>
       match c with
       | PInt z => Returned z
       | _ => Raised (TypeError "an integer is required")
       end;
     aggregate_signatures := fun message _ nonce _ =>
       Returned (PDict [("nonce", PInt nonce);
                        ("signature", PInt 33);
                        ("message_hash", PBytes [x0a; xff])]);
     verify_group_signature := fun aggregated_sign =>
       match aggregated_sign with
       | PDict d =>
           match dict_get "nonce" d with
           | Some n => Returned (PBool (py_eq n (PInt 7)))
           | None => Returned (PBool false)
           end
       | _ => Returned (PBool false)
       end |}.

(** A uuid source that spells the draw number in unary. *)
Fixpoint unary (n : nat) : string :=
  match n with
  | O => "u"
  | S n' => String "i" (unary n')
  end.

Definition key : dkg_key_t := DkgKey (PInt 99) ["1"; "2"; "3"].
Definition commitments : pyval := PDict [("1", PInt 1); ("2", PInt 2)].
Definition payload : pyval := PDict [("message", PStr "pay")].
Definition start : world Z := World [] 0.

(** The fields of a decoded [share]. *)
Definition signature_data (nonce : pyval) : pyval :=
  PDict [("aggregated_public_nonce", nonce); ("signature", PInt 11)].

Definition fields (hash : string) (nonce : pyval) (status : string)
  : list (string * pyval) :=
  [("hash", PStr hash);
   ("signature_data", signature_data nonce);
   ("status", PStr status)].

(** The world once the three signers have been asked over [net]. *)
Definition asked (net : Network) : world Z :=
  snd (collect_signatures Z net unary sa key commitments payload
                          ["1"; "2"; "3"] start).

(** The aggregate signature the provider makes under a nonce. *)
Definition aggregate (nonce : Z) : list (string * pyval) :=
  [("nonce", PInt nonce);
   ("signature", PInt 33);
   ("message_hash", PBytes [x0a; xff])].

(** Node 2 cannot be reached for nonces. *)
Definition nonces_without2 : Network :=
  network [("http://10.0.0.1:5001/v1/generate-nonces", ok (JArr [JNum 1]));
           ("http://10.0.0.3:5003/v1/generate-nonces", timed_out)].

(** Signers 1 and 3 report nonces 4 and 5; only signer 2 reports 7. *)
Definition two_forgers : Network :=
  network [(sign1, ok (share "aa" (JNum 4) "SUCCESSFUL"));
           (sign2, ok (share "aa" (JNum 7) "SUCCESSFUL"));
           (sign3, ok (share "aa" (JNum 5) "SUCCESSFUL"))].

(** Signer 2 reports a list as its nonce. *)
Definition listed_nonce2 : Network :=
  network [(sign1, ok (share "aa" (JNum 7) "SUCCESSFUL"));
           (sign2, ok (share "aa" (JArr [JNum 7]) "SUCCESSFUL"));
           (sign3, ok (share "aa" (JNum 7) "SUCCESSFUL"))].

(** Signer 2 answers with a JSON array instead of an object. *)
Definition array_body2 : Network :=
  network [(sign1, ok (share "aa" (JNum 7) "SUCCESSFUL"));
           (sign2, ok (JArr [JStr "busy"]));
           (sign3, ok (share "aa" (JNum 7) "SUCCESSFUL"))].

(** Signers 1 and 2 disagree and signer 3 does not deliver in time. *)
Definition forging_slow3 : Network :=
  network [(sign1, ok (share "aa" (JNum 7) "SUCCESSFUL"));
           (sign2, ok (share "aa" (JNum 5) "SUCCESSFUL"));
           (sign3, timed_out)].

(** No signer sends a hash. *)
Definition hashless : Network :=
  network [(sign1, ok (share "" (JNum 7) "SUCCESSFUL"));
           (sign2, ok (share "" (JNum 7) "SUCCESSFUL"));
           (sign3, ok (share "" (JNum 7) "SUCCESSFUL"))].

(** Signer 1 declares itself malicious, signer 2 reports another nonce and
    signer 3 does not deliver in time. *)
Definition confessing_slow3 : Network :=
  network [(sign1, ok (share "aa" (JNum 7) "MALICIOUS"));
           (sign2, ok (share "aa" (JNum 5) "SUCCESSFUL"));
           (sign3, timed_out)].

(** A key whose party has a member, 9, that the directory does not know. *)
Definition key9 : dkg_key_t := DkgKey (PInt 99) ["1"; "9"].

End Demo.

(* ================================================================== *)
(** ** Properties *)
(* ================================================================== *)

(** *** Vocabulary *)

(** Which collaborator an outward call goes to. *)
Inductive phase : Type :=
| Directory        (* NodesInfo.lookup_node *)
| Transport        (* post_request *)
| Recomputation    (* aggregate_nonce, pub_to_code *)
| Aggregation.     (* code_to_pub, aggregate_signatures, verify_group_signature *)

Definition event_phase {Point} (ev : event Point) : phase :=
  match ev with
  | EvLookup _ => Directory
  | EvPost _ _ _ => Transport
  | EvAggregateNonce _ _ _ | EvPubToCode _ => Recomputation
  | EvCodeToPub _ | EvAggregateSignatures _ _ _ _ | EvVerify _ => Aggregation
  end.

(** The request body of a transport call. *)
Definition event_body {Point} (ev : event Point) : option pyval :=
  match ev with
  | EvPost _ body _ => Some body
  | _ => None
  end.

(** The message digest handed to a crypto call that takes one. *)
Definition event_digest {Point} (ev : event Point) : option pyval :=
  match ev with
  | EvAggregateNonce message _ _ => Some message
  | EvAggregateSignatures message _ _ _ => Some message
  | _ => None
  end.

(** What a response record reports: [data['signature_data']
    ['aggregated_public_nonce']], [data['status']] and [data['hash']],
    when the record has them. *)
Definition reported_nonce (data : pyval) : option pyval :=
  match data with
  | PDict d =>
      match dict_get "signature_data" d with
      | Some (PDict sd) => dict_get "aggregated_public_nonce" sd
      | _ => None
      end
  | _ => None
  end.

Definition status_of (data : pyval) : option pyval :=
  match data with
  | PDict d => dict_get "status" d
  | _ => None
  end.

Definition is_malicious (data : pyval) : bool :=
  match status_of data with
  | Some s => py_eq s (PStr "MALICIOUS")
  | None => false
  end.

(** A record whose hash is missing or empty. *)
Definition no_hash (data : pyval) : bool :=
  match data with
  | PDict d =>
      match dict_get "hash" d with
      | Some h => negb (truthy h)
      | None => true
      end
  | _ => false
  end.

(** The nonce the extraction loop reads from a record: [None] when the
    record reports none. *)
Definition collected_nonce (data : pyval) : pyval :=
  match reported_nonce data with
  | Some v => v
  | None => PNone
  end.

(** Hashable objects that are [==] have one normal form: [True] and
    [False] are the integers 1 and 0. *)
Definition norm (v : pyval) : pyval :=
  match v with
  | PBool b => PInt (Z_of_bool b)
  | _ => v
  end.

(** [w'] is [w] after some more outward calls, each satisfying [P], and no
    uuid drawn. *)
Definition appends {Point} (P : event Point -> Prop) (w w' : world Point) : Prop :=
  uuid_draws w' = uuid_draws w /\
  exists evs, trace w' = trace w ++ evs /\ Forall P evs.

(** A record whose reported nonce is not [==] to [code]: what the test
    of line 105 finds. *)
Definition disagrees (code : pyval) (data : pyval) : bool :=
  match reported_nonce data with
  | Some v => negb (py_eq v code)
  | None => false
  end.

(** The record with its status set to ['MALICIOUS']. *)
Definition marked (data : pyval) : pyval :=
  match data with
  | PDict d => PDict (dict_set "status" (PStr "MALICIOUS") d)
  | _ => data
  end.

(** A record with neither hash nor signature data, and with a status
    other than ['MALICIOUS']: the shape of the two sentinels of
    [post_request]. *)
Definition shareless (data : pyval) : bool :=
  match data with
  | PDict d =>
      match dict_get "hash" d, dict_get "signature_data" d,
            dict_get "status" d with
      | None, None, Some s => negb (py_eq s (PStr "MALICIOUS"))
      | _, _, _ => false
      end
  | _ => false
  end.

(** [data.get('signature_data')] on a record. *)
Definition signature_data_of (data : pyval) : pyval :=
  match data with
  | PDict d =>
      match dict_get "signature_data" d with
      | Some sd => sd
      | None => PNone
      end
  | _ => PNone
  end.

Definition is_dict (v : pyval) : bool :=
  match v with
  | PDict _ => true
  | _ => false
  end.

(** *** Dicts *)

Definition mem (k : string) (l : list string) : bool := existsb (String.eqb k) l.

Lemma mem_In (k : string) (l : list string) : mem k l = true <-> In k l.
Proof.
  unfold mem. rewrite existsb_exists. split.
  - intros [y [Hy E]]. apply String.eqb_eq in E. now subst.
  - intros H. exists k. split; [auto | apply String.eqb_refl].
Qed.

Lemma mem_app (k : string) (l1 l2 : list string) :
  mem k (l1 ++ l2) = mem k l1 || mem k l2.
Proof. unfold mem. apply existsb_app. Qed.

Lemma dict_get_set_same {V} (k : string) (v : V) (d : list (string * V)) :
  dict_get k (dict_set k v d) = Some v.
Proof.
  induction d as [|[k' v'] d IH]; simpl.
  - now rewrite String.eqb_refl.
  - destruct (String.eqb k k') eqn:E; simpl; rewrite E; auto.
Qed.

Lemma dict_get_set_other {V} (k k' : string) (v : V) (d : list (string * V)) :
  k <> k' -> dict_get k (dict_set k' v d) = dict_get k d.
Proof.
  intros Hne. induction d as [|[k2 v2] d IH]; simpl.
  - destruct (String.eqb k k') eqn:E; auto.
    apply String.eqb_eq in E. contradiction.
  - destruct (String.eqb k' k2) eqn:E2; simpl.
    + apply String.eqb_eq in E2. subst k2.
      destruct (String.eqb k k') eqn:E; auto.
      apply String.eqb_eq in E. contradiction.
    + now rewrite IH.
Qed.

Lemma issubset_incl (a b : list string) :
  issubset a b = true <-> incl a b.
Proof.
  unfold issubset, incl. rewrite forallb_forall. split; intros H x Hx.
  - apply H in Hx. apply existsb_exists in Hx as [y [Hy E]].
    apply String.eqb_eq in E. now subst.
  - apply existsb_exists. exists x. split; [auto | apply String.eqb_refl].
Qed.

Lemma dict_keys_set {V} (k : string) (v : V) (d : list (string * V)) :
  dict_keys (dict_set k v d) =
  if mem k (dict_keys d) then dict_keys d else dict_keys d ++ [k].
Proof.
  induction d as [|[k' v'] d IH]; simpl; [reflexivity|].
  destruct (String.eqb k k') eqn:E; simpl; [reflexivity|].
  unfold dict_keys in *. rewrite IH.
  now destruct (mem k (map fst d)).
Qed.

Lemma dict_get_keys {V} (k : string) (d : list (string * V)) :
  In k (dict_keys d) <-> exists v, dict_get k d = Some v.
Proof.
  induction d as [|[k' v'] d IH]; simpl.
  - split; [tauto | intros [v Hv]; discriminate].
  - destruct (String.eqb k k') eqn:E.
    + apply String.eqb_eq in E. subst. split; eauto.
    + apply String.eqb_neq in E. rewrite <- IH. split; [|tauto].
      intros [H|H]; [congruence | auto].
Qed.

Lemma first_occurrences_In (x : string) (l : list string) :
  In x (first_occurrences l) <-> In x l.
Proof.
  induction l as [|a l IH]; simpl; [tauto|].
  rewrite filter_In, IH.
  destruct (String.eqb x a) eqn:E.
  - apply String.eqb_eq in E. subst. tauto.
  - apply String.eqb_neq in E. simpl. split.
    + intros [H|[H _]]; auto.
    + intros [H|H]; [congruence | auto].
Qed.

Lemma first_occurrences_NoDup (l : list string) : NoDup (first_occurrences l).
Proof.
  induction l as [|a l IH]; simpl; constructor.
  - rewrite filter_In, String.eqb_refl. simpl. intros [_ H]. discriminate.
  - now apply NoDup_filter.
Qed.

Lemma first_occurrences_id (l : list string) :
  NoDup l -> first_occurrences l = l.
Proof.
  induction 1 as [|a l Hin Hnd IH]; simpl; [reflexivity|].
  rewrite IH. f_equal.
  apply forallb_filter_id. apply forallb_forall.
  intros y Hy. destruct (String.eqb y a) eqn:E; [|reflexivity].
  apply String.eqb_eq in E. subst. contradiction.
Qed.

Lemma filter_twice {A} (f g : A -> bool) (l : list A) :
  filter f (filter g l) = filter (fun x => f x && g x) l.
Proof.
  induction l as [|a l IH]; simpl; [reflexivity|].
  destruct (g a) eqn:G; simpl.
  - rewrite andb_true_r. destruct (f a); now rewrite IH.
  - now rewrite andb_false_r.
Qed.

(** The keys of a dict filled pair by pair. *)
Lemma dict_keys_fold {V} (l : list (string * V)) (acc : list (string * V)) :
  dict_keys (fold_left (fun d kv => dict_set (fst kv) (snd kv) d) l acc) =
  dict_keys acc
  ++ filter (fun y => negb (mem y (dict_keys acc))) (first_occurrences (map fst l)).
Proof.
  revert acc. induction l as [|[k v] l IH]; intros acc; simpl.
  - now rewrite app_nil_r.
  - rewrite IH, dict_keys_set. simpl.
    destruct (mem k (dict_keys acc)) eqn:Hk; simpl.
    + f_equal. rewrite filter_twice. apply filter_ext. intros y.
      destruct (String.eqb y k) eqn:E; simpl.
      * apply String.eqb_eq in E. subst. now rewrite Hk.
      * now rewrite andb_true_r.
    + rewrite <- app_assoc. simpl. do 2 f_equal.
      rewrite filter_twice. apply filter_ext. intros y.
      rewrite mem_app. unfold mem at 2. simpl. rewrite orb_false_r, negb_orb.
      reflexivity.
Qed.

Lemma combine_fst {A B} (l : list A) (l' : list B) :
  length l = length l' -> map fst (combine l l') = l.
Proof.
  revert l'. induction l as [|a l IH]; intros [|b l'] H; simpl in *;
    try discriminate; [reflexivity|].
  f_equal. apply IH. lia.
Qed.

Lemma dict_of_zip_keys {V} (keys : list string) (values : list V) :
  length keys = length values ->
  dict_keys (dict_of_zip keys values) = first_occurrences keys.
Proof.
  intros Hlen. unfold dict_of_zip. rewrite dict_keys_fold. simpl.
  rewrite combine_fst by assumption.
  apply forallb_filter_id. apply forallb_forall. reflexivity.
Qed.

(** Without repeated keys the dict is the zip itself. *)
Lemma dict_fold_fresh {V} (l acc : list (string * V)) :
  NoDup (map fst l) ->
  (forall k, In k (map fst l) -> ~ In k (dict_keys acc)) ->
  fold_left (fun d kv => dict_set (fst kv) (snd kv) d) l acc = acc ++ l.
Proof.
  revert acc. induction l as [|[k v] l IH]; intros acc Hnd Hfresh; simpl.
  - now rewrite app_nil_r.
  - inversion Hnd as [|? ? Hk Hnd']; subst.
    assert (Hset : dict_set k v acc = acc ++ [(k, v)]).
    { assert (Hk' : ~ In k (dict_keys acc)) by (apply Hfresh; simpl; auto).
      clear -Hk'. induction acc as [|[k' v'] acc IHa]; simpl; [reflexivity|].
      destruct (String.eqb k k') eqn:E.
      - apply String.eqb_eq in E. subst. elim Hk'. simpl. auto.
      - f_equal. apply IHa. intros H. apply Hk'. simpl. auto. }
    rewrite Hset, IH; auto.
    + now rewrite <- app_assoc.
    + intros k0 Hk0. unfold dict_keys. rewrite map_app, in_app_iff. simpl.
      intros [H|[H|[]]].
      * apply (Hfresh k0); simpl; auto.
      * subst. contradiction.
Qed.

Lemma dict_of_zip_NoDup {V} (keys : list string) (values : list V) :
  NoDup keys -> length keys = length values ->
  dict_of_zip keys values = combine keys values.
Proof.
  intros Hnd Hlen. unfold dict_of_zip.
  rewrite dict_fold_fresh; simpl; auto.
  now rewrite combine_fst.
Qed.

(** Every entry of the dict is one of the pairs it was filled with. *)
Lemma dict_fold_get {V} (l acc : list (string * V)) (k : string) (v : V) :
  dict_get k (fold_left (fun d kv => dict_set (fst kv) (snd kv) d) l acc) = Some v ->
  In (k, v) l \/ dict_get k acc = Some v.
Proof.
  revert acc. induction l as [|[k' v'] l IH]; intros acc H; simpl in *; auto.
  apply IH in H as [H|H]; auto.
  destruct (String.eqb k k') eqn:E.
  - apply String.eqb_eq in E. subst.
    rewrite dict_get_set_same in H. inversion H. auto.
  - apply String.eqb_neq in E. rewrite dict_get_set_other in H; auto.
Qed.

(** *** Reading response records *)

Lemma reported_nonce_getitem (data v : pyval) :
  reported_nonce data = Some v ->
  exists sd, py_getitem data "signature_data" = Returned sd
             /\ py_getitem sd "aggregated_public_nonce" = Returned v.
Proof.
  unfold reported_nonce. destruct data as [| | | | | |d]; try discriminate.
  simpl. destruct (dict_get "signature_data" d) as [[| | | | | |sd]|];
    try discriminate.
  intros H. exists (PDict sd). simpl. now rewrite H.
Qed.

Lemma status_of_getitem (data : pyval) :
  status_of data <> None ->
  exists s, status_of data = Some s /\ py_getitem data "status" = Returned s.
Proof.
  unfold status_of. destruct data as [| | | | | |d]; try congruence.
  simpl. destruct (dict_get "status" d) as [s|]; [|congruence].
  intros _. now exists s.
Qed.

(** The flagging loop leaves a mapping whose records all agree with the
    recomputed nonce as it is. *)
Lemma flag_disagreeing_none (code : pyval) (signatures : list (string * pyval)) :
  Forall (fun kv => exists v, reported_nonce (snd kv) = Some v
                              /\ py_eq v code = true) signatures ->
  flag_disagreeing code signatures = Returned (signatures, false).
Proof.
  induction 1 as [|[k data] l [v [Hv He]] _ IH]; simpl; [reflexivity|].
  apply reported_nonce_getitem in Hv as [sd [H1 H2]]. simpl in H1.
  rewrite H1. simpl. rewrite H2. simpl. rewrite He. simpl.
  rewrite IH. reflexivity.
Qed.

(** It flags a single disagreeing record and nothing else. *)
Lemma flag_disagreeing_one (code : pyval) (before after : list (string * pyval))
      (k : string) (forged : list (string * pyval)) (f : pyval) :
  reported_nonce (PDict forged) = Some f ->
  py_eq f code = false ->
  Forall (fun kv => exists v, reported_nonce (snd kv) = Some v
                              /\ py_eq v code = true) (before ++ after) ->
  flag_disagreeing code (before ++ (k, PDict forged) :: after) =
    Returned (before
                ++ (k, PDict (dict_set "status" (PStr "MALICIOUS") forged))
                :: after, true).
Proof.
  intros Hf Hne Hall. apply Forall_app in Hall as [Hb Ha].
  induction Hb as [|[k0 data] l [v [Hv He]] _ IH]; simpl.
  - apply reported_nonce_getitem in Hf as [sd [H1 H2]]. simpl in H1.
    rewrite H1. simpl. rewrite H2. simpl. rewrite Hne. simpl.
    rewrite (flag_disagreeing_none code after Ha). reflexivity.
  - simpl in Hv. apply reported_nonce_getitem in Hv as [sd [H1 H2]].
    rewrite H1. simpl. rewrite H2. simpl. rewrite He. simpl.
    rewrite IH. reflexivity.
Qed.

(** The status scan finds a malicious record when everything scanned before
    it has a status. *)
Lemma any_malicious_found (before after : list (string * pyval))
      (k : string) (data : pyval) :
  Forall (fun kv => status_of (snd kv) <> None) before ->
  is_malicious data = true ->
  any_malicious (dict_values (before ++ (k, data) :: after)) = Returned true.
Proof.
  intros Hb Hm. induction Hb as [|[k0 d0] l Hs _ IH]; simpl.
  - unfold is_malicious in Hm. destruct (status_of data) as [s|] eqn:Hs;
      [|discriminate].
    assert (Hs' : status_of data <> None) by congruence.
    apply status_of_getitem in Hs' as [s' [E1 E2]].
    rewrite E2. simpl. assert (s' = s) by congruence. subst. now rewrite Hm.
  - apply status_of_getitem in Hs as [s [_ E]]. simpl in E. rewrite E. simpl.
    destruct (py_eq s (PStr "MALICIOUS")); [reflexivity | exact IH].
Qed.

(** *** The extraction loop *)

Lemma extract_from_app (acc : extraction) (l1 l2 : list pyval) :
  extract_from acc (l1 ++ l2) =
  (acc' <-- extract_from acc l1 ;; extract_from acc' l2).
Proof.
  revert acc. induction l1 as [|x l1 IH]; intros acc; simpl; [reflexivity|].
  destruct (extract_step acc x) as [acc'|e]; simpl; [apply IH | reflexivity].
Qed.

(** A record does not touch the digest or the sample when it has no hash,
    or when the digest is already set. *)
Lemma extract_step_keeps (acc acc' : extraction) (data : pyval) :
  extract_step acc data = Returned acc' ->
  no_hash data = true \/ is_none (str_message acc) = false ->
  str_message acc' = str_message acc /\ sample_result acc' = sample_result acc.
Proof.
  unfold extract_step, no_hash.
  destruct data as [| | | | | |d]; simpl; try discriminate.
  intros H Hcond.
  assert (Hskip : truthy (match dict_get "hash" d with
                          | Some x => x
                          | None => PNone
                          end) && is_none (str_message acc) = false).
  { destruct Hcond as [Hc|Hc].
    - destruct (dict_get "hash" d) as [h|]; simpl; [|reflexivity].
      apply negb_true_iff in Hc. now rewrite Hc.
    - rewrite Hc. apply andb_false_r. }
  rewrite Hskip in H.
  destruct (py_get _ "aggregated_public_nonce") as [nonce|e]; simpl in H;
    [|discriminate].
  destruct (truthy nonce); destruct (truthy _) in H;
    inversion H; subst; simpl; auto.
Qed.

Lemma extract_from_keeps_no_hash (values : list pyval) (acc acc' : extraction) :
  Forall (fun data => no_hash data = true) values ->
  extract_from acc values = Returned acc' ->
  str_message acc' = str_message acc /\ sample_result acc' = sample_result acc.
Proof.
  intros Hall. revert acc. induction Hall as [|x l Hx _ IH]; intros acc H;
    simpl in H.
  - inversion H. auto.
  - destruct (extract_step acc x) as [acc1|e] eqn:Hs; simpl in H; [|discriminate].
    apply extract_step_keeps in Hs as [E1 E2]; auto.
    apply IH in H as [E3 E4]. split; congruence.
Qed.

Lemma extract_from_keeps_digest (values : list pyval) (acc acc' : extraction) :
  is_none (str_message acc) = false ->
  extract_from acc values = Returned acc' ->
  str_message acc' = str_message acc /\ sample_result acc' = sample_result acc.
Proof.
  revert acc. induction values as [|x l IH]; intros acc Hset H; simpl in H.
  - inversion H. auto.
  - destruct (extract_step acc x) as [acc1|e] eqn:Hs; simpl in H; [|discriminate].
    apply extract_step_keeps in Hs as [E1 E2]; auto.
    apply IH in H as [E3 E4]; [split; congruence | congruence].
Qed.

(** The first record with a non-empty hash sets both. *)
Lemma extract_step_takes (acc acc' : extraction) (d : list (string * pyval))
      (h : pyval) :
  extract_step acc (PDict d) = Returned acc' ->
  dict_get "hash" d = Some h ->
  truthy h = true ->
  str_message acc = PNone ->
  str_message acc' = h /\ sample_result acc' = sample_result acc ++ [PDict d].
Proof.
  unfold extract_step. simpl. intros H Hh Ht Hn.
  rewrite Hh, Ht, Hn in H. simpl in H.
  destruct (py_get _ "aggregated_public_nonce") as [nonce|e]; simpl in H;
    [|discriminate].
  destruct (truthy nonce); destruct (truthy _) in H;
    inversion H; subst; simpl; auto.
Qed.

Lemma truthy_not_none (v : pyval) : truthy v = true -> is_none v = false.
Proof. destruct v; simpl; auto; discriminate. Qed.

Lemma extract_first_hash (before after : list (string * pyval)) (k : string)
      (d : list (string * pyval)) (h : pyval) (ex : extraction) :
  extract (before ++ (k, PDict d) :: after) = Returned ex ->
  Forall (fun kv => no_hash (snd kv) = true) before ->
  dict_get "hash" d = Some h ->
  truthy h = true ->
  str_message ex = h /\ sample_result ex = [PDict d].
Proof.
  unfold extract, dict_values. rewrite map_app. simpl.
  rewrite extract_from_app. intros H Hb Hh Ht.
  destruct (extract_from extraction_init (map snd before)) as [acc1|e] eqn:H1;
    simpl in H; [|discriminate].
  apply extract_from_keeps_no_hash in H1 as [E1 E2];
    [|apply Forall_map; exact Hb].
  destruct (extract_step acc1 (PDict d)) as [acc2|e] eqn:H2; simpl in H;
    [|discriminate].
  apply (extract_step_takes _ _ _ h) in H2 as [E3 E4]; auto.
  apply extract_from_keeps_digest in H as [E5 E6].
  - split; [congruence|]. rewrite E6, E4, E2. reflexivity.
  - rewrite E3. now apply truthy_not_none.
Qed.

(** *** Equality and sets of hashable objects *)

Lemma byte_eqb_eq (x y : byte) : byte_eqb x y = true <-> x = y.
Proof.
  unfold byte_eqb. rewrite N.eqb_eq. split; [|congruence].
  intros H. pose proof (Byte.of_to_N x) as Hx.
  rewrite H, Byte.of_to_N in Hx. congruence.
Qed.

Lemma bytes_eqb_eq (x y : list byte) : bytes_eqb x y = true <-> x = y.
Proof.
  revert y. induction x as [|a x IH]; intros [|b y]; simpl;
    try (split; [discriminate | congruence]); [tauto|].
  rewrite andb_true_iff, byte_eqb_eq, IH. split.
  - intros [-> ->]. reflexivity.
  - intros H. inversion H. auto.
Qed.

Lemma py_eq_norm (a b : pyval) :
  hashable a = true -> (py_eq a b = true <-> norm a = norm b).
Proof.
  intros Ha.
  destruct a as [|x|x|x|x|x|x]; try discriminate;
    destruct b as [|y|y|y|y|y|y]; simpl;
    try (split; [discriminate | intros H; discriminate H]);
    try tauto.
  - destruct x, y; simpl; split; auto; discriminate.
  - rewrite Z.eqb_eq. split; congruence.
  - rewrite Z.eqb_eq. split; congruence.
  - rewrite Z.eqb_eq. split; congruence.
  - rewrite String.eqb_eq. split; congruence.
  - rewrite bytes_eqb_eq. split; congruence.
Qed.

Lemma py_eq_refl_hashable (a : pyval) : hashable a = true -> py_eq a a = true.
Proof. intros Ha. now apply py_eq_norm. Qed.

(** What [set(l)] keeps: everything it already held, and for each element
    of [l] an element equal to it. *)
Lemma py_set_keeps (l acc s : list pyval) :
  py_set l acc = Returned s ->
  (forall x, In x acc -> In x s)
  /\ (forall x, In x l ->
        hashable x = true /\ exists x', In x' s /\ py_eq x x' = true).
Proof.
  revert acc s. induction l as [|a l IH]; intros acc s H; simpl in H.
  - inversion H; subst. split; [auto | intros x []].
  - destruct (hashable a) eqn:Ha; [|discriminate].
    apply IH in H as [Hacc Hl]. split.
    + intros x Hx. apply Hacc.
      destruct (existsb (py_eq a) acc); [auto | apply in_or_app; auto].
    + intros x [<-|Hx]; [|auto]. split; [exact Ha|].
      destruct (existsb (py_eq a) acc) eqn:He.
      * apply existsb_exists in He as [x' [Hx' Hq]]. exists x'. auto.
      * exists a. split; [|now apply py_eq_refl_hashable].
        apply Hacc, in_or_app. simpl. auto.
Qed.

Lemma py_set_total (l acc : list pyval) :
  Forall (fun x => hashable x = true) l -> exists s, py_set l acc = Returned s.
Proof.
  intros H. revert acc. induction H as [|a l Ha _ IH]; intros acc; simpl.
  - eauto.
  - rewrite Ha. apply IH.
Qed.

(** Two collected values that differ make the set larger than one. *)
Lemma len_set_two_values (l : list pyval) (x y : pyval) :
  Forall (fun v => hashable v = true) l ->
  In x l -> In y l -> py_eq x y = false ->
  exists n, len_set l = Returned n /\ n <> 1.
Proof.
  intros Hall Hx Hy Hne. unfold len_set.
  destruct (py_set_total l [] Hall) as [s Hs]. rewrite Hs.
  exists (length s). split; [reflexivity|].
  apply py_set_keeps in Hs as [_ Hl].
  destruct (Hl x Hx) as [Hhx [x' [Hx' Hqx]]].
  destruct (Hl y Hy) as [Hhy [y' [Hy' Hqy]]].
  intros Hlen. destruct s as [|z [|z' s]]; simpl in Hlen; try discriminate.
  destruct Hx' as [<-|[]]. destruct Hy' as [<-|[]].
  apply py_eq_norm in Hqx; auto. apply py_eq_norm in Hqy; auto.
  assert (Hxy : py_eq x y = true) by (apply py_eq_norm; congruence).
  congruence.
Qed.

(** The nonces the extraction collects are the non-empty ones the records
    report, in the order of the records. *)
Lemma extract_step_nonces (acc acc' : extraction) (data : pyval) :
  extract_step acc data = Returned acc' ->
  aggregated_public_nonces acc' =
  aggregated_public_nonces acc
    ++ filter truthy [collected_nonce data].
Proof.
  unfold extract_step, collected_nonce, reported_nonce.
  destruct data as [| | | | | |d]; simpl; try discriminate.
  destruct (dict_get "signature_data" d) as [sd|]; simpl.
  - destruct sd as [| | | | | |sd]; simpl; try discriminate.
    intros H.
    destruct (truthy (match dict_get "hash" d with
                      | Some x => x
                      | None => PNone
                      end) && is_none (str_message acc));
      destruct (dict_get "aggregated_public_nonce" sd) as [v|]; simpl in *;
      try destruct (truthy v);
      destruct sd; inversion H; subst; simpl; auto using app_nil_r.
  - intros H.
    destruct (truthy (match dict_get "hash" d with
                      | Some x => x
                      | None => PNone
                      end) && is_none (str_message acc));
      inversion H; subst; simpl; auto using app_nil_r.
Qed.

Lemma extract_from_nonces (values : list pyval) (acc ex : extraction) :
  extract_from acc values = Returned ex ->
  aggregated_public_nonces ex =
  aggregated_public_nonces acc ++ filter truthy (map collected_nonce values).
Proof.
  revert acc. induction values as [|data rest IH]; intros acc H; simpl in H.
  - inversion H. simpl. now rewrite app_nil_r.
  - destruct (extract_step acc data) as [acc'|e] eqn:Hs; simpl in H;
      [|discriminate].
    apply IH in H. apply extract_step_nonces in Hs.
    rewrite H, Hs, <- app_assoc. simpl.
    destruct (truthy (collected_nonce data)); reflexivity.
Qed.

Lemma extract_nonces (signatures : list (string * pyval)) (ex : extraction) :
  extract signatures = Returned ex ->
  aggregated_public_nonces ex =
  filter truthy (map collected_nonce (dict_values signatures)).
Proof. intros H. now apply extract_from_nonces in H. Qed.

(** A signer with a non-empty nonce next to another signer with a
    different non-empty nonce: the coordinator recomputes. *)
Lemma disagreeing_nonces_are_recomputed
      (signatures : list (string * pyval)) (ex : extraction)
      (k1 k2 : string) (d1 d2 : pyval) (v1 v2 : pyval) :
  extract signatures = Returned ex ->
  Forall (fun v => hashable v = true) (aggregated_public_nonces ex) ->
  In (k1, d1) signatures -> reported_nonce d1 = Some v1 -> truthy v1 = true ->
  In (k2, d2) signatures -> reported_nonce d2 = Some v2 -> truthy v2 = true ->
  py_eq v1 v2 = false ->
  exists n, len_set (aggregated_public_nonces ex) = Returned n /\ n <> 1.
Proof.
  intros Hex Hall H1 Hr1 Ht1 H2 Hr2 Ht2 Hne.
  assert (Hin : forall k d v, In (k, d) signatures -> reported_nonce d = Some v ->
                              truthy v = true ->
                              In v (aggregated_public_nonces ex)).
  { intros k d v Hi Hr Ht. rewrite (extract_nonces _ _ Hex).
    apply filter_In. split; [|exact Ht].
    apply in_map_iff. exists d. split.
    - unfold collected_nonce. now rewrite Hr.
    - unfold dict_values. apply in_map_iff. exists (k, d). auto. }
  apply (len_set_two_values _ v1 v2); eauto.
Qed.

Section Coordinator.

Variable Point : Type.
Variable net : Network.
Variable crypto : CryptoProvider Point.
Variable uuid4 : nat -> string.
Variable self : SA.

Local Abbreviation post_request := (post_request Point net).
Local Abbreviation request_nonces := (request_nonces Point net self).
Local Abbreviation request_signature := (request_signature Point net crypto uuid4 self).
Local Abbreviation collect_signatures := (collect_signatures Point net uuid4 self).
Local Abbreviation fan_out := (fan_out Point net self).
Local Abbreviation settle := (settle Point crypto).
Local Abbreviation consistency_check := (consistency_check Point crypto).
Local Abbreviation recompute_and_flag := (recompute_and_flag Point crypto).
Local Abbreviation aggregate_and_verify := (aggregate_and_verify Point crypto).

(** *** The transport *)

(** C1 (as amended).  Once [session.post] has produced a response object,
    [post_request] returns a value for every outcome of decoding that is
    an ordinary exception: the decoded body on success, the TIMEOUT
    sentinel on [asyncio.TimeoutError], and otherwise the ERROR sentinel
    whose text is ["An exception occurred: "] followed by the exception's
    class name, [": "] and its message.  One POST is issued. *)
Theorem post_request_after_response :
  forall url data timeout body w,
    http_post net url data timeout = ResponseArrives body ->
    (forall e, body = Raised e -> exn_class_of e <> BaseOnlyClass) ->
    post_request url data timeout w =
      (Returned
         match body with
         | Returned j => of_json j
         | Raised e =>
             match exn_class_of e with
             | TimeoutClass =>
                 PDict [("status", PStr "TIMEOUT");
                        ("error", PStr "Communication timed out")]
             | _ =>
                 PDict [("status", PStr "ERROR");
                        ("error", PStr ("An exception occurred: "
                                        ++ exn_name e ++ ": " ++ exn_text e))]
             end
         end,
       log (EvPost url data timeout) w).
Proof.
  intros url data timeout body w Hpost Hord.
  unfold post_request, call. rewrite Hpost.
  destruct body as [j | e]; simpl; [reflexivity|].
  specialize (Hord e eq_refl).
  destruct (exn_class_of e) eqn:Hc; try reflexivity.
  now elim Hord.
Qed.

(** *** The authorization guard *)

(** C3.  When [sign_party] is not a subset of the key's party,
    [request_signature] returns [{result: FAILED, signatures: None}] and
    leaves the world as it found it: no directory lookup, no request, no
    uuid drawn, no crypto call. *)
Theorem request_signature_unauthorized :
  forall dkg_key nonces_list sa_data sign_party w,
    ~ incl sign_party (party dkg_key) ->
    request_signature dkg_key nonces_list sa_data sign_party w =
      (Returned (PDict [("result", PStr "FAILED"); ("signatures", PNone)]), w).
Proof.
  intros dkg_key nonces_list sa_data sign_party w Hnot.
  unfold request_signature.
  destruct (issubset sign_party (party dkg_key)) eqn:E.
  - apply issubset_incl in E. contradiction.
  - reflexivity.
Qed.

(** *** Running the fan-out *)

Lemma world_eta (w : world Point) : World (trace w ++ []) (uuid_draws w) = w.
Proof. destruct w. simpl. now rewrite app_nil_r. Qed.

Lemma for_each_lookup_ok (ids : list string) (nodes : list node_info) w :
  Forall2 (fun id node => lookup_node (nodes_info self) id = Returned node)
          ids nodes ->
  for_each Point (lookup Point self) ids w =
    (Returned nodes, World (trace w ++ map EvLookup ids) (uuid_draws w)).
Proof.
  intros H. revert w. induction H as [|id node ids nodes Hl _ IH]; intros w.
  - simpl. unfold ret. now rewrite world_eta.
  - simpl. unfold bind at 1. unfold lookup at 1, call. rewrite Hl.
    unfold bind at 1. rewrite IH. unfold ret. simpl.
    now rewrite <- app_assoc.
Qed.

Lemma gather_posts (urls : list string) (body : pyval) (timeout : Z) w :
  gather Point (map (fun url => post_request url body timeout) urls) w =
    (all_returned
       (map (fun url => post_request_result (http_post net url body timeout)) urls),
     World (trace w ++ map (fun url => EvPost url body timeout) urls)
           (uuid_draws w)).
Proof.
  revert w. induction urls as [|url urls IH]; intros w; simpl.
  - now rewrite world_eta.
  - unfold post_request at 1, call. rewrite IH. simpl.
    rewrite <- app_assoc. simpl.
    destruct (post_request_result (http_post net url body timeout));
      destruct (all_returned _); reflexivity.
Qed.

Lemma all_returned_ok {A B} (f : A -> outcome B) (l : list A) (vs : list B) :
  Forall2 (fun a v => f a = Returned v) l vs ->
  all_returned (map f l) = Returned vs.
Proof.
  induction 1 as [|a v l vs Ha _ IH]; simpl; [reflexivity|].
  now rewrite Ha, IH.
Qed.

(** The fan-out when every member resolves and every call returns. *)
Lemma fan_out_ok (call_method : string) (body : pyval) (ids : list string)
      (nodes : list node_info) (responses : list pyval) w :
  Forall2 (fun id node => lookup_node (nodes_info self) id = Returned node)
          ids nodes ->
  Forall2 (fun node v =>
             post_request_result
               (http_post net (node_url call_method node) body
                          (default_timeout self)) = Returned v)
          nodes responses ->
  fan_out call_method body ids w =
    (Returned responses,
     World (trace w ++ map EvLookup ids
                    ++ map (fun node => EvPost (node_url call_method node) body
                                               (default_timeout self)) nodes)
           (uuid_draws w)).
Proof.
  intros Hl Hp. unfold fan_out, bind.
  rewrite (for_each_lookup_ok ids nodes w Hl).
  rewrite gather_posts. simpl. rewrite map_map.
  rewrite (all_returned_ok _ nodes responses Hp).
  now rewrite <- app_assoc, map_map.
Qed.

(** *** What each phase adds to the trace *)

Lemma appends_refl (P : event Point -> Prop) w : appends P w w.
Proof. split; [reflexivity|]. exists []. now rewrite app_nil_r. Qed.

Lemma appends_log (P : event Point -> Prop) ev w :
  P ev -> appends P w (log ev w).
Proof. intros H. split; [reflexivity|]. exists [ev]. auto. Qed.

Lemma appends_trans (P : event Point -> Prop) w1 w2 w3 :
  appends P w1 w2 -> appends P w2 w3 -> appends P w1 w3.
Proof.
  intros [Hd1 [e1 [H1 F1]]] [Hd2 [e2 [H2 F2]]]. split; [congruence|].
  exists (e1 ++ e2). rewrite H2, H1, app_assoc. split; [reflexivity|].
  apply Forall_app; auto.
Qed.

Lemma appends_weaken (P Q : event Point -> Prop) w w' :
  (forall ev, P ev -> Q ev) -> appends P w w' -> appends Q w w'.
Proof.
  intros HPQ [Hd [evs [Ht HF]]]. split; [assumption|].
  exists evs. split; [assumption|]. eapply Forall_impl; eauto.
Qed.

Lemma for_each_lookup_trace (ids : list string) w o w' :
  for_each Point (lookup Point self) ids w = (o, w') ->
  appends (fun ev => event_phase ev = Directory) w w'.
Proof.
  revert w o w'. induction ids as [|id ids IH]; intros w o w' H; simpl in H.
  - inversion H. apply appends_refl.
  - unfold bind at 1 in H. unfold lookup at 1, call in H.
    destruct (lookup_node (nodes_info self) id) as [node|e].
    + unfold bind at 1 in H.
      destruct (for_each Point (lookup Point self) ids (log (EvLookup id) w))
        as [[nodes|e] w1] eqn:Hrest;
        inversion H; subst;
        (eapply appends_trans;
           [apply (appends_log _ (EvLookup id)); reflexivity | eapply IH; eauto]).
    + inversion H. now apply appends_log.
Qed.

Lemma posts_trace (urls : list string) (body : pyval) (timeout : Z)
      (w : world Point) :
  appends (fun ev => event_phase ev = Transport /\ event_body ev = Some body)
          w
          (World (trace w ++ map (fun url => EvPost url body timeout) urls)
                 (uuid_draws w)).
Proof.
  split; [reflexivity|]. eexists. split; [reflexivity|].
  apply Forall_forall. intros ev Hin. apply in_map_iff in Hin as [url [<- _]].
  now split.
Qed.

(** The fan-out looks nodes up and posts the one shared body. *)
Lemma fan_out_trace (call_method : string) (body : pyval)
      (ids : list string) w o w' :
  fan_out call_method body ids w = (o, w') ->
  appends (fun ev => event_phase ev = Directory
                     \/ (event_phase ev = Transport
                         /\ event_body ev = Some body)) w w'.
Proof.
  unfold fan_out, bind. intros H.
  destruct (for_each Point (lookup Point self) ids w) as [[nodes|e] w1] eqn:Hl.
  - apply for_each_lookup_trace in Hl. rewrite gather_posts in H.
    inversion H; subst. eapply appends_trans.
    + eapply appends_weaken; [|exact Hl]. auto.
    + eapply appends_weaken; [|apply posts_trace]. auto.
  - inversion H; subst. apply for_each_lookup_trace in Hl.
    eapply appends_weaken; [|exact Hl]. auto.
Qed.

(** Collecting the signatures draws one uuid and sends it, in the shared
    payload, with every request. *)
Lemma collect_signatures_trace dkg_key nonces_list sa_data sign_party w o w' :
  collect_signatures dkg_key nonces_list sa_data sign_party w = (o, w') ->
  uuid_draws w' = S (uuid_draws w)
  /\ (forall request_id signatures,
        o = Returned (request_id, signatures) ->
        request_id = uuid4 (uuid_draws w))
  /\ exists evs,
       trace w' = trace w ++ evs
       /\ Forall (fun ev =>
                    event_phase ev = Directory
                    \/ (event_phase ev = Transport
                        /\ event_body ev =
                           Some (sign_request (uuid4 (uuid_draws w)) dkg_key
                                              nonces_list sa_data))) evs.
Proof.
  unfold collect_signatures, bind at 1, fresh_uuid. intros H.
  unfold bind in H.
  match type of H with
  | context [fan_out ?cm ?b ?p ?w0] =>
      destruct (fan_out cm b p w0) as [[responses|e] w1] eqn:Hf
  end;
    apply fan_out_trace in Hf; destruct Hf as [Hd [evs [Ht HF]]];
    simpl in Hd, Ht; inversion H; subst; (split; [|split]); eauto;
    intros ? ? Heq; inversion Heq; reflexivity || discriminate.
Qed.

(** Case analysis on the innermost scrutinee of a hypothesis. *)
Ltac split_scrutinee t :=
  lazymatch t with
  | context [match ?y with _ => _ end] => split_scrutinee y
  | _ => destruct t eqn:?
  end.

Ltac run_cases H :=
  repeat (simpl in H;
          lazymatch type of H with
          | context [match ?x with _ => _ end] => split_scrutinee x
          end).

Lemma appends_step (P : event Point -> Prop) ev w w1 :
  P ev -> appends P w w1 -> appends P w (log ev w1).
Proof.
  intros HP H. eapply appends_trans; [exact H | now apply appends_log].
Qed.

Ltac close_appends :=
  repeat first
    [ apply appends_refl
    | apply appends_step;
      [simpl; split; [reflexivity | intros ? Hm; now inversion Hm] |] ].

Lemma recompute_and_flag_trace dkg_key nonces_list ex signatures w o w' :
  recompute_and_flag dkg_key nonces_list ex signatures w = (o, w') ->
  appends (fun ev => event_phase ev = Recomputation
                     /\ forall m, event_digest ev = Some m -> m = str_message ex)
          w w'.
Proof.
  unfold recompute_and_flag, bind, lift, call, ret. intros H.
  run_cases H; inversion H; subst; close_appends.
Qed.

Lemma aggregate_and_verify_trace dkg_key request_id ex w o w' :
  aggregate_and_verify dkg_key request_id ex w = (o, w') ->
  appends (fun ev => event_phase ev = Aggregation
                     /\ forall m, event_digest ev = Some m -> m = str_message ex)
          w w'.
Proof.
  unfold aggregate_and_verify, bind, lift, call, ret. intros H.
  run_cases H; inversion H; subst; close_appends.
Qed.

(** *** The nonce ceremony *)

(** C4 (as amended).  When every id of the party resolves in the
    directory and every call returns a value, [request_nonces] issues one POST to
    [/v1/generate-nonces] per member of the party list, in the list's
    order, and returns the dict zipped from the party and the responses:
    its keys are the ids of the party, each once, in the order of their
    first occurrence; every entry holds a response of that id; and for a
    party without repetitions the dict is the party zipped with the
    responses, entry by entry. *)
Theorem request_nonces_one_entry_per_member :
  forall party number_of_nonces nodes responses w,
    Forall2 (fun id node => lookup_node (nodes_info self) id = Returned node)
            party nodes ->
    Forall2 (fun node v =>
               post_request_result
                 (http_post net (node_url "/v1/generate-nonces" node)
                            (PDict [("number_of_nonces", PInt number_of_nonces)])
                            (default_timeout self)) = Returned v)
            nodes responses ->
    exists nonces_response,
      request_nonces party number_of_nonces w =
        (Returned nonces_response,
         World (trace w
                  ++ map EvLookup party
                  ++ map (fun node =>
                            EvPost (node_url "/v1/generate-nonces" node)
                                   (PDict [("number_of_nonces",
                                            PInt number_of_nonces)])
                                   (default_timeout self)) nodes)
               (uuid_draws w))
      /\ length nodes = length party
      /\ dict_keys nonces_response = first_occurrences party
      /\ NoDup (dict_keys nonces_response)
      /\ (forall id, In id (dict_keys nonces_response) <-> In id party)
      /\ (forall id, In id party ->
            exists v, dict_get id nonces_response = Some v
                      /\ In (id, v) (combine party responses))
      /\ (NoDup party -> nonces_response = combine party responses).
Proof.
  intros party number_of_nonces nodes responses w Hl Hp.
  assert (Hlen1 : length party = length nodes) by (eapply Forall2_length; eauto).
  assert (Hlen2 : length nodes = length responses) by (eapply Forall2_length; eauto).
  assert (Hlen : length party = length responses) by congruence.
  exists (dict_of_zip party responses).
  assert (Hkeys := dict_of_zip_keys party responses Hlen).
  repeat split.
  - unfold request_nonces, bind.
    rewrite (fan_out_ok _ _ party nodes responses w Hl Hp). reflexivity.
  - congruence.
  - exact Hkeys.
  - rewrite Hkeys. apply first_occurrences_NoDup.
  - rewrite Hkeys. apply first_occurrences_In.
  - rewrite Hkeys. apply first_occurrences_In.
  - intros id Hin.
    assert (Hk : In id (dict_keys (dict_of_zip party responses)))
      by (rewrite Hkeys; now apply first_occurrences_In).
    apply dict_get_keys in Hk as [v Hv]. exists v. split; [exact Hv|].
    unfold dict_of_zip in Hv. apply dict_fold_get in Hv as [H|H]; auto.
    discriminate.
  - intros Hnd. now apply dict_of_zip_NoDup.
Qed.

(** *** The signing ceremony *)

(** Past the guard, with the responses in, the call is the settlement of
    those responses. *)
Lemma request_signature_collected dkg_key nonces_list sa_data sign_party
      w request_id signatures w1 :
  incl sign_party (party dkg_key) ->
  collect_signatures dkg_key nonces_list sa_data sign_party w =
    (Returned (request_id, signatures), w1) ->
  request_signature dkg_key nonces_list sa_data sign_party w =
    settle dkg_key nonces_list request_id signatures w1.
Proof.
  intros Hsub Hc. apply issubset_incl in Hsub.
  unfold request_signature. rewrite Hsub. simpl.
  unfold bind at 1. rewrite Hc. reflexivity.
Qed.

(** C5 (as amended).  Suppose the non-empty nonces collected from the
    responses are not one single value, so that the coordinator
    recomputes the nonce; one signer reports a value that differs from
    the recomputed one, every other signer reports the recomputed one,
    and the records ahead of the forger carry a status.  Then the result
    is FAILED and carries the collected mapping in which the forger's
    status is MALICIOUS and every other record is as it was received. *)
Theorem forged_nonce_flags_the_forger_alone :
  forall dkg_key nonces_list sa_data sign_party w request_id w1 ex n R code
         before k forged f after,
    incl sign_party (party dkg_key) ->
    collect_signatures dkg_key nonces_list sa_data sign_party w =
      (Returned (request_id, before ++ (k, PDict forged) :: after), w1) ->
    extract (before ++ (k, PDict forged) :: after) = Returned ex ->
    len_set (aggregated_public_nonces ex) = Returned n ->
    n <> 1 ->
    aggregate_nonce Point crypto (str_message ex) nonces_list
                    (public_key dkg_key) = Returned R ->
    pub_to_code Point crypto R = Returned code ->
    reported_nonce (PDict forged) = Some f ->
    py_eq f code = false ->
    Forall (fun kv => exists v, reported_nonce (snd kv) = Some v
                                /\ py_eq v code = true) (before ++ after) ->
    Forall (fun kv => status_of (snd kv) <> None) before ->
    request_signature dkg_key nonces_list sa_data sign_party w =
      (Returned
         (PDict [("result", PStr "FAILED");
                 ("signatures",
                  PDict (before
                           ++ (k, PDict (dict_set "status" (PStr "MALICIOUS")
                                                  forged))
                           :: after))]),
       log (EvPubToCode R)
           (log (EvAggregateNonce (str_message ex) nonces_list
                                  (public_key dkg_key)) w1)).
Proof.
  intros dkg_key nonces_list sa_data sign_party w request_id w1 ex n R code
         before k forged f after
         Hsub Hc Hex Hlen Hn HR Hcode Hf Hne Hothers Hstatus.
  rewrite (request_signature_collected _ _ _ _ _ _ _ _ Hsub Hc).
  unfold settle, bind at 1, lift. rewrite Hex.
  unfold bind at 1, consistency_check, bind at 1, recompute_and_flag,
    bind at 1, lift. rewrite Hlen.
  apply Nat.eqb_neq in Hn. rewrite Hn. simpl.
  unfold bind at 1, call. rewrite HR.
  unfold bind at 1. rewrite Hcode.
  rewrite (flag_disagreeing_one code before after k forged f Hf Hne Hothers).
  unfold bind at 1. simpl fst.
  rewrite (any_malicious_found before after k _ Hstatus).
  - reflexivity.
  - unfold is_malicious, status_of. now rewrite dict_get_set_same.
Qed.

(** X17.  Suppose the flagging step has run and left the mapping
    [signatures'], in which some record carries status MALICIOUS (its
    own, or set by the flagging step) and the records ahead of it carry
    a status.  Then the result is [{result: FAILED, signatures:
    signatures'}], and the call has made no aggregation or verification
    call. *)
Theorem malicious_peer_fails_the_ceremony :
  forall dkg_key nonces_list sa_data sign_party w request_id signatures w1
         ex flagged w2 before k data after,
    incl sign_party (party dkg_key) ->
    collect_signatures dkg_key nonces_list sa_data sign_party w =
      (Returned (request_id, signatures), w1) ->
    extract signatures = Returned ex ->
    recompute_and_flag dkg_key nonces_list ex signatures w1 =
      (Returned (before ++ (k, data) :: after, flagged), w2) ->
    is_malicious data = true ->
    Forall (fun kv => status_of (snd kv) <> None) before ->
    request_signature dkg_key nonces_list sa_data sign_party w =
      (Returned
         (PDict [("result", PStr "FAILED");
                 ("signatures", PDict (before ++ (k, data) :: after))]),
       w2)
    /\ exists evs,
         trace w2 = trace w ++ evs
         /\ Forall (fun ev => event_phase ev <> Aggregation) evs.
Proof.
  intros dkg_key nonces_list sa_data sign_party w request_id signatures w1
         ex flagged w2 before k data after Hsub Hc Hex Hflag Hm Hstatus.
  split.
  - rewrite (request_signature_collected _ _ _ _ _ _ _ _ Hsub Hc).
    unfold settle, bind at 1, lift. rewrite Hex.
    unfold bind at 1, consistency_check, bind at 1. rewrite Hflag.
    unfold bind at 1, lift. simpl fst.
    rewrite (any_malicious_found before after k data Hstatus Hm).
    unfold ret. simpl. now rewrite orb_true_r.
  - apply collect_signatures_trace in Hc as [_ [_ [evs1 [Ht1 HF1]]]].
    apply recompute_and_flag_trace in Hflag as [_ [evs2 [Ht2 HF2]]].
    exists (evs1 ++ evs2). rewrite Ht2, Ht1, app_assoc. split; [reflexivity|].
    apply Forall_app. split.
    + eapply Forall_impl; [|exact HF1]. intros ev [H|[H _]]; congruence.
    + eapply Forall_impl; [|exact HF2]. intros ev [H _]; congruence.
Qed.

Lemma for_each_length {A B} (f : A -> M Point B) (l : list A) w bs w' :
  for_each Point f l w = (Returned bs, w') -> length bs = length l.
Proof.
  revert w bs w'. induction l as [|a l IH]; intros w bs w' H; simpl in H.
  - inversion H. reflexivity.
  - unfold bind at 1 in H. destruct (f a w) as [[b|e] w1]; [|discriminate].
    unfold bind at 1 in H.
    destruct (for_each Point f l w1) as [[bs'|e] w2] eqn:Hrest; [|discriminate].
    inversion H; subst. simpl. f_equal. eapply IH; eauto.
Qed.

Lemma all_returned_length {A} (os : list (outcome A)) (l : list A) :
  all_returned os = Returned l -> length l = length os.
Proof.
  revert l. induction os as [|o os IH]; intros l H; simpl in H.
  - inversion H. reflexivity.
  - destruct o as [a|e]; [|discriminate].
    destruct (all_returned os) as [l'|e]; [|discriminate].
    inversion H; subst. simpl. f_equal. now apply IH.
Qed.

(** The collected mapping has the signers as keys, in the order of
    [sign_party]. *)
Lemma collect_signatures_keys dkg_key nonces_list sa_data sign_party
      w request_id signatures w' :
  collect_signatures dkg_key nonces_list sa_data sign_party w =
    (Returned (request_id, signatures), w') ->
  dict_keys signatures = first_occurrences sign_party.
Proof.
  unfold collect_signatures, bind at 1, fresh_uuid. intros H.
  unfold bind at 1 in H.
  match type of H with
  | context [fan_out ?cm ?b ?p ?w0] =>
      destruct (fan_out cm b p w0) as [[responses|e] w1] eqn:Hf
  end; [|discriminate].
  inversion H; subst. apply dict_of_zip_keys.
  unfold fan_out, bind in Hf.
  match type of Hf with
  | context [for_each Point ?f ?l ?w0] =>
      destruct (for_each Point f l w0) as [[nodes|e] w2] eqn:Hl
  end; [|discriminate].
  apply for_each_length in Hl. rewrite gather_posts in Hf.
  inversion Hf as [[Hall Hw]]. apply all_returned_length in Hall.
  rewrite !length_map in Hall. congruence.
Qed.

(** What the settlement adds to the trace: crypto calls only, each on
    the digest that the extraction chose. *)
Lemma settle_trace dkg_key nonces_list request_id signatures w o w' :
  settle dkg_key nonces_list request_id signatures w = (o, w') ->
  appends (fun ev =>
             (event_phase ev = Recomputation \/ event_phase ev = Aggregation)
             /\ forall ex m, extract signatures = Returned ex ->
                             event_digest ev = Some m -> m = str_message ex)
          w w'.
Proof.
  unfold settle, bind at 1, lift. intros H.
  destruct (extract signatures) as [ex|e]; [|inversion H; apply appends_refl].
  unfold bind at 1, consistency_check, bind at 1 in H.
  destruct (recompute_and_flag dkg_key nonces_list ex signatures w)
    as [[flagged|e] w1] eqn:Hflag;
    apply recompute_and_flag_trace in Hflag;
    assert (Hflag' :
              appends (fun ev =>
                         (event_phase ev = Recomputation
                          \/ event_phase ev = Aggregation)
                         /\ forall ex0 m, Returned ex = Returned ex0 ->
                                          event_digest ev = Some m ->
                                          m = str_message ex0) w w1)
      by (eapply appends_weaken; [|exact Hflag];
          intros ev [Hp Hd]; split; [auto|];
          intros ex0 m Heq; inversion Heq; subst; auto);
    [|inversion H; subst; exact Hflag'].
  unfold bind at 1, lift in H.
  destruct (any_malicious (dict_values (fst flagged))) as [found|e];
    [|inversion H; subst; exact Hflag'].
  unfold ret in H. simpl in H.
  destruct (snd flagged || found); [inversion H; subst; exact Hflag'|].
  apply aggregate_and_verify_trace in H.
  eapply appends_trans; [exact Hflag'|].
  eapply appends_weaken; [|exact H].
  intros ev [Hp Hd]; split; [auto|].
  intros ex0 m Heq; inversion Heq; subst; auto.
Qed.

(** C7.  After a consistent ceremony (the consistency check has returned
    without setting FAILED) in which the crypto provider has produced an
    aggregate signature: if verification accepts it, the result is that
    aggregate with its message hash replaced by its hexadecimal string,
    result SUCCESSFUL, the sample records under signature_data and the
    request id of this call; if verification rejects it, the result is
    that aggregate with result FAILED and every other field as the
    crypto provider returned it. *)
Theorem consistent_ceremony_result :
  forall dkg_key nonces_list sa_data sign_party w request_id signatures w1
         ex signatures' w2 first rest R aggregated_sign verdict,
    incl sign_party (party dkg_key) ->
    collect_signatures dkg_key nonces_list sa_data sign_party w =
      (Returned (request_id, signatures), w1) ->
    extract signatures = Returned ex ->
    consistency_check dkg_key nonces_list ex signatures w1 =
      (Returned (signatures', false), w2) ->
    aggregated_public_nonces ex = first :: rest ->
    code_to_pub Point crypto first = Returned R ->
    aggregate_signatures Point crypto (str_message ex) (signs ex) R
                         (public_key dkg_key)
      = Returned (PDict aggregated_sign) ->
    verify_group_signature Point crypto (PDict aggregated_sign)
      = Returned verdict ->
    let w3 :=
      log (EvVerify (PDict aggregated_sign))
          (log (EvAggregateSignatures (str_message ex) (signs ex) R
                                      (public_key dkg_key))
               (log (EvCodeToPub first) w2)) in
    (truthy verdict = true ->
     forall h, dict_get "message_hash" aggregated_sign = Some (PBytes h) ->
       exists d,
         request_signature dkg_key nonces_list sa_data sign_party w =
           (Returned (PDict d), w3)
         /\ d = dict_set "request_id" (PStr request_id)
                  (dict_set "signature_data" (PList (sample_result ex))
                     (dict_set "result" (PStr "SUCCESSFUL")
                        (dict_set "message_hash" (PStr (bytes_hex h))
                                  aggregated_sign)))
         /\ dict_get "result" d = Some (PStr "SUCCESSFUL")
         /\ dict_get "message_hash" d = Some (PStr (bytes_hex h))
         /\ dict_get "signature_data" d = Some (PList (sample_result ex))
         /\ dict_get "request_id" d = Some (PStr request_id)
         /\ request_id = uuid4 (uuid_draws w))
    /\ (truthy verdict = false ->
        exists d,
          request_signature dkg_key nonces_list sa_data sign_party w =
            (Returned (PDict d), w3)
          /\ d = dict_set "result" (PStr "FAILED") aggregated_sign
          /\ dict_get "result" d = Some (PStr "FAILED")
          /\ forall key, key <> "result" ->
                         dict_get key d = dict_get key aggregated_sign).
Proof.
  intros dkg_key nonces_list sa_data sign_party w request_id signatures w1
         ex signatures' w2 first rest R aggregated_sign verdict
         Hsub Hc Hex Hcheck Hfirst HR Hagg Hver w3.
  assert (Hrun :
    request_signature dkg_key nonces_list sa_data sign_party w =
    (if truthy verdict then
       message_hash <-- py_getitem (PDict aggregated_sign) "message_hash" ;;
       hex <-- py_hex message_hash ;;
       s1 <-- py_setitem (PDict aggregated_sign) "message_hash" hex ;;
       s2 <-- py_setitem s1 "result" (PStr "SUCCESSFUL") ;;
       s3 <-- py_setitem s2 "signature_data" (PList (sample_result ex)) ;;
       py_setitem s3 "request_id" (PStr request_id)
     else py_setitem (PDict aggregated_sign) "result" (PStr "FAILED"), w3)).
  { rewrite (request_signature_collected _ _ _ _ _ _ _ _ Hsub Hc).
    unfold settle, bind at 1, lift. rewrite Hex.
    unfold bind at 1. rewrite Hcheck. simpl snd. cbv iota.
    unfold aggregate_and_verify, bind at 1, lift. rewrite Hfirst.
    unfold bind at 1, call. rewrite HR.
    unfold bind at 1. rewrite Hagg.
    unfold bind at 1. rewrite Hver.
    destruct (truthy verdict); reflexivity. }
  split.
  - intros Hv h Hh. rewrite Hv in Hrun. simpl in Hrun. rewrite Hh in Hrun.
    simpl in Hrun. eexists. split; [exact Hrun|]. split; [reflexivity|].
    repeat split.
    + rewrite !dict_get_set_other by discriminate. apply dict_get_set_same.
    + rewrite !dict_get_set_other by discriminate. apply dict_get_set_same.
    + rewrite !dict_get_set_other by discriminate. apply dict_get_set_same.
    + apply dict_get_set_same.
    + apply collect_signatures_trace in Hc as [_ [Hid _]]. eauto.
  - intros Hv. rewrite Hv in Hrun. simpl in Hrun.
    eexists. split; [exact Hrun|]. split; [reflexivity|]. split.
    + apply dict_get_set_same.
    + intros key Hkey. now apply dict_get_set_other.
Qed.

(** C8.  The collected mapping is keyed in the order of [sign_party].
    When the first of its records that has a non-empty hash is [data]
    with hash [h] (the records ahead of it have a missing or empty
    hash), the extraction records [h] as
    the digest and [data] alone as the sample, whatever the later
    records hold; and every crypto call of the ceremony that takes a
    digest, recomputation and aggregation alike, is made on [h]. *)
Theorem first_hash_is_the_digest :
  forall dkg_key nonces_list sa_data sign_party w request_id w1 ex
         before k data h after,
    incl sign_party (party dkg_key) ->
    collect_signatures dkg_key nonces_list sa_data sign_party w =
      (Returned (request_id, before ++ (k, PDict data) :: after), w1) ->
    extract (before ++ (k, PDict data) :: after) = Returned ex ->
    Forall (fun kv => no_hash (snd kv) = true) before ->
    dict_get "hash" data = Some h ->
    truthy h = true ->
    dict_keys (before ++ (k, PDict data) :: after)
      = first_occurrences sign_party
    /\ str_message ex = h
    /\ sample_result ex = [PDict data]
    /\ forall result w',
         request_signature dkg_key nonces_list sa_data sign_party w
           = (result, w') ->
         exists evs,
           trace w' = trace w ++ evs
           /\ Forall (fun ev => forall m, event_digest ev = Some m -> m = h) evs.
Proof.
  intros dkg_key nonces_list sa_data sign_party w request_id w1 ex
         before k data h after Hsub Hc Hex Hb Hh Ht.
  destruct (extract_first_hash _ _ _ _ _ _ Hex Hb Hh Ht) as [Hm Hs].
  split; [eapply collect_signatures_keys; eauto|].
  split; [exact Hm|]. split; [exact Hs|].
  intros result w' Hrun.
  rewrite (request_signature_collected _ _ _ _ _ _ _ _ Hsub Hc) in Hrun.
  apply settle_trace in Hrun as [_ [evs2 [Ht2 HF2]]].
  apply collect_signatures_trace in Hc as [_ [_ [evs1 [Ht1 HF1]]]].
  exists (evs1 ++ evs2). rewrite Ht2, Ht1, app_assoc. split; [reflexivity|].
  apply Forall_app. split.
  - eapply Forall_impl; [|exact HF1].
    intros ev Hev m Hd. destruct ev; simpl in *;
      try discriminate; destruct Hev as [Hev|[Hev _]]; discriminate.
  - eapply Forall_impl; [|exact HF2].
    intros ev [_ Hev] m Hd. rewrite <- Hm. eapply Hev; eauto.
Qed.

(** C10.  When the non-empty nonces collected from the responses are one
    single value, the flagging step hands the collected mapping on
    unchanged without calling out, and the call continues with the
    status scan of the records as they were received: FAILED with that
    mapping if the scan finds a self-declared malicious record, and
    otherwise aggregation and verification on the agreed nonce.  No
    nonce recomputation is made anywhere in the call. *)
Theorem agreed_nonce_is_not_recomputed :
  forall dkg_key nonces_list sa_data sign_party w request_id signatures w1 ex,
    incl sign_party (party dkg_key) ->
    collect_signatures dkg_key nonces_list sa_data sign_party w =
      (Returned (request_id, signatures), w1) ->
    extract signatures = Returned ex ->
    len_set (aggregated_public_nonces ex) = Returned 1 ->
    recompute_and_flag dkg_key nonces_list ex signatures w1 =
      (Returned (signatures, false), w1)
    /\ request_signature dkg_key nonces_list sa_data sign_party w =
         match any_malicious (dict_values signatures) with
         | Raised e => (Raised e, w1)
         | Returned true =>
             (Returned (PDict [("result", PStr "FAILED");
                               ("signatures", PDict signatures)]), w1)
         | Returned false =>
             aggregate_and_verify dkg_key request_id ex w1
         end
    /\ forall result w',
         request_signature dkg_key nonces_list sa_data sign_party w
           = (result, w') ->
         exists evs,
           trace w' = trace w ++ evs
           /\ Forall (fun ev => event_phase ev <> Recomputation) evs.
Proof.
  intros dkg_key nonces_list sa_data sign_party w request_id signatures w1 ex
         Hsub Hc Hex Hlen.
  assert (Hflag : recompute_and_flag dkg_key nonces_list ex signatures w1 =
                  (Returned (signatures, false), w1)).
  { unfold recompute_and_flag, bind, lift. rewrite Hlen. reflexivity. }
  assert (Hrun :
    request_signature dkg_key nonces_list sa_data sign_party w =
    match any_malicious (dict_values signatures) with
    | Raised e => (Raised e, w1)
    | Returned true =>
        (Returned (PDict [("result", PStr "FAILED");
                          ("signatures", PDict signatures)]), w1)
    | Returned false => aggregate_and_verify dkg_key request_id ex w1
    end).
  { rewrite (request_signature_collected _ _ _ _ _ _ _ _ Hsub Hc).
    unfold settle, bind at 1, lift. rewrite Hex.
    unfold bind at 1, consistency_check, bind at 1. rewrite Hflag.
    unfold bind at 1, lift. simpl fst.
    destruct (any_malicious (dict_values signatures)) as [[|]|e];
      reflexivity. }
  split; [exact Hflag|]. split; [exact Hrun|].
  intros result w' Hres. rewrite Hrun in Hres.
  apply collect_signatures_trace in Hc as [_ [_ [evs1 [Ht1 HF1]]]].
  assert (HF1' : Forall (fun ev : event Point =>
                           event_phase ev <> Recomputation) evs1).
  { eapply Forall_impl; [|exact HF1]. intros ev [H|[H _]]; congruence. }
  destruct (any_malicious (dict_values signatures)) as [[|]|e].
  - inversion Hres; subst. exists evs1. auto.
  - apply aggregate_and_verify_trace in Hres as [_ [evs2 [Ht2 HF2]]].
    exists (evs1 ++ evs2). rewrite Ht2, Ht1, app_assoc.
    split; [reflexivity|]. apply Forall_app. split; [exact HF1'|].
    eapply Forall_impl; [|exact HF2]. intros ev [H _]; congruence.
  - inversion Hres; subst. exists evs1. auto.
Qed.

(** A SUCCESSFUL result comes from the shaping step, which ends by
    attaching the request id. *)
Lemma aggregate_and_verify_successful dkg_key request_id ex w d w' :
  aggregate_and_verify dkg_key request_id ex w = (Returned (PDict d), w') ->
  dict_get "result" d = Some (PStr "SUCCESSFUL") ->
  dict_get "request_id" d = Some (PStr request_id).
Proof.
  unfold aggregate_and_verify, bind, lift, call. intros H Hres.
  destruct (aggregated_public_nonces ex) as [|first rest]; [discriminate|].
  destruct (code_to_pub Point crypto first) as [R|e]; [|discriminate].
  destruct (aggregate_signatures Point crypto _ _ R _) as [agg|e];
    [|discriminate].
  destruct (verify_group_signature Point crypto agg) as [verdict|e];
    [|discriminate].
  destruct (truthy verdict).
  - destruct agg as [| | | | | |a]; simpl in H; try discriminate.
    destruct (dict_get "message_hash" a) as [mh|]; simpl in H; [|discriminate].
    destruct mh; simpl in H; try discriminate.
    inversion H; subst. apply dict_get_set_same.
  - destruct agg as [| | | | | |a]; simpl in H; try discriminate.
    inversion H; subst. rewrite dict_get_set_same in Hres. discriminate.
Qed.

Lemma settle_successful dkg_key nonces_list request_id signatures w d w' :
  settle dkg_key nonces_list request_id signatures w = (Returned (PDict d), w') ->
  dict_get "result" d = Some (PStr "SUCCESSFUL") ->
  dict_get "request_id" d = Some (PStr request_id).
Proof.
  unfold settle, bind at 1, lift. intros H Hres.
  destruct (extract signatures) as [ex|e]; [|discriminate].
  unfold bind at 1 in H.
  destruct (consistency_check dkg_key nonces_list ex signatures w)
    as [[[signatures' failed]|e] w1]; [|discriminate].
  simpl in H. destruct failed.
  - inversion H; subst. discriminate.
  - eapply aggregate_and_verify_successful; eauto.
Qed.

(** One call past the guard: it draws one uuid, every request it sends
    carries that id in the shared payload, and so does a SUCCESSFUL
    result. *)
Lemma request_signature_request_id dkg_key nonces_list sa_data sign_party
      w result w' :
  incl sign_party (party dkg_key) ->
  request_signature dkg_key nonces_list sa_data sign_party w = (result, w') ->
  uuid_draws w' = S (uuid_draws w)
  /\ (exists evs,
        trace w' = trace w ++ evs
        /\ Forall (fun ev => forall body,
                       event_body ev = Some body ->
                       body = sign_request (uuid4 (uuid_draws w)) dkg_key
                                           nonces_list sa_data) evs)
  /\ (forall d, result = Returned (PDict d) ->
                dict_get "result" d = Some (PStr "SUCCESSFUL") ->
                dict_get "request_id" d = Some (PStr (uuid4 (uuid_draws w)))).
Proof.
  intros Hsub H. apply issubset_incl in Hsub.
  unfold request_signature in H. rewrite Hsub in H. simpl in H.
  unfold bind at 1 in H.
  destruct (collect_signatures dkg_key nonces_list sa_data sign_party w)
    as [[[request_id signatures]|e] w1] eqn:Hc;
    apply collect_signatures_trace in Hc as [Hd [Hid [evs1 [Ht1 HF1]]]].
  - simpl in H. specialize (Hid _ _ eq_refl). subst request_id.
    pose proof (settle_trace _ _ _ _ _ _ _ H) as [Hd2 [evs2 [Ht2 HF2]]].
    split; [congruence|]. split.
    + exists (evs1 ++ evs2). rewrite Ht2, Ht1, app_assoc.
      split; [reflexivity|]. apply Forall_app. split.
      * eapply Forall_impl; [|exact HF1].
        intros ev [Hp|[_ Hb]] body Hbody.
        -- destruct ev; simpl in *; discriminate.
        -- congruence.
      * eapply Forall_impl; [|exact HF2].
        intros ev [[Hp|Hp] _] body Hbody; destruct ev; simpl in *; discriminate.
    + intros d Hr Hres. subst result. eapply settle_successful; eauto.
  - inversion H; subst. split; [assumption|]. split.
    + exists evs1. split; [assumption|].
      eapply Forall_impl; [|exact HF1].
      intros ev [Hp|[_ Hb]] body Hbody.
      * destruct ev; simpl in *; discriminate.
      * congruence.
    + intros d Hr. discriminate.
Qed.

(** The fan-out when every member resolves, whatever the calls answer:
    every member is looked up, then every member is sent the request. *)
Lemma fan_out_resolved (call_method : string) (body : pyval)
      (ids : list string) (nodes : list node_info) w :
  Forall2 (fun id node => lookup_node (nodes_info self) id = Returned node)
          ids nodes ->
  fan_out call_method body ids w =
    (all_returned
       (map (fun node =>
               post_request_result
                 (http_post net (node_url call_method node) body
                            (default_timeout self))) nodes),
     World (trace w
              ++ map EvLookup ids
              ++ map (fun node => EvPost (node_url call_method node) body
                                         (default_timeout self)) nodes)
           (uuid_draws w)).
Proof.
  intros Hl. unfold fan_out, bind.
  rewrite (for_each_lookup_ok ids nodes w Hl).
  rewrite gather_posts. simpl. rewrite !map_map.
  now rewrite <- app_assoc.
Qed.

(** One call past the guard whose signers all resolve: after the lookups
    it sends one request per signer, in the order of [sign_party], each
    with the shared payload of this call's id; whatever it calls after
    that is no request. *)
Lemma request_signature_sends dkg_key nonces_list sa_data sign_party nodes
      w result w' :
  incl sign_party (party dkg_key) ->
  Forall2 (fun id node => lookup_node (nodes_info self) id = Returned node)
          sign_party nodes ->
  request_signature dkg_key nonces_list sa_data sign_party w = (result, w') ->
  exists rest,
    trace w' =
      trace w
        ++ map EvLookup sign_party
        ++ map (fun node =>
                  EvPost (node_url "/v1/sign" node)
                         (sign_request (uuid4 (uuid_draws w)) dkg_key
                                       nonces_list sa_data)
                         (default_timeout self)) nodes
        ++ rest
    /\ Forall (fun ev => event_body ev = None) rest.
Proof.
  intros Hsub Hl H. apply issubset_incl in Hsub.
  unfold request_signature in H. rewrite Hsub in H. simpl in H.
  unfold bind at 1, collect_signatures, bind at 1, fresh_uuid in H.
  unfold bind at 1 in H.
  rewrite (fan_out_resolved _ _ sign_party nodes _ Hl) in H.
  simpl trace in H. simpl uuid_draws in H.
  destruct (all_returned _) as [responses|e] in H.
  - unfold ret in H. simpl in H.
    apply settle_trace in H as [_ [evs [Ht HF]]]. simpl in Ht.
    exists evs. rewrite Ht, <- !app_assoc. split; [reflexivity|].
    eapply Forall_impl; [|exact HF].
    intros ev [[Hp|Hp] _]; destruct ev; simpl in *; try discriminate;
      reflexivity.
  - inversion H; subst. exists []. simpl. rewrite app_nil_r. auto.
Qed.

(** C9 (as amended).  Let [uuid4] never hand out the same id twice.  Two
    calls of [request_signature] with the same arguments, one after the
    other, each past the guard: each draws exactly one uuid, and the two
    ids differ.  Every request a call sends carries the payload
    [{request_id, dkg_public_key, nonces_list, data}] with that call's
    id; when every signer resolves in the directory, the call sends
    exactly one such request per signer, in the order of [sign_party],
    and no other request.  A SUCCESSFUL result of a call carries that
    call's id under [request_id]. *)
Theorem request_id_fresh_and_carried :
  forall dkg_key nonces_list sa_data sign_party w result1 w1 result2 w2,
    (forall m n, uuid4 m = uuid4 n -> m = n) ->
    incl sign_party (party dkg_key) ->
    request_signature dkg_key nonces_list sa_data sign_party w
      = (result1, w1) ->
    request_signature dkg_key nonces_list sa_data sign_party w1
      = (result2, w2) ->
    let id1 := uuid4 (uuid_draws w) in
    let id2 := uuid4 (uuid_draws w1) in
    let payload id :=
      PDict [("request_id", PStr id);
             ("dkg_public_key", public_key dkg_key);
             ("nonces_list", nonces_list);
             ("data", sa_data)] in
    let requests id nodes :=
      map (fun node => EvPost (node_url "/v1/sign" node) (payload id)
                              (default_timeout self)) nodes in
    id1 <> id2
    /\ uuid_draws w1 = S (uuid_draws w)
    /\ uuid_draws w2 = S (uuid_draws w1)
    /\ (exists evs, trace w1 = trace w ++ evs
                    /\ Forall (fun ev => forall body,
                                   event_body ev = Some body ->
                                   body = payload id1) evs)
    /\ (exists evs, trace w2 = trace w1 ++ evs
                    /\ Forall (fun ev => forall body,
                                   event_body ev = Some body ->
                                   body = payload id2) evs)
    /\ (forall nodes,
          Forall2 (fun id node =>
                     lookup_node (nodes_info self) id = Returned node)
                  sign_party nodes ->
          length nodes = length sign_party
          /\ (exists rest,
                trace w1 = trace w ++ map EvLookup sign_party
                                   ++ requests id1 nodes ++ rest
                /\ Forall (fun ev => event_body ev = None) rest)
          /\ (exists rest,
                trace w2 = trace w1 ++ map EvLookup sign_party
                                    ++ requests id2 nodes ++ rest
                /\ Forall (fun ev => event_body ev = None) rest))
    /\ (forall d, result1 = Returned (PDict d) ->
                  dict_get "result" d = Some (PStr "SUCCESSFUL") ->
                  dict_get "request_id" d = Some (PStr id1))
    /\ (forall d, result2 = Returned (PDict d) ->
                  dict_get "result" d = Some (PStr "SUCCESSFUL") ->
                  dict_get "request_id" d = Some (PStr id2)).
Proof.
  intros dkg_key nonces_list sa_data sign_party w result1 w1 result2 w2
         Hfresh Hsub H1 H2 id1 id2 payload requests.
  destruct (request_signature_request_id _ _ _ _ _ _ _ Hsub H1)
    as [Hd1 [Hp1 Hs1]].
  destruct (request_signature_request_id _ _ _ _ _ _ _ Hsub H2)
    as [Hd2 [Hp2 Hs2]].
  split.
  { subst id1 id2. intros Heq. apply Hfresh in Heq. lia. }
  do 4 (split; [assumption|]).
  split; [|split; assumption].
  intros nodes Hl. split.
  { symmetry. eapply Forall2_length; eauto. }
  split.
  - exact (request_signature_sends _ _ _ _ _ _ _ _ Hsub Hl H1).
  - exact (request_signature_sends _ _ _ _ _ _ _ _ Hsub Hl H2).
Qed.

(** *** Failures of the fan-out *)

Lemma resolved_nodes (ids : list string) :
  Forall (fun id => exists node,
              lookup_node (nodes_info self) id = Returned node) ids ->
  exists nodes,
    Forall2 (fun id node => lookup_node (nodes_info self) id = Returned node)
            ids nodes.
Proof.
  induction 1 as [|id ids [node Hn] _ [nodes IH]].
  - exists []. constructor.
  - exists (node :: nodes). now constructor.
Qed.

(** The lookups stop at the first id the directory does not resolve. *)
Lemma for_each_lookup_fails (pre post : list string) (bad : string) (e : exn) w :
  Forall (fun id => exists node,
              lookup_node (nodes_info self) id = Returned node) pre ->
  lookup_node (nodes_info self) bad = Raised e ->
  for_each Point (lookup Point self) (pre ++ bad :: post) w =
    (Raised e, World (trace w ++ map EvLookup (pre ++ [bad])) (uuid_draws w)).
Proof.
  intros Hpre Hbad. revert w.
  induction Hpre as [|id pre [node Hn] _ IH]; intros w; simpl.
  - unfold bind at 1, lookup at 1, call. rewrite Hbad. reflexivity.
  - unfold bind at 1, lookup at 1, call. rewrite Hn.
    unfold bind at 1. rewrite IH. simpl. now rewrite <- app_assoc.
Qed.

Lemma for_each_lookup_returned (ids : list string) w nodes w' :
  for_each Point (lookup Point self) ids w = (Returned nodes, w') ->
  Forall2 (fun id node => lookup_node (nodes_info self) id = Returned node)
          ids nodes.
Proof.
  revert w nodes w'. induction ids as [|id ids IH]; intros w nodes w' H;
    simpl in H.
  - inversion H. constructor.
  - unfold bind at 1, lookup at 1, call in H.
    destruct (lookup_node (nodes_info self) id) as [node|e] eqn:Hn;
      [|discriminate].
    unfold bind at 1 in H.
    destruct (for_each Point (lookup Point self) ids (log (EvLookup id) w))
      as [[nodes'|e] w1] eqn:Hrest; [|discriminate].
    inversion H; subst. constructor; [exact Hn | eapply IH; eauto].
Qed.

Lemma all_returned_inv {A B} (f : A -> outcome B) (l : list A) (vs : list B) :
  all_returned (map f l) = Returned vs ->
  Forall2 (fun a v => f a = Returned v) l vs.
Proof.
  revert vs. induction l as [|a l IH]; intros vs H; simpl in H.
  - inversion H. constructor.
  - destruct (f a) as [v|e] eqn:Ha; [|discriminate].
    destruct (all_returned (map f l)) as [vs'|e]; [|discriminate].
    inversion H; subst. constructor; auto.
Qed.

Lemma all_returned_raised {A B} (f : A -> outcome B) (l : list A) :
  Exists (fun a => exists e, f a = Raised e) l ->
  exists a e, In a l /\ f a = Raised e /\ all_returned (map f l) = Raised e.
Proof.
  induction l as [|a l IH]; intros H; [inversion H|]. simpl.
  destruct (f a) as [v|e] eqn:Ha.
  - inversion H as [? ? [e He]|? ? Hrest]; subst; [congruence|].
    destruct (IH Hrest) as [a' [e [Hin [Hf Hall]]]].
    exists a', e. rewrite Hall. auto.
  - exists a, e. auto.
Qed.

(** What a returned fan-out tells: every member resolved and every call
    returned, position by position. *)
Lemma fan_out_returned (call_method : string) (body : pyval)
      (ids : list string) w responses w' :
  fan_out call_method body ids w = (Returned responses, w') ->
  exists nodes,
    Forall2 (fun id node => lookup_node (nodes_info self) id = Returned node)
            ids nodes
    /\ Forall2 (fun node v =>
                  post_request_result
                    (http_post net (node_url call_method node) body
                               (default_timeout self)) = Returned v)
               nodes responses.
Proof.
  unfold fan_out, bind. intros H.
  destruct (for_each Point (lookup Point self) ids w) as [[nodes|e] w1] eqn:Hl;
    [|discriminate].
  exists nodes. split; [eapply for_each_lookup_returned; eauto|].
  rewrite gather_posts in H. inversion H as [[Hall Hw]].
  rewrite map_map in Hall. now apply all_returned_inv in Hall.
Qed.

(** X1.  When the directory fails on a member of the party,
    [request_nonces] raises the directory's exception.  The members ahead
    of it have been looked up, the ones after it have not, and no request
    has been sent to anybody. *)
Theorem request_nonces_unknown_member :
  forall pre bad post number_of_nonces e w,
    Forall (fun id => exists node,
                lookup_node (nodes_info self) id = Returned node) pre ->
    lookup_node (nodes_info self) bad = Raised e ->
    request_nonces (pre ++ bad :: post) number_of_nonces w =
      (Raised e,
       World (trace w ++ map EvLookup (pre ++ [bad])) (uuid_draws w)).
Proof.
  intros pre bad post number_of_nonces e w Hpre Hbad.
  unfold request_nonces, bind at 1, fan_out, bind at 1.
  rewrite (for_each_lookup_fails pre post bad e w Hpre Hbad). reflexivity.
Qed.

(** X2.  When every member resolves but the call to one of them raises
    (the connection is refused, say), [request_nonces] raises an exception
    that one of the calls raised and returns no mapping, although a
    request has been sent to every member. *)
Theorem request_nonces_unreachable_member :
  forall party number_of_nonces nodes w,
    Forall2 (fun id node => lookup_node (nodes_info self) id = Returned node)
            party nodes ->
    Exists (fun node => exists e,
                post_request_result
                  (http_post net (node_url "/v1/generate-nonces" node)
                             (PDict [("number_of_nonces", PInt number_of_nonces)])
                             (default_timeout self)) = Raised e) nodes ->
    exists node e,
      In node nodes
      /\ post_request_result
           (http_post net (node_url "/v1/generate-nonces" node)
                      (PDict [("number_of_nonces", PInt number_of_nonces)])
                      (default_timeout self)) = Raised e
      /\ request_nonces party number_of_nonces w =
           (Raised e,
            World (trace w
                     ++ map EvLookup party
                     ++ map (fun node =>
                               EvPost (node_url "/v1/generate-nonces" node)
                                      (PDict [("number_of_nonces",
                                               PInt number_of_nonces)])
                                      (default_timeout self)) nodes)
                  (uuid_draws w)).
Proof.
  intros party number_of_nonces nodes w Hl Hex.
  destruct (all_returned_raised _ nodes Hex) as [node [e [Hin [Hf Hall]]]].
  exists node, e. split; [exact Hin|]. split; [exact Hf|].
  unfold request_nonces, bind at 1, fan_out, bind at 1.
  rewrite (for_each_lookup_ok party nodes w Hl).
  rewrite gather_posts. simpl. rewrite !map_map. rewrite Hall.
  now rewrite <- app_assoc.
Qed.

(** X3.  [request_signature] returns a value in two ways only: the guard
    rejected [sign_party], and then the value is
    [{result: FAILED, signatures: None}] and nothing was called; or
    [sign_party] is authorized and every signer of it resolved in the
    directory and the call to it returned.  With an authorized party that
    has an unknown or unreachable signer the call ends in an exception,
    whatever the other signers answer. *)
Theorem request_signature_needs_every_signer :
  forall dkg_key nonces_list sa_data sign_party w result w',
    request_signature dkg_key nonces_list sa_data sign_party w
      = (Returned result, w') ->
    (~ incl sign_party (party dkg_key)
     /\ result = PDict [("result", PStr "FAILED"); ("signatures", PNone)]
     /\ w' = w)
    \/ (incl sign_party (party dkg_key)
        /\ Forall (fun id =>
                     exists node v,
                       lookup_node (nodes_info self) id = Returned node
                       /\ post_request_result
                            (http_post net (node_url "/v1/sign" node)
                                       (sign_request (uuid4 (uuid_draws w))
                                                     dkg_key nonces_list sa_data)
                                       (default_timeout self)) = Returned v)
                  sign_party).
Proof.
  intros dkg_key nonces_list sa_data sign_party w result w' H.
  unfold request_signature in H.
  destruct (issubset sign_party (party dkg_key)) eqn:Hsub; simpl in H.
  2:{ left. inversion H; subst. split; [|auto].
      intros Hincl. apply issubset_incl in Hincl. congruence. }
  right. split; [now apply issubset_incl|].
  unfold bind at 1 in H.
  destruct (collect_signatures dkg_key nonces_list sa_data sign_party w)
    as [[collected|e] w1] eqn:Hc; [|discriminate].
  clear H. unfold collect_signatures, bind at 1, fresh_uuid in Hc.
  unfold bind at 1 in Hc.
  match type of Hc with
  | context [fan_out ?cm ?b ?p ?w0] =>
      destruct (fan_out cm b p w0) as [[responses|e] w2] eqn:Hf
  end; [|discriminate].
  apply fan_out_returned in Hf as [nodes [Hl Hp]].
  clear Hc Hsub. revert responses Hp.
  induction Hl as [|id node ids nodes Hn _ IH]; intros responses Hp;
    [constructor|].
  inversion Hp as [|? v ? vs Hv Hrest]; subst.
  constructor; [exists node, v; auto | eapply IH; eauto].
Qed.

(** X4.  Whatever the directory and the network do, [request_nonces] only
    looks members up and posts: it draws no uuid and makes no crypto
    call; it looks up a prefix of the party, in order, before posting
    anything; and every request it sends goes to the nonce endpoint of a
    resolved member with the body [{number_of_nonces}] and the
    coordinator's [default_timeout]. *)
Theorem request_nonces_calls :
  forall party number_of_nonces w result w',
    request_nonces party number_of_nonces w = (result, w') ->
    uuid_draws w' = uuid_draws w
    /\ exists looked_up rest nodes,
         party = looked_up ++ rest
         /\ trace w' =
              trace w
                ++ map EvLookup looked_up
                ++ map (fun node =>
                          EvPost (node_url "/v1/generate-nonces" node)
                                 (PDict [("number_of_nonces",
                                          PInt number_of_nonces)])
                                 (default_timeout self)) nodes
         /\ (nodes = []
             \/ (rest = []
                 /\ Forall2 (fun id node =>
                               lookup_node (nodes_info self) id = Returned node)
                            party nodes)).
Proof.
  intros party number_of_nonces w result w'.
  unfold request_nonces, bind at 1, fan_out, bind at 1.
  assert (Hcases :
    forall ids w0 o w1,
      for_each Point (lookup Point self) ids w0 = (o, w1) ->
      uuid_draws w1 = uuid_draws w0
      /\ exists looked_up rest,
           ids = looked_up ++ rest
           /\ trace w1 = trace w0 ++ map EvLookup looked_up
           /\ (forall nodes, o = Returned nodes -> rest = [])).
  { induction ids as [|id ids IH]; intros w0 o w1 H; simpl in H.
    - inversion H; subst. split; [reflexivity|]. exists [], [].
      simpl. rewrite app_nil_r. auto.
    - unfold bind at 1, lookup at 1, call in H.
      destruct (lookup_node (nodes_info self) id) as [node|e].
      + unfold bind at 1 in H.
        destruct (for_each Point (lookup Point self) ids (log (EvLookup id) w0))
          as [[nodes'|e] w2] eqn:Hrest;
          apply IH in Hrest as [Hd [lu [rest [Hids [Ht Hr]]]]];
          inversion H; subst; (split; [exact Hd|]);
          exists (id :: lu), rest; simpl in *; rewrite Ht, <- app_assoc;
          (split; [reflexivity|]); (split; [reflexivity|]).
        * intros nodes _. eapply Hr; eauto.
        * intros nodes Hn. discriminate.
      + inversion H; subst. split; [reflexivity|]. exists [id], ids.
        simpl. repeat split. intros nodes Hn. discriminate. }
  destruct (for_each Point (lookup Point self) party w) as [[nodes|e] w1] eqn:Hl.
  - pose proof (for_each_lookup_returned _ _ _ _ Hl) as HF.
    apply Hcases in Hl as [Hd [lu [rest [Hids [Ht Hr]]]]].
    specialize (Hr nodes eq_refl). subst rest. rewrite app_nil_r in Hids.
    subst lu. rewrite gather_posts. intros H.
    assert (Hw : w' = World (trace w1
                               ++ map (fun url =>
                                         EvPost url
                                           (PDict [("number_of_nonces",
                                                    PInt number_of_nonces)])
                                           (default_timeout self))
                                      (map (node_url "/v1/generate-nonces") nodes))
                            (uuid_draws w1)).
    { destruct (all_returned _) in H; inversion H; reflexivity. }
    subst w'. simpl. split; [exact Hd|].
    exists party, [], nodes. rewrite app_nil_r, Ht, map_map, <- app_assoc.
    auto.
  - intros H. inversion H; subst.
    apply Hcases in Hl as [Hd [lu [rest [Hids [Ht _]]]]].
    split; [exact Hd|]. exists lu, rest, []. simpl. rewrite app_nil_r. auto.
Qed.

(** *** Results and exceptions of the signing ceremony *)

(** X5.  An empty [sign_party] passes the guard, whatever the key, and
    the call never returns: nothing is collected, the nonce is recomputed
    on the digest [None], and if the crypto provider lets that through,
    line 123 indexes the empty list of nonces. *)
Theorem request_signature_empty_party_raises :
  forall dkg_key nonces_list sa_data w,
    (exists e w',
        request_signature dkg_key nonces_list sa_data [] w = (Raised e, w'))
    /\ forall R code,
         aggregate_nonce Point crypto PNone nonces_list (public_key dkg_key)
           = Returned R ->
         pub_to_code Point crypto R = Returned code ->
         request_signature dkg_key nonces_list sa_data [] w =
           (Raised IndexError,
            log (EvPubToCode R)
                (log (EvAggregateNonce PNone nonces_list (public_key dkg_key))
                     (World (trace w) (S (uuid_draws w))))).
Proof.
  intros dkg_key nonces_list sa_data w.
  assert (Hsub : incl [] (party dkg_key)) by (intros x []).
  assert (Hc : collect_signatures dkg_key nonces_list sa_data [] w =
               (Returned (uuid4 (uuid_draws w), []),
                World (trace w) (S (uuid_draws w)))).
  { unfold collect_signatures, bind at 1, fresh_uuid. unfold bind at 1.
    rewrite (fan_out_ok "/v1/sign" _ [] [] []); [|constructor|constructor].
    simpl. now rewrite !app_nil_r. }
  rewrite (request_signature_collected _ _ _ _ _ _ _ _ Hsub Hc).
  unfold settle, consistency_check, recompute_and_flag, aggregate_and_verify,
    bind, lift, call, ret.
  simpl.
  split.
  - destruct (aggregate_nonce Point crypto PNone nonces_list
                              (public_key dkg_key)) as [R|e]; [|eauto].
    destruct (pub_to_code Point crypto R) as [code|e]; simpl; eauto.
  - intros R code HR Hcode. rewrite HR, Hcode. reflexivity.
Qed.

(** X6.  Whenever [request_signature] returns a value, that value is a
    dict whose ['result'] entry is ['SUCCESSFUL'] or ['FAILED']. *)
Theorem request_signature_result_discriminant :
  forall dkg_key nonces_list sa_data sign_party w result w',
    request_signature dkg_key nonces_list sa_data sign_party w
      = (Returned result, w') ->
    exists d,
      result = PDict d
      /\ (dict_get "result" d = Some (PStr "SUCCESSFUL")
          \/ dict_get "result" d = Some (PStr "FAILED")).
Proof.
  intros dkg_key nonces_list sa_data sign_party w result w' H.
  unfold request_signature in H.
  destruct (negb (issubset sign_party (party dkg_key))).
  { inversion H. eexists. split; [reflexivity|]. right. reflexivity. }
  unfold bind at 1 in H.
  destruct (collect_signatures dkg_key nonces_list sa_data sign_party w)
    as [[[request_id signatures]|e] w1]; [|discriminate].
  simpl in H. unfold settle, bind at 1, lift in H.
  destruct (extract signatures) as [ex|e]; [|discriminate].
  unfold bind at 1 in H.
  destruct (consistency_check dkg_key nonces_list ex signatures w1)
    as [[[signatures' failed]|e] w2]; [|discriminate].
  simpl in H. destruct failed.
  { inversion H. eexists. split; [reflexivity|]. right. reflexivity. }
  unfold aggregate_and_verify, bind, lift, call in H.
  destruct (aggregated_public_nonces ex) as [|first rest]; [discriminate|].
  destruct (code_to_pub Point crypto first) as [R|e]; [|discriminate].
  destruct (aggregate_signatures Point crypto _ _ R _) as [agg|e];
    [|discriminate].
  destruct (verify_group_signature Point crypto agg) as [verdict|e];
    [|discriminate].
  destruct (truthy verdict).
  - destruct agg as [| | | | | |a]; simpl in H; try discriminate.
    destruct (dict_get "message_hash" a) as [mh|]; simpl in H; [|discriminate].
    destruct mh; simpl in H; try discriminate.
    inversion H. eexists. split; [reflexivity|]. left.
    rewrite !dict_get_set_other by discriminate. apply dict_get_set_same.
  - destruct agg as [| | | | | |a]; simpl in H; try discriminate.
    inversion H. eexists. split; [reflexivity|]. right.
    apply dict_get_set_same.
Qed.

(** X7.  A ['SUCCESSFUL'] result is only returned after
    [verify_group_signature] has accepted the aggregate: the last call of
    the ceremony is that verification, its answer was true, and the
    result is the verified aggregate with its message hash in hexadecimal
    and the three fields [result], [signature_data] and [request_id]
    set. *)
Theorem successful_result_was_verified :
  forall dkg_key nonces_list sa_data sign_party w d w',
    request_signature dkg_key nonces_list sa_data sign_party w
      = (Returned (PDict d), w') ->
    dict_get "result" d = Some (PStr "SUCCESSFUL") ->
    exists aggregated_sign h verdict w2 sample,
      w' = log (EvVerify (PDict aggregated_sign)) w2
      /\ verify_group_signature Point crypto (PDict aggregated_sign)
         = Returned verdict
      /\ truthy verdict = true
      /\ dict_get "message_hash" aggregated_sign = Some (PBytes h)
      /\ d = dict_set "request_id" (PStr (uuid4 (uuid_draws w)))
               (dict_set "signature_data" (PList sample)
                  (dict_set "result" (PStr "SUCCESSFUL")
                     (dict_set "message_hash" (PStr (bytes_hex h))
                               aggregated_sign))).
Proof.
  intros dkg_key nonces_list sa_data sign_party w d w' H Hres.
  unfold request_signature in H.
  destruct (negb (issubset sign_party (party dkg_key))).
  { inversion H; subst. discriminate. }
  unfold bind at 1 in H.
  destruct (collect_signatures dkg_key nonces_list sa_data sign_party w)
    as [[[request_id signatures]|e] w1] eqn:Hc; [|discriminate].
  apply collect_signatures_trace in Hc as [_ [Hid _]].
  specialize (Hid _ _ eq_refl). subst request_id.
  simpl in H. unfold settle, bind at 1, lift in H.
  destruct (extract signatures) as [ex|e]; [|discriminate].
  unfold bind at 1 in H.
  destruct (consistency_check dkg_key nonces_list ex signatures w1)
    as [[[signatures' failed]|e] w2]; [|discriminate].
  simpl in H. destruct failed.
  { inversion H; subst. discriminate. }
  unfold aggregate_and_verify, bind, lift, call in H.
  destruct (aggregated_public_nonces ex) as [|first rest]; [discriminate|].
  destruct (code_to_pub Point crypto first) as [R|e]; [|discriminate].
  destruct (aggregate_signatures Point crypto _ _ R _) as [agg|e];
    [|discriminate].
  destruct (verify_group_signature Point crypto agg) as [verdict|e] eqn:Hv;
    [|discriminate].
  destruct (truthy verdict) eqn:Ht.
  - destruct agg as [| | | | | |a]; simpl in H; try discriminate.
    destruct (dict_get "message_hash" a) as [mh|] eqn:Hm; simpl in H;
      [|discriminate].
    destruct mh; simpl in H; try discriminate.
    inversion H; subst.
    eexists a, b, verdict, _, (sample_result ex). repeat split; eauto.
  - destruct agg as [| | | | | |a]; simpl in H; try discriminate.
    inversion H; subst. rewrite dict_get_set_same in Hres. discriminate.
Qed.

(** *** The flagging loop in general *)

Lemma reported_nonce_dict (data v : pyval) :
  reported_nonce data = Some v -> exists d, data = PDict d.
Proof.
  unfold reported_nonce. destruct data; try discriminate. eauto.
Qed.

(** With every record reporting a nonce, the loop flags the disagreeing
    records and no others. *)
Lemma flag_disagreeing_exact (code : pyval) (signatures : list (string * pyval)) :
  Forall (fun kv => reported_nonce (snd kv) <> None) signatures ->
  flag_disagreeing code signatures =
    Returned (map (fun kv => if disagrees code (snd kv)
                             then (fst kv, marked (snd kv)) else kv)
                  signatures,
              existsb (fun kv => disagrees code (snd kv)) signatures).
Proof.
  induction 1 as [|[k data] l Hr _ IH]; simpl; [reflexivity|].
  simpl in Hr. destruct (reported_nonce data) as [v|] eqn:Hv; [|congruence].
  destruct (reported_nonce_dict _ _ Hv) as [d ->].
  destruct (reported_nonce_getitem _ _ Hv) as [sd [H1 H2]].
  rewrite H1. simpl obind. rewrite H2. simpl obind.
  unfold disagrees at 1 3. rewrite Hv.
  destruct (negb (py_eq v code)); simpl; rewrite IH; reflexivity.
Qed.

Lemma any_malicious_exists (values : list pyval) :
  Forall (fun data => status_of data <> None) values ->
  Exists (fun data => is_malicious data = true) values ->
  any_malicious values = Returned true.
Proof.
  intros Hall Hex. induction Hall as [|data l Hs _ IH]; [inversion Hex|].
  simpl. apply status_of_getitem in Hs as [s [Hs E]]. rewrite E. simpl.
  destruct (py_eq s (PStr "MALICIOUS")) eqn:Hm; [reflexivity|].
  apply IH. inversion Hex as [? ? Hd|? ? Hrest]; subst; [|exact Hrest].
  unfold is_malicious in Hd. rewrite Hs in Hd. congruence.
Qed.

Lemma marked_status (data v : pyval) :
  reported_nonce data = Some v ->
  status_of (marked data) = Some (PStr "MALICIOUS").
Proof.
  intros Hv. destruct (reported_nonce_dict _ _ Hv) as [d ->]. simpl.
  apply dict_get_set_same.
Qed.

(** X8.  When the nonce is recomputed and every collected record reports
    a nonce and carries a status, the records flagged ['MALICIOUS'] are
    exactly the ones whose reported nonce differs from the recomputed
    one, however many they are; with at least one of them the result is
    ['FAILED'] and carries the mapping so flagged, every other record as
    received. *)
Theorem disagreeing_signers_are_all_flagged :
  forall dkg_key nonces_list sa_data sign_party w request_id signatures w1
         ex n R code,
    incl sign_party (party dkg_key) ->
    collect_signatures dkg_key nonces_list sa_data sign_party w =
      (Returned (request_id, signatures), w1) ->
    extract signatures = Returned ex ->
    len_set (aggregated_public_nonces ex) = Returned n ->
    n <> 1 ->
    aggregate_nonce Point crypto (str_message ex) nonces_list
                    (public_key dkg_key) = Returned R ->
    pub_to_code Point crypto R = Returned code ->
    Forall (fun kv => reported_nonce (snd kv) <> None
                      /\ status_of (snd kv) <> None) signatures ->
    Exists (fun kv => disagrees code (snd kv) = true) signatures ->
    request_signature dkg_key nonces_list sa_data sign_party w =
      (Returned
         (PDict [("result", PStr "FAILED");
                 ("signatures",
                  PDict (map (fun kv => if disagrees code (snd kv)
                                        then (fst kv, marked (snd kv))
                                        else kv) signatures))]),
       log (EvPubToCode R)
           (log (EvAggregateNonce (str_message ex) nonces_list
                                  (public_key dkg_key)) w1)).
Proof.
  intros dkg_key nonces_list sa_data sign_party w request_id signatures w1
         ex n R code Hsub Hc Hex Hlen Hn HR Hcode Hshape Hsome.
  rewrite (request_signature_collected _ _ _ _ _ _ _ _ Hsub Hc).
  unfold settle, bind at 1, lift. rewrite Hex.
  unfold bind at 1, consistency_check, bind at 1, recompute_and_flag,
    bind at 1, lift. rewrite Hlen.
  apply Nat.eqb_neq in Hn. rewrite Hn. simpl.
  unfold bind at 1, call. rewrite HR.
  unfold bind at 1. rewrite Hcode.
  rewrite flag_disagreeing_exact
    by (eapply Forall_impl; [|exact Hshape]; intros kv [H _]; exact H).
  unfold bind at 1. simpl fst.
  rewrite any_malicious_exists.
  - unfold ret. simpl. now rewrite orb_true_r.
  - unfold dict_values. rewrite map_map. apply Forall_map.
    eapply Forall_impl; [|exact Hshape]. intros [k data] [Hr Hs]. simpl in *.
    destruct (disagrees code data); simpl; [|exact Hs].
    destruct (reported_nonce data) as [v|] eqn:Hv; [|congruence].
    rewrite (marked_status _ _ Hv). discriminate.
  - unfold dict_values. rewrite map_map. apply Exists_exists.
    apply Exists_exists in Hsome as [[k data] [Hin Hd]]. simpl in Hd.
    exists (marked data). split.
    + apply in_map_iff. exists (k, data). simpl. rewrite Hd. auto.
    + unfold disagrees in Hd.
      destruct (reported_nonce data) as [v|] eqn:Hv; [|discriminate].
      unfold is_malicious. now rewrite (marked_status _ _ Hv).
Qed.

(** *** Recomputation and aggregation exclude each other *)

Lemma getitem_reported_nonce (data sd v : pyval) :
  py_getitem data "signature_data" = Returned sd ->
  py_getitem sd "aggregated_public_nonce" = Returned v ->
  reported_nonce data = Some v.
Proof.
  unfold reported_nonce. destruct data as [| | | | | |d]; simpl; try discriminate.
  destruct (dict_get "signature_data" d) as [x|]; [|discriminate].
  intros H. inversion H; subst.
  destruct sd as [| | | | | |s]; simpl; try discriminate.
  destruct (dict_get "aggregated_public_nonce" s); [|discriminate].
  congruence.
Qed.

(** A flagging loop that flags nobody has found every record in
    agreement with the recomputed nonce. *)
Lemma flag_disagreeing_unflagged (code : pyval)
      (signatures signatures' : list (string * pyval)) :
  flag_disagreeing code signatures = Returned (signatures', false) ->
  signatures' = signatures
  /\ Forall (fun kv => exists v, reported_nonce (snd kv) = Some v
                                 /\ py_eq v code = true) signatures.
Proof.
  revert signatures'. induction signatures as [|[k data] l IH];
    intros signatures' H; simpl in H.
  - inversion H. auto.
  - destruct (py_getitem data "signature_data") as [sd|e] eqn:H1; simpl in H;
      [|discriminate].
    destruct (py_getitem sd "aggregated_public_nonce") as [v|e] eqn:H2;
      simpl in H; [|discriminate].
    destruct (py_eq v code) eqn:Hq; simpl in H.
    + destruct (flag_disagreeing code l) as [[l' b]|e]; simpl in H;
        [|discriminate].
      inversion H; subst. destruct (IH l' eq_refl) as [-> Hall].
      split; [reflexivity|]. constructor; [|exact Hall].
      exists v. split; [|exact Hq]. eapply getitem_reported_nonce; eauto.
    + destruct (py_setitem data "status" (PStr "MALICIOUS")); simpl in H;
        [|discriminate].
      destruct (flag_disagreeing code l) as [[l' b]|e]; simpl in H;
        discriminate.
Qed.

Lemma len_set_hashable (l : list pyval) (n : nat) :
  len_set l = Returned n -> Forall (fun v => hashable v = true) l.
Proof.
  unfold len_set. destruct (py_set l []) as [s|e] eqn:Hs; [|discriminate].
  intros _. apply py_set_keeps in Hs as [_ Hl].
  apply Forall_forall. intros x Hx. now destruct (Hl x Hx).
Qed.

(** Values that are all [==] to one another make a set of one. *)
Lemma py_set_all_equal (l : list pyval) (x : pyval) :
  hashable x = true ->
  Forall (fun v => hashable v = true /\ norm v = norm x) l ->
  py_set l [x] = Returned [x].
Proof.
  intros Hx. induction 1 as [|v l [Hv Hn] _ IH]; simpl; [reflexivity|].
  rewrite Hv. assert (Hq : py_eq v x = true) by (now apply py_eq_norm).
  rewrite Hq. simpl. exact IH.
Qed.

Lemma len_set_all_equal (l : list pyval) (c : pyval) :
  l <> [] ->
  Forall (fun v => hashable v = true /\ py_eq v c = true) l ->
  len_set l = Returned 1.
Proof.
  intros Hne Hall. destruct l as [|x l]; [congruence|].
  inversion Hall as [|? ? [Hx Hqx] Hrest]; subst.
  unfold len_set. simpl. rewrite Hx. simpl.
  rewrite (py_set_all_equal l x Hx); [reflexivity|].
  eapply Forall_impl; [|exact Hrest]. intros v [Hv Hq]. split; [exact Hv|].
  apply py_eq_norm in Hq; auto. apply py_eq_norm in Hqx; auto. congruence.
Qed.

(** After a recomputation that flagged nobody, no nonce was collected. *)
Lemma recomputed_unflagged_no_nonce (code : pyval)
      (signatures signatures' : list (string * pyval)) (ex : extraction)
      (n : nat) :
  extract signatures = Returned ex ->
  len_set (aggregated_public_nonces ex) = Returned n ->
  n <> 1 ->
  flag_disagreeing code signatures = Returned (signatures', false) ->
  aggregated_public_nonces ex = [].
Proof.
  intros Hex Hlen Hn Hflag.
  apply flag_disagreeing_unflagged in Hflag as [_ Hall].
  destruct (aggregated_public_nonces ex) as [|x l] eqn:Hl; [reflexivity|].
  exfalso. apply Hn.
  assert (H1 : len_set (x :: l) = Returned 1).
  { apply (len_set_all_equal _ code); [discriminate|].
    pose proof (len_set_hashable _ _ Hlen) as Hh.
    rewrite <- Hl, (extract_nonces _ _ Hex) in *.
    apply Forall_forall. intros v Hv. split.
    - rewrite Forall_forall in Hh. auto.
    - apply filter_In in Hv as [Hv _].
      apply in_map_iff in Hv as [data [<- Hd]].
      unfold dict_values in Hd. apply in_map_iff in Hd as [[k d] [<- Hkd]].
      rewrite Forall_forall in Hall. destruct (Hall _ Hkd) as [v [Hr Hq]].
      simpl in *. unfold collected_nonce. now rewrite Hr. }
  congruence.
Qed.

Lemma any_malicious_none (values : list pyval) :
  any_malicious values = Returned false ->
  Forall (fun data => is_malicious data = false) values.
Proof.
  induction values as [|data l IH]; intros H; simpl in H; [constructor|].
  destruct (py_getitem data "status") as [s|e] eqn:Hs; simpl in H;
    [|discriminate].
  destruct (py_eq s (PStr "MALICIOUS")) eqn:Hm; [discriminate|].
  constructor; [|auto].
  unfold is_malicious, status_of.
  destruct data as [| | | | | |d]; simpl in Hs; try discriminate.
  destruct (dict_get "status" d); [|discriminate]. congruence.
Qed.

(** The aggregation step either stops at the empty list of nonces, having
    called nothing, or starts by converting the first collected nonce. *)
Lemma aggregate_and_verify_starts dkg_key request_id ex w o w' :
  aggregate_and_verify dkg_key request_id ex w = (o, w') ->
  (aggregated_public_nonces ex = [] /\ o = Raised IndexError /\ w' = w)
  \/ exists first rest more,
       aggregated_public_nonces ex = first :: rest
       /\ trace w' = trace w ++ EvCodeToPub first :: more
       /\ Forall (fun ev => event_phase ev = Aggregation) more.
Proof.
  intros H. destruct (aggregated_public_nonces ex) as [|first rest] eqn:Hl.
  - left. unfold aggregate_and_verify, bind at 1, lift in H. rewrite Hl in H.
    inversion H. auto.
  - right. exists first, rest.
    unfold aggregate_and_verify, bind at 1, lift in H. rewrite Hl in H.
    unfold bind at 1, call in H.
    destruct (code_to_pub Point crypto first) as [R|e].
    + unfold bind at 1 in H.
      destruct (aggregate_signatures Point crypto _ _ R _) as [agg|e].
      * unfold bind at 1 in H.
        destruct (verify_group_signature Point crypto agg) as [verdict|e].
        -- exists [EvAggregateSignatures (str_message ex) (signs ex) R
                                         (public_key dkg_key); EvVerify agg].
           split; [reflexivity|].
           destruct (truthy verdict); unfold lift in H; inversion H; simpl;
             rewrite <- !app_assoc; split; auto.
        -- exists [EvAggregateSignatures (str_message ex) (signs ex) R
                                         (public_key dkg_key); EvVerify agg].
           split; [reflexivity|]. inversion H; simpl.
           rewrite <- !app_assoc. split; auto.
      * exists [EvAggregateSignatures (str_message ex) (signs ex) R
                                      (public_key dkg_key)].
        split; [reflexivity|]. inversion H; simpl.
        rewrite <- !app_assoc. split; auto.
    + exists []. split; [reflexivity|]. inversion H. simpl. split; auto.
Qed.

(** X9.  A call never both recomputes the nonce and aggregates.  After
    the responses are in, its further calls are either recomputation
    calls only, or aggregation calls only; and it aggregates only when
    the collected nonces are one single value and no collected record is
    ['MALICIOUS'], starting from the first nonce the signers reported,
    never from a recomputed one. *)
Theorem recomputation_excludes_aggregation :
  forall dkg_key nonces_list sa_data sign_party w request_id signatures w1
         result w',
    incl sign_party (party dkg_key) ->
    collect_signatures dkg_key nonces_list sa_data sign_party w =
      (Returned (request_id, signatures), w1) ->
    request_signature dkg_key nonces_list sa_data sign_party w
      = (result, w') ->
    exists evs,
      trace w' = trace w1 ++ evs
      /\ (Forall (fun ev => event_phase ev = Recomputation) evs
          \/ exists ex first rest more,
               extract signatures = Returned ex
               /\ len_set (aggregated_public_nonces ex) = Returned 1
               /\ aggregated_public_nonces ex = first :: rest
               /\ Forall (fun kv => is_malicious (snd kv) = false) signatures
               /\ evs = EvCodeToPub first :: more
               /\ Forall (fun ev => event_phase ev = Aggregation) more).
Proof.
  intros dkg_key nonces_list sa_data sign_party w request_id signatures w1
         result w' Hsub Hc H.
  rewrite (request_signature_collected _ _ _ _ _ _ _ _ Hsub Hc) in H.
  unfold settle, bind at 1, lift in H.
  destruct (extract signatures) as [ex|e] eqn:Hex;
    [|inversion H; exists []; rewrite app_nil_r; auto].
  unfold bind at 1, consistency_check, bind at 1 in H.
  destruct (recompute_and_flag dkg_key nonces_list ex signatures w1)
    as [[[signatures' flagged]|e] w2] eqn:Hflag.
  2:{ inversion H; subst.
      apply recompute_and_flag_trace in Hflag as [_ [evs [Ht HF]]].
      exists evs. split; [exact Ht|]. left.
      eapply Forall_impl; [|exact HF]. intros ev [Hp _]; exact Hp. }
  pose proof (recompute_and_flag_trace _ _ _ _ _ _ _ Hflag)
    as [_ [evs [Ht HF]]].
  assert (HF' : Forall (fun ev : event Point =>
                          event_phase ev = Recomputation) evs)
    by (eapply Forall_impl; [|exact HF]; intros ev [Hp _]; exact Hp).
  unfold bind at 1, lift in H. simpl fst in H.
  destruct (any_malicious (dict_values signatures')) as [found|e] eqn:Hscan;
    [|inversion H; subst; eauto].
  unfold ret in H. simpl in H.
  destruct (flagged || found) eqn:Hfailed; [inversion H; subst; eauto|].
  apply orb_false_iff in Hfailed as [-> ->].
  unfold recompute_and_flag, bind at 1, lift in Hflag.
  destruct (len_set (aggregated_public_nonces ex)) as [n|e] eqn:Hlen;
    [|discriminate].
  destruct (Nat.eqb n 1) eqn:Hn; simpl in Hflag.
  - apply Nat.eqb_eq in Hn. subst n. inversion Hflag; subst.
    apply aggregate_and_verify_starts in H
      as [[Hnil _]|[first [rest [more [Hl [Ht' HFm]]]]]].
    + rewrite Hnil in Hlen. discriminate.
    + exists (EvCodeToPub first :: more). split; [exact Ht'|]. right.
      exists ex, first, rest, more. repeat split; auto.
      apply any_malicious_none in Hscan. unfold dict_values in Hscan.
      now apply Forall_map in Hscan.
  - apply Nat.eqb_neq in Hn.
    unfold bind at 1, call in Hflag.
    destruct (aggregate_nonce Point crypto _ _ _) as [R|e]; [|discriminate].
    unfold bind at 1 in Hflag.
    destruct (pub_to_code Point crypto R) as [code|e]; [|discriminate].
    unfold lift in Hflag. inversion Hflag as [[Hfl Hw]].
    pose proof (recomputed_unflagged_no_nonce _ _ _ _ _ Hex Hlen Hn Hfl)
      as Hnil.
    apply aggregate_and_verify_starts in H
      as [[_ [_ ->]]|[first [rest [more [Hl _]]]]]; [eauto|congruence].
Qed.

(** *** Sentinel and malformed responses *)

Lemma extract_step_shareless (acc : extraction) (data : pyval) :
  shareless data = true -> extract_step acc data = Returned acc.
Proof.
  unfold shareless, extract_step.
  destruct data as [| | | | | |d]; try discriminate. simpl.
  destruct (dict_get "hash" d); [discriminate|].
  destruct (dict_get "signature_data" d); [discriminate|].
  intros _. simpl. now destruct acc.
Qed.

Lemma extract_from_live (values : list pyval) (acc : extraction) :
  extract_from acc values =
  extract_from acc (filter (fun data => negb (shareless data)) values).
Proof.
  revert acc. induction values as [|data l IH]; intros acc; simpl;
    [reflexivity|].
  destruct (shareless data) eqn:Hs; simpl.
  - rewrite (extract_step_shareless _ _ Hs). simpl. apply IH.
  - destruct (extract_step acc data); simpl; [apply IH | reflexivity].
Qed.

Lemma any_malicious_live (values : list pyval) :
  any_malicious values =
  any_malicious (filter (fun data => negb (shareless data)) values).
Proof.
  induction values as [|data l IH]; simpl; [reflexivity|].
  destruct (shareless data) eqn:Hs; simpl.
  - unfold shareless in Hs. destruct data as [| | | | | |d]; try discriminate.
    simpl. destruct (dict_get "hash" d); [discriminate|].
    destruct (dict_get "signature_data" d); [discriminate|].
    destruct (dict_get "status" d) as [s|]; [|discriminate].
    simpl. apply negb_true_iff in Hs. rewrite Hs. exact IH.
  - destruct (py_getitem data "status") as [s|e]; simpl; [|reflexivity].
    destruct (py_eq s (PStr "MALICIOUS")); [reflexivity | exact IH].
Qed.

Lemma filter_values (f : pyval -> bool) (signatures : list (string * pyval)) :
  dict_values (filter (fun kv => f (snd kv)) signatures) =
  filter f (dict_values signatures).
Proof.
  unfold dict_values. induction signatures as [|[k d] l IH]; simpl;
    [reflexivity|].
  destruct (f d); simpl; now rewrite IH.
Qed.

(** X11.  The two sentinels of [post_request] have neither hash nor
    signature data, and records of that shape are skipped when the
    nonces agree: the outcome is decided by the other records alone.  If
    one of those is ['MALICIOUS'] the result is ['FAILED'] with the whole
    mapping, sentinels included; otherwise the ceremony goes on to
    aggregate what the other records hold. *)
Theorem sentinels_are_skipped_on_agreement :
  shareless timeout_sentinel = true
  /\ (forall e, shareless (error_sentinel e) = true)
  /\ forall dkg_key nonces_list sa_data sign_party w request_id signatures
            w1 ex,
       incl sign_party (party dkg_key) ->
       collect_signatures dkg_key nonces_list sa_data sign_party w =
         (Returned (request_id, signatures), w1) ->
       extract (filter (fun kv => negb (shareless (snd kv))) signatures)
         = Returned ex ->
       len_set (aggregated_public_nonces ex) = Returned 1 ->
       request_signature dkg_key nonces_list sa_data sign_party w =
         match any_malicious
                 (dict_values
                    (filter (fun kv => negb (shareless (snd kv))) signatures))
         with
         | Raised e => (Raised e, w1)
         | Returned true =>
             (Returned (PDict [("result", PStr "FAILED");
                               ("signatures", PDict signatures)]), w1)
         | Returned false => aggregate_and_verify dkg_key request_id ex w1
         end.
Proof.
  split; [reflexivity|]. split; [intros e; reflexivity|].
  intros dkg_key nonces_list sa_data sign_party w request_id signatures w1 ex
         Hsub Hc Hex Hlen.
  rewrite (request_signature_collected _ _ _ _ _ _ _ _ Hsub Hc).
  assert (Hex' : extract signatures = Returned ex).
  { unfold extract in *. rewrite extract_from_live.
    now rewrite <- (filter_values (fun d => negb (shareless d))). }
  unfold settle, bind at 1, lift. rewrite Hex'.
  unfold bind at 1, consistency_check, bind at 1, recompute_and_flag,
    bind at 1, lift. rewrite Hlen. simpl.
  unfold bind at 1. simpl fst.
  rewrite (filter_values (fun d => negb (shareless d))).
  rewrite <- any_malicious_live.
  destruct (any_malicious (dict_values signatures)) as [[|]|e]; reflexivity.
Qed.

(** What a returned extraction tells about the records. *)
Lemma extract_step_returned (acc acc' : extraction) (data : pyval) :
  extract_step acc data = Returned acc' ->
  exists d, data = PDict d
            /\ (dict_get "signature_data" d = None
                \/ exists sd, dict_get "signature_data" d = Some (PDict sd)).
Proof.
  unfold extract_step. destruct data as [| | | | | |d]; simpl; try discriminate.
  intros H. exists d. split; [reflexivity|].
  destruct (dict_get "signature_data" d) as [sd|]; [|auto].
  right. destruct sd; simpl in H; try discriminate. eauto.
Qed.

Lemma extract_from_returned (values : list pyval) (acc ex : extraction) :
  extract_from acc values = Returned ex ->
  Forall (fun data =>
            exists d, data = PDict d
                      /\ (dict_get "signature_data" d = None
                          \/ exists sd,
                               dict_get "signature_data" d = Some (PDict sd)))
         values.
Proof.
  revert acc. induction values as [|data l IH]; intros acc H; simpl in H;
    [constructor|].
  destruct (extract_step acc data) as [acc'|e] eqn:Hs; simpl in H;
    [|discriminate].
  constructor; [eapply extract_step_returned; eauto | eapply IH; eauto].
Qed.

(** The flagging loop stops with a [KeyError] at a record that reports no
    nonce. *)
Lemma flag_disagreeing_missing (code : pyval)
      (signatures : list (string * pyval)) :
  Forall (fun kv =>
            exists d, snd kv = PDict d
                      /\ (dict_get "signature_data" d = None
                          \/ exists sd,
                               dict_get "signature_data" d = Some (PDict sd)))
         signatures ->
  Exists (fun kv => reported_nonce (snd kv) = None) signatures ->
  exists key,
    (key = "signature_data" \/ key = "aggregated_public_nonce")
    /\ flag_disagreeing code signatures = Raised (KeyError key).
Proof.
  intros Hall Hex.
  induction Hall as [|[k data] l [d [Hd Hsd]] _ IH]; [inversion Hex|].
  simpl in Hd. subst data. simpl.
  destruct Hsd as [Hnone|[sd Hsome]].
  - rewrite Hnone. simpl. eauto.
  - rewrite Hsome. simpl.
    destruct (dict_get "aggregated_public_nonce" sd) as [v|] eqn:Hv; simpl;
      [|eauto].
    assert (Hrest : Exists (fun kv => reported_nonce (snd kv) = None) l).
    { inversion Hex as [? ? Hh|? ? Ht]; subst; [|exact Ht].
      simpl in Hh. rewrite Hsome, Hv in Hh. discriminate. }
    destruct (IH Hrest) as [key [Hkey Hflag]]. exists key. split; [exact Hkey|].
    rewrite Hflag. destruct (negb (py_eq v code)); reflexivity.
Qed.

(** X12.  When the nonce is recomputed and some collected record reports
    no nonce (a sentinel, or a share without the field), the call never
    returns: if the crypto provider completes the recomputation, the
    flagging loop raises [KeyError] on ['signature_data'] or
    ['aggregated_public_nonce']. *)
Theorem recomputation_with_missing_nonce_raises :
  forall dkg_key nonces_list sa_data sign_party w request_id signatures w1
         ex n,
    incl sign_party (party dkg_key) ->
    collect_signatures dkg_key nonces_list sa_data sign_party w =
      (Returned (request_id, signatures), w1) ->
    extract signatures = Returned ex ->
    len_set (aggregated_public_nonces ex) = Returned n ->
    n <> 1 ->
    Exists (fun kv => reported_nonce (snd kv) = None) signatures ->
    (exists e w',
        request_signature dkg_key nonces_list sa_data sign_party w
          = (Raised e, w'))
    /\ forall R code,
         aggregate_nonce Point crypto (str_message ex) nonces_list
                         (public_key dkg_key) = Returned R ->
         pub_to_code Point crypto R = Returned code ->
         exists key,
           (key = "signature_data" \/ key = "aggregated_public_nonce")
           /\ request_signature dkg_key nonces_list sa_data sign_party w =
                (Raised (KeyError key),
                 log (EvPubToCode R)
                     (log (EvAggregateNonce (str_message ex) nonces_list
                                            (public_key dkg_key)) w1)).
Proof.
  intros dkg_key nonces_list sa_data sign_party w request_id signatures w1
         ex n Hsub Hc Hex Hlen Hn Hmiss.
  assert (Hshape := extract_from_returned _ _ _ Hex).
  unfold dict_values in Hshape. rewrite Forall_map in Hshape.
  apply Nat.eqb_neq in Hn.
  split.
  - rewrite (request_signature_collected _ _ _ _ _ _ _ _ Hsub Hc).
    unfold settle, bind at 1, lift. rewrite Hex.
    unfold bind at 1, consistency_check, bind at 1, recompute_and_flag,
      bind at 1, lift. rewrite Hlen, Hn. simpl.
    unfold bind at 1, call.
    destruct (aggregate_nonce Point crypto _ _ _) as [R|e]; [|eauto].
    unfold bind at 1.
    destruct (pub_to_code Point crypto R) as [code|e]; [|eauto].
    destruct (flag_disagreeing_missing code _ Hshape Hmiss) as [key [_ Hf]].
    rewrite Hf. eauto.
  - intros R code HR Hcode.
    destruct (flag_disagreeing_missing code _ Hshape Hmiss) as [key [Hk Hf]].
    exists key. split; [exact Hk|].
    rewrite (request_signature_collected _ _ _ _ _ _ _ _ Hsub Hc).
    unfold settle, bind at 1, lift. rewrite Hex.
    unfold bind at 1, consistency_check, bind at 1, recompute_and_flag,
      bind at 1, lift. rewrite Hlen, Hn. simpl.
    unfold bind at 1, call. rewrite HR. unfold bind at 1. rewrite Hcode.
    rewrite Hf. reflexivity.
Qed.

Lemma py_set_unhashable (l acc : list pyval) :
  Exists (fun v => hashable v = false) l ->
  exists x,
    In x l /\ hashable x = false
    /\ py_set l acc =
         Raised (TypeError ("unhashable type: '" ++ py_type_name x ++ "'")).
Proof.
  intros H. revert acc. induction l as [|v l IH]; intros acc; [inversion H|].
  simpl. destruct (hashable v) eqn:Hv.
  - inversion H as [? ? Hh|? ? Ht]; subst; [congruence|].
    destruct (IH Ht (if existsb (py_eq v) acc then acc else acc ++ [v]))
      as [x [Hin [Hx Hset]]].
    exists x. rewrite Hset. auto.
  - exists v. auto.
Qed.

Lemma extract_step_raised (acc : extraction) (data : pyval) (e : exn) :
  extract_step acc data = Raised e -> exn_name e = "AttributeError".
Proof.
  unfold extract_step.
  destruct data as [| | | | | |d]; simpl;
    try (intros H; inversion H; reflexivity).
  destruct (dict_get "signature_data" d) as [sd|]; simpl.
  - destruct sd; simpl; try (intros H; inversion H; reflexivity);
      intros H; discriminate.
  - intros H. discriminate.
Qed.

Lemma extract_from_non_dict (values : list pyval) (acc : extraction) :
  Exists (fun data => is_dict data = false) values ->
  exists e, extract_from acc values = Raised e
            /\ exn_name e = "AttributeError".
Proof.
  intros H. revert acc. induction values as [|data l IH]; intros acc;
    [inversion H|].
  simpl. destruct (extract_step acc data) as [acc'|e] eqn:Hs; simpl.
  - apply IH. inversion H as [? ? Hd|? ? Ht]; subst; [|exact Ht].
    apply extract_step_returned in Hs as [d [-> _]]. discriminate.
  - exists e. split; [reflexivity|]. eapply extract_step_raised; eauto.
Qed.

Lemma extract_from_raised (values : list pyval) (acc : extraction) (e : exn) :
  extract_from acc values = Raised e -> exn_name e = "AttributeError".
Proof.
  revert acc. induction values as [|data l IH]; intros acc H; simpl in H;
    [discriminate|].
  destruct (extract_step acc data) as [acc'|e'] eqn:Hs; simpl in H.
  - eapply IH; eauto.
  - inversion H; subst. eapply extract_step_raised; eauto.
Qed.

(** X13.  When a signer reports a non-empty list or object as its nonce,
    the call ends in an exception before any crypto call.  If the
    extraction loop completes, the exception is
    [TypeError: unhashable type] from building the set of nonces at line
    99; otherwise it is the [AttributeError] that the extraction loop
    raised on a response it could not read. *)
Theorem unhashable_nonce_raises :
  forall dkg_key nonces_list sa_data sign_party w request_id signatures w1
         k data v,
    incl sign_party (party dkg_key) ->
    collect_signatures dkg_key nonces_list sa_data sign_party w =
      (Returned (request_id, signatures), w1) ->
    In (k, data) signatures ->
    reported_nonce data = Some v ->
    truthy v = true ->
    hashable v = false ->
    exists e,
      request_signature dkg_key nonces_list sa_data sign_party w
        = (Raised e, w1)
      /\ match extract signatures with
         | Returned _ =>
             exists type_name,
               (type_name = "list" \/ type_name = "dict")
               /\ e = TypeError ("unhashable type: '" ++ type_name ++ "'")
         | Raised e' => e = e' /\ exn_name e = "AttributeError"
         end.
Proof.
  intros dkg_key nonces_list sa_data sign_party w request_id signatures w1
         k data v Hsub Hc Hin Hv Ht Hh.
  rewrite (request_signature_collected _ _ _ _ _ _ _ _ Hsub Hc).
  destruct (extract signatures) as [ex|e'] eqn:Hex.
  - assert (Hbad : Exists (fun x => hashable x = false)
                          (aggregated_public_nonces ex)).
    { apply Exists_exists. exists v. split; [|exact Hh].
      rewrite (extract_nonces _ _ Hex). apply filter_In. split; [|exact Ht].
      apply in_map_iff. exists data. split.
      - unfold collected_nonce. now rewrite Hv.
      - unfold dict_values. apply in_map_iff. exists (k, data). auto. }
    destruct (py_set_unhashable _ [] Hbad) as [x [_ [Hx Hset]]].
    exists (TypeError ("unhashable type: '" ++ py_type_name x ++ "'")). split.
    + unfold settle, bind at 1, lift. rewrite Hex.
      unfold bind at 1, consistency_check, bind at 1, recompute_and_flag,
        bind at 1, lift, len_set. rewrite Hset. reflexivity.
    + exists (py_type_name x). split; [|reflexivity].
      destruct x; try discriminate; simpl; auto.
  - exists e'. split.
    + unfold settle, bind at 1, lift. rewrite Hex. reflexivity.
    + split; [reflexivity|]. unfold extract in Hex.
      eapply extract_from_raised; eauto.
Qed.

(** X14.  When some signer's decoded response is not an object (a JSON
    array, string, number or null), the extraction loop raises
    [AttributeError] and the call ends there, before any crypto call. *)
Theorem non_object_response_raises :
  forall dkg_key nonces_list sa_data sign_party w request_id signatures w1
         k data,
    incl sign_party (party dkg_key) ->
    collect_signatures dkg_key nonces_list sa_data sign_party w =
      (Returned (request_id, signatures), w1) ->
    In (k, data) signatures ->
    is_dict data = false ->
    exists e,
      exn_name e = "AttributeError"
      /\ request_signature dkg_key nonces_list sa_data sign_party w =
           (Raised e, w1).
Proof.
  intros dkg_key nonces_list sa_data sign_party w request_id signatures w1
         k data Hsub Hc Hin Hd.
  assert (Hbad : Exists (fun x => is_dict x = false) (dict_values signatures)).
  { apply Exists_exists. exists data. split; [|exact Hd].
    unfold dict_values. apply in_map_iff. exists (k, data). auto. }
  destruct (extract_from_non_dict _ extraction_init Hbad) as [e [He Hname]].
  exists e. split; [exact Hname|].
  rewrite (request_signature_collected _ _ _ _ _ _ _ _ Hsub Hc).
  unfold settle, bind at 1, lift, extract. rewrite He. reflexivity.
Qed.

(** The shares the extraction collects are the non-empty
    [signature_data] entries of the records, in the order of the
    records. *)
Lemma extract_step_signs (acc acc' : extraction) (data : pyval) :
  extract_step acc data = Returned acc' ->
  signs acc' = signs acc ++ filter truthy [signature_data_of data].
Proof.
  unfold extract_step, signature_data_of.
  destruct data as [| | | | | |d]; simpl; try discriminate.
  destruct (dict_get "signature_data" d) as [sd|]; simpl.
  - destruct sd as [| | | | | |sd]; simpl; try discriminate.
    intros H.
    destruct (truthy (match dict_get "hash" d with
                      | Some x => x
                      | None => PNone
                      end) && is_none (str_message acc));
      destruct (dict_get "aggregated_public_nonce" sd) as [v|]; simpl in *;
      try destruct (truthy v);
      destruct sd; inversion H; subst; simpl; auto using app_nil_r.
  - intros H.
    destruct (truthy (match dict_get "hash" d with
                      | Some x => x
                      | None => PNone
                      end) && is_none (str_message acc));
      inversion H; subst; simpl; auto using app_nil_r.
Qed.

Lemma extract_from_signs (values : list pyval) (acc ex : extraction) :
  extract_from acc values = Returned ex ->
  signs ex = signs acc ++ filter truthy (map signature_data_of values).
Proof.
  revert acc. induction values as [|data rest IH]; intros acc H; simpl in H.
  - inversion H. simpl. now rewrite app_nil_r.
  - destruct (extract_step acc data) as [acc'|e] eqn:Hs; simpl in H;
      [|discriminate].
    apply IH in H. apply extract_step_signs in Hs.
    rewrite H, Hs, <- app_assoc. simpl.
    destruct (truthy (signature_data_of data)); reflexivity.
Qed.

(** X15.  What the crypto provider is given.  Every non-empty
    [signature_data] of the collected records, in the order of the
    records, is passed to [aggregate_signatures] (nothing is left out for
    a status or a differing hash); [code_to_pub] gets the first non-empty
    nonce the records report; and the key and commitments passed along
    are the caller's. *)
Theorem crypto_inputs :
  forall dkg_key nonces_list sa_data sign_party w request_id signatures w1
         result w',
    incl sign_party (party dkg_key) ->
    collect_signatures dkg_key nonces_list sa_data sign_party w =
      (Returned (request_id, signatures), w1) ->
    request_signature dkg_key nonces_list sa_data sign_party w
      = (result, w') ->
    exists evs,
      trace w' = trace w1 ++ evs
      /\ Forall
           (fun ev =>
              match ev with
              | EvAggregateSignatures _ shares _ key =>
                  shares = filter truthy
                             (map signature_data_of (dict_values signatures))
                  /\ key = public_key dkg_key
              | EvCodeToPub code =>
                  hd_error (filter truthy
                              (map collected_nonce (dict_values signatures)))
                  = Some code
              | EvAggregateNonce _ commitments key =>
                  commitments = nonces_list /\ key = public_key dkg_key
              | _ => True
              end) evs.
Proof.
  intros dkg_key nonces_list sa_data sign_party w request_id signatures w1
         result w' Hsub Hc H.
  rewrite (request_signature_collected _ _ _ _ _ _ _ _ Hsub Hc) in H.
  unfold settle, bind at 1, lift in H.
  destruct (extract signatures) as [ex|e] eqn:Hex;
    [|inversion H; exists []; rewrite app_nil_r; auto].
  pose proof (extract_nonces _ _ Hex) as Hnonces.
  pose proof (extract_from_signs _ _ _ Hex) as Hsigns. simpl in Hsigns.
  unfold bind at 1, consistency_check, bind at 1 in H.
  assert (Hrec : forall o w2,
             recompute_and_flag dkg_key nonces_list ex signatures w1 = (o, w2) ->
             exists evs,
               trace w2 = trace w1 ++ evs
               /\ Forall (fun ev : event Point =>
                            match ev with
                            | EvAggregateSignatures _ shares _ key =>
                                shares = filter truthy
                                           (map signature_data_of
                                                (dict_values signatures))
                                /\ key = public_key dkg_key
                            | EvCodeToPub code =>
                                hd_error (filter truthy
                                            (map collected_nonce
                                                 (dict_values signatures)))
                                = Some code
                            | EvAggregateNonce _ commitments key =>
                                commitments = nonces_list
                                /\ key = public_key dkg_key
                            | _ => True
                            end) evs).
  { intros o w2 Hr. unfold recompute_and_flag, bind, lift, call, ret in Hr.
    destruct (len_set (aggregated_public_nonces ex)) as [n|e];
      [|inversion Hr; exists []; rewrite app_nil_r; auto].
    destruct (negb (Nat.eqb n 1));
      [|inversion Hr; exists []; rewrite app_nil_r; auto].
    destruct (aggregate_nonce Point crypto _ _ _) as [R|e].
    - destruct (pub_to_code Point crypto R) as [code|e]; inversion Hr;
        exists [EvAggregateNonce (str_message ex) nonces_list
                                 (public_key dkg_key); EvPubToCode R];
        simpl; rewrite <- app_assoc; auto.
    - inversion Hr.
      exists [EvAggregateNonce (str_message ex) nonces_list
                               (public_key dkg_key)]. simpl. auto. }
  destruct (recompute_and_flag dkg_key nonces_list ex signatures w1)
    as [[[signatures' flagged]|e] w2] eqn:Hflag;
    destruct (Hrec _ _ eq_refl) as [evs1 [Ht1 HF1]];
    [|inversion H; subst; eauto].
  unfold bind at 1, lift in H. simpl fst in H.
  destruct (any_malicious (dict_values signatures')) as [found|e];
    [|inversion H; subst; eauto].
  unfold ret in H. simpl in H.
  destruct (flagged || found); [inversion H; subst; eauto|].
  unfold aggregate_and_verify, bind, lift, call in H.
  destruct (aggregated_public_nonces ex) as [|first rest] eqn:Hl;
    [inversion H; subst; eauto|].
  assert (Hfirst : hd_error (filter truthy
                               (map collected_nonce (dict_values signatures)))
                   = Some first) by (now rewrite <- Hnonces).
  destruct (code_to_pub Point crypto first) as [R|e].
  2:{ inversion H. exists (evs1 ++ [EvCodeToPub first]). simpl.
      rewrite Ht1, <- app_assoc. split; [reflexivity|].
      apply Forall_app. auto. }
  destruct (aggregate_signatures Point crypto _ _ R _) as [agg|e].
  2:{ inversion H.
      exists (evs1 ++ [EvCodeToPub first;
                       EvAggregateSignatures (str_message ex) (signs ex) R
                                             (public_key dkg_key)]).
      simpl. rewrite Ht1, <- !app_assoc. split; [reflexivity|].
      apply Forall_app. split; [exact HF1|]. repeat constructor; auto. }
  assert (Hw : w' = log (EvVerify agg)
                      (log (EvAggregateSignatures (str_message ex) (signs ex) R
                                                  (public_key dkg_key))
                           (log (EvCodeToPub first) w2))).
  { destruct (verify_group_signature Point crypto agg) as [verdict|e];
      [destruct (truthy verdict)|]; inversion H; reflexivity. }
  exists (evs1 ++ [EvCodeToPub first;
                   EvAggregateSignatures (str_message ex) (signs ex) R
                                         (public_key dkg_key);
                   EvVerify agg]).
  rewrite Hw. simpl. rewrite Ht1, <- !app_assoc. split; [reflexivity|].
  apply Forall_app. split; [exact HF1|]. repeat constructor; auto.
Qed.

(** *** The evidence in a FAILED result *)

Lemma flag_disagreeing_frame (code : pyval)
      (signatures signatures' : list (string * pyval)) (flagged : bool) :
  flag_disagreeing code signatures = Returned (signatures', flagged) ->
  Forall2 (fun kv kv' => fst kv' = fst kv
                         /\ (snd kv' = snd kv \/ snd kv' = marked (snd kv)))
          signatures signatures'
  /\ (flagged = true ->
      Exists (fun kv => is_malicious (snd kv) = true) signatures').
Proof.
  revert signatures' flagged.
  induction signatures as [|[k data] l IH]; intros signatures' flagged H;
    simpl in H.
  - inversion H. split; [constructor | discriminate].
  - destruct (py_getitem data "signature_data") as [sd|e]; simpl in H;
      [|discriminate].
    destruct (py_getitem sd "aggregated_public_nonce") as [v|e]; simpl in H;
      [|discriminate].
    destruct (negb (py_eq v code)).
    + destruct data as [| | | | | |d]; simpl in H; try discriminate.
      destruct (flag_disagreeing code l) as [[l' b]|e]; simpl in H;
        [|discriminate].
      inversion H; subst. destruct (IH l' b eq_refl) as [Hf _]. split.
      * constructor; simpl; auto.
      * intros _. apply Exists_cons_hd. simpl.
        unfold is_malicious, status_of. now rewrite dict_get_set_same.
    + destruct (flag_disagreeing code l) as [[l' b]|e]; simpl in H;
        [|discriminate].
      inversion H; subst. destruct (IH l' flagged eq_refl) as [Hf Hb]. split.
      * constructor; simpl; auto.
      * intros Ht. apply Exists_cons_tl. auto.
Qed.

Lemma any_malicious_some (values : list pyval) :
  any_malicious values = Returned true ->
  Exists (fun data => is_malicious data = true) values.
Proof.
  induction values as [|data l IH]; intros H; simpl in H; [discriminate|].
  destruct (py_getitem data "status") as [s|e] eqn:Hs; simpl in H;
    [|discriminate].
  destruct (py_eq s (PStr "MALICIOUS")) eqn:Hm.
  - apply Exists_cons_hd. unfold is_malicious, status_of.
    destruct data as [| | | | | |d]; simpl in Hs; try discriminate.
    destruct (dict_get "status" d); [|discriminate]. congruence.
  - apply Exists_cons_tl. auto.
Qed.

(** X10.  When the consistency check ends in FAILED, the result carries a
    mapping with the signers of the collected one, in the same order, in
    which each record is the received one or the received one with its
    status set to ['MALICIOUS'], and in which at least one record is
    ['MALICIOUS']. *)
Theorem failed_check_returns_the_evidence :
  forall dkg_key nonces_list sa_data sign_party w request_id signatures w1
         ex signatures' w2,
    incl sign_party (party dkg_key) ->
    collect_signatures dkg_key nonces_list sa_data sign_party w =
      (Returned (request_id, signatures), w1) ->
    extract signatures = Returned ex ->
    consistency_check dkg_key nonces_list ex signatures w1 =
      (Returned (signatures', true), w2) ->
    request_signature dkg_key nonces_list sa_data sign_party w =
      (Returned (PDict [("result", PStr "FAILED");
                        ("signatures", PDict signatures')]), w2)
    /\ dict_keys signatures' = first_occurrences sign_party
    /\ Forall2 (fun kv kv' => fst kv' = fst kv
                              /\ (snd kv' = snd kv
                                  \/ snd kv' = marked (snd kv)))
               signatures signatures'
    /\ Exists (fun kv => is_malicious (snd kv) = true) signatures'.
Proof.
  intros dkg_key nonces_list sa_data sign_party w request_id signatures w1
         ex signatures' w2 Hsub Hc Hex Hcheck.
  split.
  { rewrite (request_signature_collected _ _ _ _ _ _ _ _ Hsub Hc).
    unfold settle, bind at 1, lift. rewrite Hex.
    unfold bind at 1. rewrite Hcheck. reflexivity. }
  assert (Hframe :
    Forall2 (fun kv kv' => fst kv' = fst kv
                           /\ (snd kv' = snd kv \/ snd kv' = marked (snd kv)))
            signatures signatures'
    /\ Exists (fun kv => is_malicious (snd kv) = true) signatures').
  { unfold consistency_check, bind at 1 in Hcheck.
    destruct (recompute_and_flag dkg_key nonces_list ex signatures w1)
      as [[[flagged_sigs flagged]|e] w3] eqn:Hflag; [|discriminate].
    unfold bind at 1, lift in Hcheck. simpl fst in Hcheck.
    destruct (any_malicious (dict_values flagged_sigs)) as [found|e] eqn:Hscan;
      [|discriminate].
    unfold ret in Hcheck. simpl in Hcheck.
    inversion Hcheck as [[Hs Hfailed Hw]]. subst flagged_sigs.
    assert (Hkept :
      Forall2 (fun kv kv' => fst kv' = fst kv
                             /\ (snd kv' = snd kv
                                 \/ snd kv' = marked (snd kv)))
              signatures signatures'
      /\ (flagged = true ->
          Exists (fun kv => is_malicious (snd kv) = true) signatures')).
    { unfold recompute_and_flag, bind, lift, call, ret in Hflag.
      destruct (len_set (aggregated_public_nonces ex)) as [n|e];
        [|discriminate].
      destruct (negb (Nat.eqb n 1)).
      - destruct (aggregate_nonce Point crypto _ _ _) as [R|e];
          [|discriminate].
        destruct (pub_to_code Point crypto R) as [code|e]; [|discriminate].
        inversion Hflag as [[Hfl Hw']].
        eapply flag_disagreeing_frame; eauto.
      - inversion Hflag; subst. split; [|discriminate].
        clear. induction signatures'; constructor; auto. }
    destruct Hkept as [Hf2 Hfl]. split; [exact Hf2|].
    destruct flagged; [now apply Hfl|]. simpl in Hfailed. subst found.
    apply any_malicious_some in Hscan. unfold dict_values in Hscan.
    now apply Exists_map in Hscan. }
  destruct Hframe as [Hf2 Hmal]. split; [|split; [exact Hf2 | exact Hmal]].
  rewrite <- (collect_signatures_keys _ _ _ _ _ _ _ _ Hc).
  unfold dict_keys. clear -Hf2.
  induction Hf2 as [|kv kv' l l' [Hk _] _ IH]; simpl; congruence.
Qed.

(** X16.  When no collected record has a non-empty hash, the digest stays
    [None] and the sample stays empty: every crypto call of the ceremony
    that takes a digest, recomputation and aggregation alike, is made on
    [None]; the code does not stop on the missing digest. *)
Theorem missing_hash_leaves_no_digest :
  forall dkg_key nonces_list sa_data sign_party w request_id signatures w1 ex,
    incl sign_party (party dkg_key) ->
    collect_signatures dkg_key nonces_list sa_data sign_party w =
      (Returned (request_id, signatures), w1) ->
    extract signatures = Returned ex ->
    Forall (fun kv => no_hash (snd kv) = true) signatures ->
    str_message ex = PNone
    /\ sample_result ex = []
    /\ forall result w',
         request_signature dkg_key nonces_list sa_data sign_party w
           = (result, w') ->
         exists evs,
           trace w' = trace w1 ++ evs
           /\ Forall (fun ev => forall m, event_digest ev = Some m -> m = PNone)
                     evs.
Proof.
  intros dkg_key nonces_list sa_data sign_party w request_id signatures w1 ex
         Hsub Hc Hex Hnone.
  assert (Hkeep : str_message ex = PNone /\ sample_result ex = []).
  { unfold extract in Hex.
    apply extract_from_keeps_no_hash in Hex; [exact Hex|].
    unfold dict_values. apply Forall_map. exact Hnone. }
  destruct Hkeep as [Hm Hs]. split; [exact Hm|]. split; [exact Hs|].
  intros result w' Hrun.
  rewrite (request_signature_collected _ _ _ _ _ _ _ _ Hsub Hc) in Hrun.
  apply settle_trace in Hrun as [_ [evs [Ht HF]]].
  exists evs. split; [exact Ht|].
  eapply Forall_impl; [|exact HF].
  intros ev [_ Hev] m Hd. rewrite <- Hm. eapply Hev; eauto.
Qed.

End Coordinator.

(* ================================================================== *)
(** ** The properties on the demo deployment *)
(* ================================================================== *)

Lemma unary_length (n : nat) : String.length (Demo.unary n) = S n.
Proof. induction n; simpl; congruence. Qed.

Lemma unary_injective (m n : nat) : Demo.unary m = Demo.unary n -> m = n.
Proof.
  intros H. apply (f_equal String.length) in H.
  rewrite !unary_length in H. congruence.
Qed.

(** *** Transport *)

(** A body that fails to decode with [ValueError("bad")]: the sentinel
    that comes back. *)
Lemma post_request_after_response_witness :
  post_request Z Demo.garbled1 Demo.sign1 Demo.payload 200 Demo.start =
    (Returned
       (PDict [("status", PStr "ERROR");
               ("error", PStr "An exception occurred: ValueError: bad")]),
     log (EvPost Demo.sign1 Demo.payload 200) Demo.start).
Proof.
  apply (post_request_after_response Z Demo.garbled1 Demo.sign1 Demo.payload
           200 (Raised (Exn ExceptionClass "ValueError" "bad")) Demo.start).
  - reflexivity.
  - intros e He. inversion He. simpl. discriminate.
Defined.

(** C1, as stated, fails: for a failure of kind [ValueError] with message
    ["bad"] the error text is not ["ValueError: bad"]; it has the prefix
    ["An exception occurred: "]. *)
Lemma post_request_error_text_has_prefix :
  fst (post_request Z Demo.garbled1 Demo.sign1 Demo.payload 200 Demo.start)
    = Returned (PDict [("status", PStr "ERROR");
                       ("error", PStr "An exception occurred: ValueError: bad")])
  /\ fst (post_request Z Demo.garbled1 Demo.sign1 Demo.payload 200 Demo.start)
     <> Returned (PDict [("status", PStr "ERROR");
                         ("error", PStr "ValueError: bad")]).
Proof.
  split; [reflexivity|]. simpl. intros H. inversion H.
Qed.

(** The [try] of [post_request] does not cover [session.post]: a refused
    connection reaches the caller as an exception. *)
Example post_request_refused_connection :
  fst (post_request Z (Demo.network []) Demo.sign1 Demo.payload 200 Demo.start)
    = Raised (Exn ExceptionClass "ClientConnectorError" "Cannot connect to host").
Proof. reflexivity. Qed.

(** *** Guard *)

Lemma request_signature_unauthorized_witness :
  request_signature Z Demo.honest Demo.provider Demo.unary Demo.sa Demo.key
                    Demo.commitments Demo.payload ["1"; "9"] Demo.start =
    (Returned (PDict [("result", PStr "FAILED"); ("signatures", PNone)]),
     Demo.start).
Proof.
  apply (request_signature_unauthorized Z Demo.honest Demo.provider Demo.unary
           Demo.sa Demo.key Demo.commitments Demo.payload ["1"; "9"] Demo.start).
  intros Hincl. specialize (Hincl "9" (or_intror (or_introl eq_refl))).
  simpl in Hincl. intuition discriminate.
Defined.

(** *** Nonce ceremony *)

(** Nodes 1 and 2 answer, node 3 times out while its body is read: three
    calls, three entries in the party's order, the sentinel in slot 3. *)
Lemma request_nonces_one_entry_per_member_witness :
  fst (request_nonces Z Demo.nonces Demo.sa ["1"; "2"; "3"] 10 Demo.start) =
    Returned [("1", PList [PInt 1]);
              ("2", PList [PInt 2]);
              ("3", PDict [("status", PStr "TIMEOUT");
                           ("error", PStr "Communication timed out")])]
  /\ length (trace (snd (request_nonces Z Demo.nonces Demo.sa ["1"; "2"; "3"]
                                        10 Demo.start))) = 6.
Proof.
  destruct (request_nonces_one_entry_per_member Z Demo.nonces Demo.sa
              ["1"; "2"; "3"] 10
              [NodeInfo "10.0.0.1" 5001; NodeInfo "10.0.0.2" 5002;
               NodeInfo "10.0.0.3" 5003]
              [PList [PInt 1]; PList [PInt 2]; timeout_sentinel]
              Demo.start)
    as [m [Hrun [_ [_ [_ [_ [_ Hzip]]]]]]].
  - repeat constructor.
  - repeat constructor.
  - rewrite Hrun. simpl fst. simpl snd. rewrite Hzip.
    + split; reflexivity.
    + repeat constructor; simpl; intuition discriminate.
Defined.

(** *** Signing ceremony *)

(** C2 fails on the code.  Signer 3 is the whole signing party and its
    body does not arrive in time, so its response is the TIMEOUT sentinel.
    No nonce was collected, the coordinator goes on to recompute, and the
    flagging loop reads [data['signature_data']] of the sentinel: whatever
    the crypto provider and the uuid source do, the call ends in an
    exception, not in a result value. *)
Theorem request_signature_timed_out_peer_raises :
  forall (Point : Type) (crypto : CryptoProvider Point) (uuid4 : nat -> string)
         (nonces_list sa_data : pyval) (w : world Point),
  exists e w',
    request_signature Point Demo.slow3 crypto uuid4 Demo.sa Demo.key
                      nonces_list sa_data ["3"] w = (Raised e, w').
Proof.
  intros Point crypto uuid4 nonces_list sa_data w.
  assert (Hsub : incl ["3"] (party Demo.key))
    by (apply issubset_incl; reflexivity).
  assert (Hc : collect_signatures Point Demo.slow3 uuid4 Demo.sa Demo.key
                 nonces_list sa_data ["3"] w =
               (Returned (uuid4 (uuid_draws w), [("3", timeout_sentinel)]),
                World (trace w
                         ++ [EvLookup "3";
                             EvPost Demo.sign3
                                    (sign_request (uuid4 (uuid_draws w)) Demo.key
                                                  nonces_list sa_data) 200])
                      (S (uuid_draws w)))).
  { unfold collect_signatures, bind at 1, fresh_uuid.
    unfold bind at 1.
    rewrite (fan_out_ok Point Demo.slow3 Demo.sa "/v1/sign" _ ["3"]
               [NodeInfo "10.0.0.3" 5003] [timeout_sentinel]);
      [reflexivity | repeat constructor | repeat constructor]. }
  rewrite (request_signature_collected Point Demo.slow3 crypto uuid4 Demo.sa
             Demo.key nonces_list sa_data ["3"] w _ _ _ Hsub Hc).
  assert (Hex : extract [("3", timeout_sentinel)] = Returned extraction_init)
    by reflexivity.
  unfold settle, bind at 1, lift. rewrite Hex.
  unfold bind at 1, consistency_check, bind at 1, recompute_and_flag,
    bind at 1, lift.
  change (len_set (aggregated_public_nonces extraction_init))
    with (@Returned nat 0).
  cbv iota. change (negb (0 =? 1)%nat) with true. cbv iota.
  unfold bind at 1, call.
  destruct (aggregate_nonce Point crypto _ _ _) as [R|e]; [|eauto].
  unfold bind at 1.
  destruct (pub_to_code Point crypto R) as [code|e]; [|eauto].
  unfold bind at 1. simpl. eauto.
Qed.

(** With the demo provider the exception is the [KeyError] of line 105. *)
Example request_signature_timed_out_peer_key_error :
  fst (request_signature Z Demo.slow3 Demo.provider Demo.unary Demo.sa Demo.key
                         Demo.commitments Demo.payload ["3"] Demo.start)
    = Raised (KeyError "signature_data").
Proof. reflexivity. Qed.

(** Signer 2 reports nonce 5 where the recomputed one is 7: it alone is
    flagged and the ceremony fails. *)
Lemma forged_nonce_flags_the_forger_alone_witness :
  request_signature Z Demo.forging Demo.provider Demo.unary Demo.sa Demo.key
                    Demo.commitments Demo.payload ["1"; "2"; "3"] Demo.start =
    (Returned
       (PDict [("result", PStr "FAILED");
               ("signatures",
                PDict [("1", PDict (Demo.fields "aa" (PInt 7) "SUCCESSFUL"));
                       ("2", PDict (Demo.fields "aa" (PInt 5) "MALICIOUS"));
                       ("3", PDict (Demo.fields "aa" (PInt 7) "SUCCESSFUL"))])]),
     log (EvPubToCode 7%Z)
         (log (EvAggregateNonce (PStr "aa") Demo.commitments (PInt 99))
              (Demo.asked Demo.forging))).
Proof.
  apply (forged_nonce_flags_the_forger_alone
            Z Demo.forging Demo.provider Demo.unary Demo.sa Demo.key
            Demo.commitments Demo.payload ["1"; "2"; "3"] Demo.start
            "u" (Demo.asked Demo.forging)
            (Extraction [PDict (Demo.fields "aa" (PInt 7) "SUCCESSFUL")]
                        [Demo.signature_data (PInt 7);
                         Demo.signature_data (PInt 5);
                         Demo.signature_data (PInt 7)]
                        [PInt 7; PInt 5; PInt 7] (PStr "aa"))
            2 7%Z (PInt 7)
            [("1", PDict (Demo.fields "aa" (PInt 7) "SUCCESSFUL"))]
            "2" (Demo.fields "aa" (PInt 5) "SUCCESSFUL") (PInt 5)
            [("3", PDict (Demo.fields "aa" (PInt 7) "SUCCESSFUL"))]).
  - apply issubset_incl. reflexivity.
  - reflexivity.
  - reflexivity.
  - reflexivity.
  - lia.
  - reflexivity.
  - reflexivity.
  - reflexivity.
  - reflexivity.
  - repeat constructor; exists (PInt 7); split; reflexivity.
  - repeat constructor. simpl. discriminate.
Defined.

(** C5, as stated, fails.  Signers 1 and 3 report the recomputed nonce 7
    and signer 2 alone reports another value, the empty nonce 0.  The
    empty value is not collected, the collected values are the single
    value 7, nothing is recomputed, nobody is flagged, and the ceremony
    ends SUCCESSFUL. *)
Lemma forged_empty_nonce_is_not_flagged :
  fst (collect_signatures Z Demo.forging_empty Demo.unary Demo.sa Demo.key
                          Demo.commitments Demo.payload ["1"; "2"; "3"]
                          Demo.start)
    = Returned ("u", [("1", PDict (Demo.fields "aa" (PInt 7) "SUCCESSFUL"));
                      ("2", PDict (Demo.fields "aa" (PInt 0) "SUCCESSFUL"));
                      ("3", PDict (Demo.fields "aa" (PInt 7) "SUCCESSFUL"))])
  /\ aggregate_nonce Z Demo.provider (PStr "aa") Demo.commitments (PInt 99)
     = Returned 7%Z
  /\ pub_to_code Z Demo.provider 7%Z = Returned (PInt 7)
  /\ py_eq (PInt 0) (PInt 7) = false
  /\ py_eq (PInt 7) (PInt 7) = true
  /\ fst (request_signature Z Demo.forging_empty Demo.provider Demo.unary
                            Demo.sa Demo.key Demo.commitments Demo.payload
                            ["1"; "2"; "3"] Demo.start)
     = Returned
         (PDict [("nonce", PInt 7);
                 ("signature", PInt 33);
                 ("message_hash", PStr "0aff");
                 ("result", PStr "SUCCESSFUL");
                 ("signature_data",
                  PList [PDict (Demo.fields "aa" (PInt 7) "SUCCESSFUL")]);
                 ("request_id", PStr "u")])
  /\ fst (request_signature Z Demo.forging_empty Demo.provider Demo.unary
                            Demo.sa Demo.key Demo.commitments Demo.payload
                            ["1"; "2"; "3"] Demo.start)
     <> Returned
          (PDict [("result", PStr "FAILED");
                  ("signatures",
                   PDict [("1", PDict (Demo.fields "aa" (PInt 7) "SUCCESSFUL"));
                          ("2", PDict (Demo.fields "aa" (PInt 0) "MALICIOUS"));
                          ("3", PDict (Demo.fields "aa" (PInt 7) "SUCCESSFUL"))])]).
Proof.
  repeat split; try reflexivity.
  vm_compute. intros H. inversion H.
Qed.

(** Signer 2 declares itself malicious: FAILED with the mapping as
    received, and the world is as it was when the responses came in. *)
Lemma malicious_peer_fails_the_ceremony_witness :
  request_signature Z Demo.confessing Demo.provider Demo.unary Demo.sa Demo.key
                    Demo.commitments Demo.payload ["1"; "2"; "3"] Demo.start =
    (Returned
       (PDict [("result", PStr "FAILED");
               ("signatures",
                PDict [("1", PDict (Demo.fields "aa" (PInt 7) "SUCCESSFUL"));
                       ("2", PDict (Demo.fields "aa" (PInt 7) "MALICIOUS"));
                       ("3", PDict (Demo.fields "aa" (PInt 7) "SUCCESSFUL"))])]),
     Demo.asked Demo.confessing).
Proof.
  apply (malicious_peer_fails_the_ceremony
            Z Demo.confessing Demo.provider Demo.unary Demo.sa Demo.key
            Demo.commitments Demo.payload ["1"; "2"; "3"] Demo.start
            "u"
            [("1", PDict (Demo.fields "aa" (PInt 7) "SUCCESSFUL"));
             ("2", PDict (Demo.fields "aa" (PInt 7) "MALICIOUS"));
             ("3", PDict (Demo.fields "aa" (PInt 7) "SUCCESSFUL"))]
            (Demo.asked Demo.confessing)
            (Extraction [PDict (Demo.fields "aa" (PInt 7) "SUCCESSFUL")]
                        [Demo.signature_data (PInt 7);
                         Demo.signature_data (PInt 7);
                         Demo.signature_data (PInt 7)]
                        [PInt 7; PInt 7; PInt 7] (PStr "aa"))
            false (Demo.asked Demo.confessing)
            [("1", PDict (Demo.fields "aa" (PInt 7) "SUCCESSFUL"))]
            "2" (PDict (Demo.fields "aa" (PInt 7) "MALICIOUS"))
            [("3", PDict (Demo.fields "aa" (PInt 7) "SUCCESSFUL"))]).
  - apply issubset_incl. reflexivity.
  - reflexivity.
  - reflexivity.
  - reflexivity.
  - reflexivity.
  - repeat constructor. simpl. discriminate.
Defined.

(** Three honest signers: the aggregate verifies and is shaped. *)
Lemma consistent_ceremony_result_witness :
  fst (request_signature Z Demo.honest Demo.provider Demo.unary Demo.sa Demo.key
                         Demo.commitments Demo.payload ["1"; "2"; "3"]
                         Demo.start)
    = Returned
        (PDict [("nonce", PInt 7);
                ("signature", PInt 33);
                ("message_hash", PStr "0aff");
                ("result", PStr "SUCCESSFUL");
                ("signature_data",
                 PList [PDict (Demo.fields "aa" (PInt 7) "SUCCESSFUL")]);
                ("request_id", PStr "u")]).
Proof.
  destruct (consistent_ceremony_result
              Z Demo.honest Demo.provider Demo.unary Demo.sa Demo.key
              Demo.commitments Demo.payload ["1"; "2"; "3"] Demo.start
              "u"
              [("1", PDict (Demo.fields "aa" (PInt 7) "SUCCESSFUL"));
               ("2", PDict (Demo.fields "bb" (PInt 7) "SUCCESSFUL"));
               ("3", PDict (Demo.fields "cc" (PInt 7) "SUCCESSFUL"))]
              (Demo.asked Demo.honest)
              (Extraction [PDict (Demo.fields "aa" (PInt 7) "SUCCESSFUL")]
                          [Demo.signature_data (PInt 7);
                           Demo.signature_data (PInt 7);
                           Demo.signature_data (PInt 7)]
                          [PInt 7; PInt 7; PInt 7] (PStr "aa"))
              [("1", PDict (Demo.fields "aa" (PInt 7) "SUCCESSFUL"));
               ("2", PDict (Demo.fields "bb" (PInt 7) "SUCCESSFUL"));
               ("3", PDict (Demo.fields "cc" (PInt 7) "SUCCESSFUL"))]
              (Demo.asked Demo.honest)
              (PInt 7) [PInt 7; PInt 7] 7%Z (Demo.aggregate 7) (PBool true))
    as [Hok _].
  - apply issubset_incl. reflexivity.
  - reflexivity.
  - reflexivity.
  - reflexivity.
  - reflexivity.
  - reflexivity.
  - reflexivity.
  - reflexivity.
  - destruct (Hok eq_refl [x0a; xff] eq_refl) as [d [Hrun [Hd _]]].
    rewrite Hrun, Hd. reflexivity.
Defined.

(** Signer 1 sends an empty hash: the digest is signer 2's hash, and that
    is what every crypto call of the ceremony gets. *)
Lemma first_hash_is_the_digest_witness :
  Forall (fun ev => forall m, event_digest ev = Some m -> m = PStr "bb")
         (trace (snd (request_signature Z Demo.hashless1 Demo.provider
                        Demo.unary Demo.sa Demo.key Demo.commitments
                        Demo.payload ["1"; "2"; "3"] Demo.start))).
Proof.
  destruct (first_hash_is_the_digest
              Z Demo.hashless1 Demo.provider Demo.unary Demo.sa Demo.key
              Demo.commitments Demo.payload ["1"; "2"; "3"] Demo.start
              "u" (Demo.asked Demo.hashless1)
              (Extraction [PDict (Demo.fields "bb" (PInt 7) "SUCCESSFUL")]
                          [Demo.signature_data (PInt 7);
                           Demo.signature_data (PInt 7);
                           Demo.signature_data (PInt 7)]
                          [PInt 7; PInt 7; PInt 7] (PStr "bb"))
              [("1", PDict (Demo.fields "" (PInt 7) "SUCCESSFUL"))]
              "2" (Demo.fields "bb" (PInt 7) "SUCCESSFUL") (PStr "bb")
              [("3", PDict (Demo.fields "cc" (PInt 7) "SUCCESSFUL"))])
    as [_ [_ [_ Htrace]]].
  - apply issubset_incl. reflexivity.
  - reflexivity.
  - reflexivity.
  - repeat constructor.
  - reflexivity.
  - reflexivity.
  - destruct (Htrace _ _ (surjective_pairing _)) as [evs [Ht HF]].
    rewrite Ht. exact HF.
Defined.

(** Two calls in a row over the honest network: ids ["u"] and ["iu"];
    the first call sends ["u"] to each of the three signers. *)
Lemma request_id_fresh_and_carried_witness :
  Demo.unary 0 <> Demo.unary 1
  /\ (exists rest,
        trace (snd (request_signature Z Demo.honest Demo.provider Demo.unary
                      Demo.sa Demo.key Demo.commitments Demo.payload
                      ["1"; "2"; "3"] Demo.start))
          = [EvLookup "1"; EvLookup "2"; EvLookup "3";
             EvPost Demo.sign1
                    (sign_request "u" Demo.key Demo.commitments Demo.payload)
                    200;
             EvPost Demo.sign2
                    (sign_request "u" Demo.key Demo.commitments Demo.payload)
                    200;
             EvPost Demo.sign3
                    (sign_request "u" Demo.key Demo.commitments Demo.payload)
                    200]
              ++ rest
        /\ Forall (fun ev : event Z => event_body ev = None) rest)
  /\ forall d,
       fst (request_signature Z Demo.honest Demo.provider Demo.unary Demo.sa
              Demo.key Demo.commitments Demo.payload ["1"; "2"; "3"]
              (snd (request_signature Z Demo.honest Demo.provider Demo.unary
                      Demo.sa Demo.key Demo.commitments Demo.payload
                      ["1"; "2"; "3"] Demo.start)))
         = Returned (PDict d) ->
       dict_get "result" d = Some (PStr "SUCCESSFUL") ->
       dict_get "request_id" d = Some (PStr "iu").
Proof.
  destruct (request_id_fresh_and_carried
              Z Demo.honest Demo.provider Demo.unary Demo.sa Demo.key
              Demo.commitments Demo.payload ["1"; "2"; "3"] Demo.start
              _ _ _ _ unary_injective
              (proj1 (issubset_incl ["1"; "2"; "3"] (party Demo.key)) eq_refl)
              (surjective_pairing _) (surjective_pairing _))
    as [Hne [_ [_ [_ [_ [Hsend [_ Hid2]]]]]]].
  split; [exact Hne|]. split; [|exact Hid2].
  destruct (Hsend [NodeInfo "10.0.0.1" 5001; NodeInfo "10.0.0.2" 5002;
                   NodeInfo "10.0.0.3" 5003])
    as [_ [Hfirst _]].
  - repeat constructor.
  - exact Hfirst.
Defined.

(** Three signers agree on nonce 5 although the correct one is 7: nothing
    is recomputed, nobody is flagged, and the ceremony fails only at
    verification. *)
Lemma agreed_nonce_is_not_recomputed_witness :
  fst (request_signature Z Demo.colluding Demo.provider Demo.unary Demo.sa
                         Demo.key Demo.commitments Demo.payload
                         ["1"; "2"; "3"] Demo.start)
    = Returned (PDict [("nonce", PInt 5);
                       ("signature", PInt 33);
                       ("message_hash", PBytes [x0a; xff]);
                       ("result", PStr "FAILED")])
  /\ Forall (fun ev => event_phase ev <> Recomputation)
            (trace (snd (request_signature Z Demo.colluding Demo.provider
                           Demo.unary Demo.sa Demo.key Demo.commitments
                           Demo.payload ["1"; "2"; "3"] Demo.start))).
Proof.
  destruct (agreed_nonce_is_not_recomputed
              Z Demo.colluding Demo.provider Demo.unary Demo.sa Demo.key
              Demo.commitments Demo.payload ["1"; "2"; "3"] Demo.start
              "u"
              [("1", PDict (Demo.fields "aa" (PInt 5) "SUCCESSFUL"));
               ("2", PDict (Demo.fields "aa" (PInt 5) "SUCCESSFUL"));
               ("3", PDict (Demo.fields "aa" (PInt 5) "SUCCESSFUL"))]
              (Demo.asked Demo.colluding)
              (Extraction [PDict (Demo.fields "aa" (PInt 5) "SUCCESSFUL")]
                          [Demo.signature_data (PInt 5);
                           Demo.signature_data (PInt 5);
                           Demo.signature_data (PInt 5)]
                          [PInt 5; PInt 5; PInt 5] (PStr "aa")))
    as [_ [Hrun Htrace]].
  - apply issubset_incl. reflexivity.
  - reflexivity.
  - reflexivity.
  - reflexivity.
  - split.
    + rewrite Hrun. reflexivity.
    + destruct (Htrace _ _ (surjective_pairing _)) as [evs [Ht HF]].
      rewrite Ht. exact HF.
Defined.

(** A forger that is the whole signing party is not flagged either: its
    nonce 5 is the single collected value, and the ceremony fails only
    because the aggregate made under it does not verify. *)
Example lone_forger_is_not_flagged :
  request_signature Z Demo.forging Demo.provider Demo.unary Demo.sa Demo.key
                    Demo.commitments Demo.payload ["2"] Demo.start =
    (Returned (PDict [("nonce", PInt 5);
                      ("signature", PInt 33);
                      ("message_hash", PBytes [x0a; xff]);
                      ("result", PStr "FAILED")]),
     World [EvLookup "2";
            EvPost Demo.sign2
                   (sign_request "u" Demo.key Demo.commitments Demo.payload) 200;
            EvCodeToPub (PInt 5);
            EvAggregateSignatures (PStr "aa") [Demo.signature_data (PInt 5)]
                                  5%Z (PInt 99);
            EvVerify (PDict (Demo.aggregate 5))]
           1).
Proof. reflexivity. Qed.

(** An empty signing party passes the guard and ends in an exception. *)
Example empty_sign_party_raises :
  fst (request_signature Z Demo.honest Demo.provider Demo.unary Demo.sa Demo.key
                         Demo.commitments Demo.payload [] Demo.start)
    = Raised IndexError.
Proof. reflexivity. Qed.

(** *** Further properties on the demo deployment *)

(** Id 9 is unknown: node 1 is looked up, node 2 is not, nothing is sent. *)
Lemma request_nonces_unknown_member_witness :
  request_nonces Z Demo.nonces Demo.sa ["1"; "9"; "2"] 10 Demo.start =
    (Raised (KeyError "9"), World [EvLookup "1"; EvLookup "9"] 0).
Proof.
  apply (request_nonces_unknown_member Z Demo.nonces Demo.sa
           ["1"] "9" ["2"] 10 (KeyError "9") Demo.start).
  - repeat constructor. eexists. reflexivity.
  - reflexivity.
Defined.

(** Node 2 refuses the connection: the exception is its, and all three
    requests went out. *)
Lemma request_nonces_unreachable_member_witness :
  fst (request_nonces Z Demo.nonces_without2 Demo.sa ["1"; "2"; "3"] 10
                      Demo.start)
    = Raised (Exn ExceptionClass "ClientConnectorError" "Cannot connect to host")
  /\ length (trace (snd (request_nonces Z Demo.nonces_without2 Demo.sa
                                        ["1"; "2"; "3"] 10 Demo.start))) = 6.
Proof.
  destruct (request_nonces_unreachable_member Z Demo.nonces_without2 Demo.sa
              ["1"; "2"; "3"] 10
              [NodeInfo "10.0.0.1" 5001; NodeInfo "10.0.0.2" 5002;
               NodeInfo "10.0.0.3" 5003]
              Demo.start)
    as [node [e [Hin [Hf Hrun]]]].
  - repeat constructor.
  - apply Exists_cons_tl, Exists_cons_hd. eexists. reflexivity.
  - rewrite Hrun. split; [|reflexivity]. simpl fst.
    destruct Hin as [<-|[<-|[<-|[]]]]; simpl in Hf;
      try discriminate; now inversion Hf.
Defined.

Lemma request_signature_needs_every_signer_witness :
  Forall (fun id =>
            exists node v,
              lookup_node (nodes_info Demo.sa) id = Returned node
              /\ post_request_result
                   (http_post Demo.honest (node_url "/v1/sign" node)
                              (sign_request (Demo.unary 0) Demo.key
                                            Demo.commitments Demo.payload)
                              (default_timeout Demo.sa)) = Returned v)
         ["1"; "2"; "3"].
Proof.
  destruct (request_signature_needs_every_signer
              Z Demo.honest Demo.provider Demo.unary Demo.sa Demo.key
              Demo.commitments Demo.payload ["1"; "2"; "3"] Demo.start
              (PDict [("nonce", PInt 7);
                      ("signature", PInt 33);
                      ("message_hash", PStr "0aff");
                      ("result", PStr "SUCCESSFUL");
                      ("signature_data",
                       PList [PDict (Demo.fields "aa" (PInt 7) "SUCCESSFUL")]);
                      ("request_id", PStr "u")])
              (snd (request_signature Z Demo.honest Demo.provider Demo.unary
                      Demo.sa Demo.key Demo.commitments Demo.payload
                      ["1"; "2"; "3"] Demo.start)))
    as [[_ [Hres _]]|[_ Hall]].
  - reflexivity.
  - discriminate Hres.
  - exact Hall.
Defined.

(** The party with the unknown id 9: two lookups, no request, no uuid. *)
Lemma request_nonces_calls_witness :
  uuid_draws (snd (request_nonces Z Demo.nonces Demo.sa ["1"; "9"; "2"] 10
                                  Demo.start)) = 0
  /\ trace (snd (request_nonces Z Demo.nonces Demo.sa ["1"; "9"; "2"] 10
                                Demo.start))
     = [EvLookup "1"; EvLookup "9"].
Proof.
  destruct (request_nonces_calls Z Demo.nonces Demo.sa ["1"; "9"; "2"] 10
              Demo.start _ _ (surjective_pairing _))
    as [Hd _].
  split; [exact Hd | reflexivity].
Defined.

Lemma request_signature_empty_party_raises_witness :
  request_signature Z Demo.honest Demo.provider Demo.unary Demo.sa Demo.key
                    Demo.commitments Demo.payload [] Demo.start =
    (Raised IndexError,
     World [EvAggregateNonce PNone Demo.commitments (PInt 99); EvPubToCode 7%Z]
           1).
Proof.
  destruct (request_signature_empty_party_raises
              Z Demo.honest Demo.provider Demo.unary Demo.sa Demo.key
              Demo.commitments Demo.payload Demo.start) as [_ H].
  apply (H 7%Z (PInt 7)); reflexivity.
Defined.

Lemma request_signature_result_discriminant_witness :
  exists d,
    PDict [("result", PStr "FAILED");
           ("signatures",
            PDict [("1", PDict (Demo.fields "aa" (PInt 7) "SUCCESSFUL"));
                   ("2", PDict (Demo.fields "aa" (PInt 7) "MALICIOUS"));
                   ("3", PDict (Demo.fields "aa" (PInt 7) "SUCCESSFUL"))])]
      = PDict d
    /\ (dict_get "result" d = Some (PStr "SUCCESSFUL")
        \/ dict_get "result" d = Some (PStr "FAILED")).
Proof.
  apply (request_signature_result_discriminant
           Z Demo.confessing Demo.provider Demo.unary Demo.sa Demo.key
           Demo.commitments Demo.payload ["1"; "2"; "3"] Demo.start
           _ (Demo.asked Demo.confessing)).
  reflexivity.
Defined.

Lemma successful_result_was_verified_witness :
  exists aggregated_sign h verdict w2 sample,
    snd (request_signature Z Demo.honest Demo.provider Demo.unary Demo.sa
           Demo.key Demo.commitments Demo.payload ["1"; "2"; "3"] Demo.start)
      = log (EvVerify (PDict aggregated_sign)) w2
    /\ verify_group_signature Z Demo.provider (PDict aggregated_sign)
       = Returned verdict
    /\ truthy verdict = true
    /\ dict_get "message_hash" aggregated_sign = Some (PBytes h)
    /\ [("nonce", PInt 7);
        ("signature", PInt 33);
        ("message_hash", PStr "0aff");
        ("result", PStr "SUCCESSFUL");
        ("signature_data",
         PList [PDict (Demo.fields "aa" (PInt 7) "SUCCESSFUL")]);
        ("request_id", PStr "u")]
       = dict_set "request_id" (PStr (Demo.unary (uuid_draws Demo.start)))
           (dict_set "signature_data" (PList sample)
              (dict_set "result" (PStr "SUCCESSFUL")
                 (dict_set "message_hash" (PStr (bytes_hex h))
                           aggregated_sign))).
Proof.
  apply (successful_result_was_verified
           Z Demo.honest Demo.provider Demo.unary Demo.sa Demo.key
           Demo.commitments Demo.payload ["1"; "2"; "3"] Demo.start).
  - reflexivity.
  - reflexivity.
Defined.

(** Signers 1 and 3 report 4 and 5 where the recomputed nonce is 7: both
    are flagged, signer 2 is not. *)
Lemma disagreeing_signers_are_all_flagged_witness :
  request_signature Z Demo.two_forgers Demo.provider Demo.unary Demo.sa
                    Demo.key Demo.commitments Demo.payload ["1"; "2"; "3"]
                    Demo.start =
    (Returned
       (PDict [("result", PStr "FAILED");
               ("signatures",
                PDict [("1", PDict (Demo.fields "aa" (PInt 4) "MALICIOUS"));
                       ("2", PDict (Demo.fields "aa" (PInt 7) "SUCCESSFUL"));
                       ("3", PDict (Demo.fields "aa" (PInt 5) "MALICIOUS"))])]),
     log (EvPubToCode 7%Z)
         (log (EvAggregateNonce (PStr "aa") Demo.commitments (PInt 99))
              (Demo.asked Demo.two_forgers))).
Proof.
  apply (disagreeing_signers_are_all_flagged
           Z Demo.two_forgers Demo.provider Demo.unary Demo.sa Demo.key
           Demo.commitments Demo.payload ["1"; "2"; "3"] Demo.start
           "u"
           [("1", PDict (Demo.fields "aa" (PInt 4) "SUCCESSFUL"));
            ("2", PDict (Demo.fields "aa" (PInt 7) "SUCCESSFUL"));
            ("3", PDict (Demo.fields "aa" (PInt 5) "SUCCESSFUL"))]
           (Demo.asked Demo.two_forgers)
           (Extraction [PDict (Demo.fields "aa" (PInt 4) "SUCCESSFUL")]
                       [Demo.signature_data (PInt 4);
                        Demo.signature_data (PInt 7);
                        Demo.signature_data (PInt 5)]
                       [PInt 4; PInt 7; PInt 5] (PStr "aa"))
           3 7%Z (PInt 7)).
  - apply issubset_incl. reflexivity.
  - reflexivity.
  - reflexivity.
  - reflexivity.
  - lia.
  - reflexivity.
  - reflexivity.
  - repeat constructor; simpl; discriminate.
  - apply Exists_cons_hd. reflexivity.
Defined.

(** The honest ceremony: conversion of the agreed nonce, aggregation,
    verification, and no recomputation. *)
Lemma recomputation_excludes_aggregation_witness :
  trace (snd (request_signature Z Demo.honest Demo.provider Demo.unary Demo.sa
                Demo.key Demo.commitments Demo.payload ["1"; "2"; "3"]
                Demo.start))
    = trace (Demo.asked Demo.honest)
        ++ [EvCodeToPub (PInt 7);
            EvAggregateSignatures (PStr "aa")
                                  [Demo.signature_data (PInt 7);
                                   Demo.signature_data (PInt 7);
                                   Demo.signature_data (PInt 7)]
                                  7%Z (PInt 99);
            EvVerify (PDict (Demo.aggregate 7))].
Proof.
  destruct (recomputation_excludes_aggregation
              Z Demo.honest Demo.provider Demo.unary Demo.sa Demo.key
              Demo.commitments Demo.payload ["1"; "2"; "3"] Demo.start
              "u"
              [("1", PDict (Demo.fields "aa" (PInt 7) "SUCCESSFUL"));
               ("2", PDict (Demo.fields "bb" (PInt 7) "SUCCESSFUL"));
               ("3", PDict (Demo.fields "cc" (PInt 7) "SUCCESSFUL"))]
              (Demo.asked Demo.honest) _ _
              (proj1 (issubset_incl ["1"; "2"; "3"] (party Demo.key)) eq_refl)
              eq_refl (surjective_pairing _))
    as [evs [Ht _]].
  rewrite Ht. f_equal.
  apply (app_inv_head (trace (Demo.asked Demo.honest))).
  rewrite <- Ht. reflexivity.
Defined.

(** Signer 3 times out while signers 1 and 2 agree: the ceremony
    succeeds on what the two of them sent. *)
Lemma sentinels_are_skipped_on_agreement_witness :
  fst (request_signature Z Demo.slow3 Demo.provider Demo.unary Demo.sa
                         Demo.key Demo.commitments Demo.payload
                         ["1"; "2"; "3"] Demo.start)
    = Returned
        (PDict [("nonce", PInt 7);
                ("signature", PInt 33);
                ("message_hash", PStr "0aff");
                ("result", PStr "SUCCESSFUL");
                ("signature_data",
                 PList [PDict (Demo.fields "aa" (PInt 7) "SUCCESSFUL")]);
                ("request_id", PStr "u")]).
Proof.
  destruct (sentinels_are_skipped_on_agreement
              Z Demo.slow3 Demo.provider Demo.unary Demo.sa)
    as [_ [_ H]].
  rewrite (H Demo.key Demo.commitments Demo.payload
             ["1"; "2"; "3"] Demo.start "u"
             [("1", PDict (Demo.fields "aa" (PInt 7) "SUCCESSFUL"));
              ("2", PDict (Demo.fields "aa" (PInt 7) "SUCCESSFUL"));
              ("3", timeout_sentinel)]
             (Demo.asked Demo.slow3)
             (Extraction [PDict (Demo.fields "aa" (PInt 7) "SUCCESSFUL")]
                         [Demo.signature_data (PInt 7);
                          Demo.signature_data (PInt 7)]
                         [PInt 7; PInt 7] (PStr "aa"))).
  - reflexivity.
  - apply issubset_incl. reflexivity.
  - reflexivity.
  - reflexivity.
  - reflexivity.
Defined.

(** Signers 1 and 2 disagree while signer 3 times out: the flagging loop
    reaches the sentinel. *)
Lemma recomputation_with_missing_nonce_raises_witness :
  exists key,
    (key = "signature_data" \/ key = "aggregated_public_nonce")
    /\ request_signature Z Demo.forging_slow3 Demo.provider Demo.unary Demo.sa
                         Demo.key Demo.commitments Demo.payload
                         ["1"; "2"; "3"] Demo.start =
         (Raised (KeyError key),
          log (EvPubToCode 7%Z)
              (log (EvAggregateNonce (PStr "aa") Demo.commitments (PInt 99))
                   (Demo.asked Demo.forging_slow3))).
Proof.
  destruct (recomputation_with_missing_nonce_raises
              Z Demo.forging_slow3 Demo.provider Demo.unary Demo.sa Demo.key
              Demo.commitments Demo.payload ["1"; "2"; "3"] Demo.start
              "u"
              [("1", PDict (Demo.fields "aa" (PInt 7) "SUCCESSFUL"));
               ("2", PDict (Demo.fields "aa" (PInt 5) "SUCCESSFUL"));
               ("3", timeout_sentinel)]
              (Demo.asked Demo.forging_slow3)
              (Extraction [PDict (Demo.fields "aa" (PInt 7) "SUCCESSFUL")]
                          [Demo.signature_data (PInt 7);
                           Demo.signature_data (PInt 5)]
                          [PInt 7; PInt 5] (PStr "aa"))
              2)
    as [_ H].
  - apply issubset_incl. reflexivity.
  - reflexivity.
  - reflexivity.
  - reflexivity.
  - lia.
  - apply Exists_cons_tl, Exists_cons_tl, Exists_cons_hd. reflexivity.
  - exact (H 7%Z (PInt 7) eq_refl eq_refl).
Defined.

(** Signer 2 reports the list [[7]] as its nonce. *)
Lemma unhashable_nonce_raises_witness :
  exists e,
    request_signature Z Demo.listed_nonce2 Demo.provider Demo.unary Demo.sa
                      Demo.key Demo.commitments Demo.payload
                      ["1"; "2"; "3"] Demo.start =
      (Raised e, Demo.asked Demo.listed_nonce2)
    /\ exists type_name,
         (type_name = "list" \/ type_name = "dict")
         /\ e = TypeError ("unhashable type: '" ++ type_name ++ "'").
Proof.
  apply (unhashable_nonce_raises
           Z Demo.listed_nonce2 Demo.provider Demo.unary Demo.sa Demo.key
           Demo.commitments Demo.payload ["1"; "2"; "3"] Demo.start
           "u"
           [("1", PDict (Demo.fields "aa" (PInt 7) "SUCCESSFUL"));
            ("2", PDict (Demo.fields "aa" (PList [PInt 7]) "SUCCESSFUL"));
            ("3", PDict (Demo.fields "aa" (PInt 7) "SUCCESSFUL"))]
           (Demo.asked Demo.listed_nonce2)
           "2" (PDict (Demo.fields "aa" (PList [PInt 7]) "SUCCESSFUL"))
           (PList [PInt 7])).
  - apply issubset_incl. reflexivity.
  - reflexivity.
  - simpl. auto.
  - reflexivity.
  - reflexivity.
  - reflexivity.
Defined.

(** Signer 2 answers with a JSON array. *)
Lemma non_object_response_raises_witness :
  exists e,
    exn_name e = "AttributeError"
    /\ request_signature Z Demo.array_body2 Demo.provider Demo.unary Demo.sa
                         Demo.key Demo.commitments Demo.payload
                         ["1"; "2"; "3"] Demo.start =
         (Raised e, Demo.asked Demo.array_body2).
Proof.
  apply (non_object_response_raises
           Z Demo.array_body2 Demo.provider Demo.unary Demo.sa Demo.key
           Demo.commitments Demo.payload ["1"; "2"; "3"] Demo.start
           "u"
           [("1", PDict (Demo.fields "aa" (PInt 7) "SUCCESSFUL"));
            ("2", PList [PStr "busy"]);
            ("3", PDict (Demo.fields "aa" (PInt 7) "SUCCESSFUL"))]
           (Demo.asked Demo.array_body2)
           "2" (PList [PStr "busy"])).
  - apply issubset_incl. reflexivity.
  - reflexivity.
  - simpl. auto.
  - reflexivity.
Defined.

(** The lone forger: its share and its nonce are what the provider gets. *)
Lemma crypto_inputs_witness :
  exists evs,
    trace (snd (request_signature Z Demo.forging Demo.provider Demo.unary
                  Demo.sa Demo.key Demo.commitments Demo.payload ["2"]
                  Demo.start))
      = [EvLookup "2";
         EvPost Demo.sign2
                (sign_request "u" Demo.key Demo.commitments Demo.payload) 200]
          ++ evs
    /\ Forall
         (fun ev : event Z =>
            match ev with
            | EvAggregateSignatures _ shares _ key =>
                shares = [Demo.signature_data (PInt 5)] /\ key = PInt 99
            | EvCodeToPub code => Some (PInt 5) = Some code
            | EvAggregateNonce _ commitments key =>
                commitments = Demo.commitments /\ key = PInt 99
            | _ => True
            end) evs.
Proof.
  apply (crypto_inputs
           Z Demo.forging Demo.provider Demo.unary Demo.sa Demo.key
           Demo.commitments Demo.payload ["2"] Demo.start
           "u" [("2", PDict (Demo.fields "aa" (PInt 5) "SUCCESSFUL"))]
           (World [EvLookup "2";
                   EvPost Demo.sign2
                          (sign_request "u" Demo.key Demo.commitments
                                        Demo.payload) 200] 1)
           (fst (request_signature Z Demo.forging Demo.provider Demo.unary
                   Demo.sa Demo.key Demo.commitments Demo.payload ["2"]
                   Demo.start))).
  - apply issubset_incl. reflexivity.
  - reflexivity.
  - apply surjective_pairing.
Defined.

(** Two forgers: the evidence names the three signers in order. *)
Lemma failed_check_returns_the_evidence_witness :
  request_signature Z Demo.two_forgers Demo.provider Demo.unary Demo.sa
                    Demo.key Demo.commitments Demo.payload ["1"; "2"; "3"]
                    Demo.start =
    (Returned
       (PDict [("result", PStr "FAILED");
               ("signatures",
                PDict [("1", PDict (Demo.fields "aa" (PInt 4) "MALICIOUS"));
                       ("2", PDict (Demo.fields "aa" (PInt 7) "SUCCESSFUL"));
                       ("3", PDict (Demo.fields "aa" (PInt 5) "MALICIOUS"))])]),
     log (EvPubToCode 7%Z)
         (log (EvAggregateNonce (PStr "aa") Demo.commitments (PInt 99))
              (Demo.asked Demo.two_forgers))).
Proof.
  apply (failed_check_returns_the_evidence
           Z Demo.two_forgers Demo.provider Demo.unary Demo.sa Demo.key
           Demo.commitments Demo.payload ["1"; "2"; "3"] Demo.start
           "u"
           [("1", PDict (Demo.fields "aa" (PInt 4) "SUCCESSFUL"));
            ("2", PDict (Demo.fields "aa" (PInt 7) "SUCCESSFUL"));
            ("3", PDict (Demo.fields "aa" (PInt 5) "SUCCESSFUL"))]
           (Demo.asked Demo.two_forgers)
           (Extraction [PDict (Demo.fields "aa" (PInt 4) "SUCCESSFUL")]
                       [Demo.signature_data (PInt 4);
                        Demo.signature_data (PInt 7);
                        Demo.signature_data (PInt 5)]
                       [PInt 4; PInt 7; PInt 5] (PStr "aa"))).
  - apply issubset_incl. reflexivity.
  - reflexivity.
  - reflexivity.
  - reflexivity.
Defined.

(** No signer sends a hash: aggregation runs on the digest [None]. *)
Lemma missing_hash_leaves_no_digest_witness :
  Forall (fun ev : event Z => forall m, event_digest ev = Some m -> m = PNone)
         [EvCodeToPub (PInt 7);
          EvAggregateSignatures PNone
                                [Demo.signature_data (PInt 7);
                                 Demo.signature_data (PInt 7);
                                 Demo.signature_data (PInt 7)]
                                7%Z (PInt 99);
          EvVerify (PDict (Demo.aggregate 7))].
Proof.
  destruct (missing_hash_leaves_no_digest
              Z Demo.hashless Demo.provider Demo.unary Demo.sa Demo.key
              Demo.commitments Demo.payload ["1"; "2"; "3"] Demo.start
              "u"
              [("1", PDict (Demo.fields "" (PInt 7) "SUCCESSFUL"));
               ("2", PDict (Demo.fields "" (PInt 7) "SUCCESSFUL"));
               ("3", PDict (Demo.fields "" (PInt 7) "SUCCESSFUL"))]
              (Demo.asked Demo.hashless)
              (Extraction []
                          [Demo.signature_data (PInt 7);
                           Demo.signature_data (PInt 7);
                           Demo.signature_data (PInt 7)]
                          [PInt 7; PInt 7; PInt 7] PNone))
    as [_ [_ Htrace]].
  - apply issubset_incl. reflexivity.
  - reflexivity.
  - reflexivity.
  - repeat constructor.
  - destruct (Htrace _ _ (surjective_pairing _)) as [evs [Ht HF]].
    assert (Hevs : evs = [EvCodeToPub (PInt 7);
                          EvAggregateSignatures PNone
                            [Demo.signature_data (PInt 7);
                             Demo.signature_data (PInt 7);
                             Demo.signature_data (PInt 7)]
                            7%Z (PInt 99);
                          EvVerify (PDict (Demo.aggregate 7))]).
    { apply (app_inv_head (trace (Demo.asked Demo.hashless))).
      rewrite <- Ht. reflexivity. }
    rewrite <- Hevs. exact HF.
Defined.

(** *** Members the directory does not know *)

(** C4, as stated, fails.  The party's second id, 9, is not in the
    directory: [lookup_node] raises at line 39 after the lookup of node
    1, no request is sent, and the call ends in that exception, not in a
    mapping with one entry per id. *)
Lemma request_nonces_unknown_id_gives_no_mapping :
  lookup_node (nodes_info Demo.sa) "9" = Raised (KeyError "9")
  /\ request_nonces Z Demo.nonces Demo.sa ["1"; "9"; "2"] 10 Demo.start =
       (Raised (KeyError "9"), World [EvLookup "1"; EvLookup "9"] 0)
  /\ forall m,
       fst (request_nonces Z Demo.nonces Demo.sa ["1"; "9"; "2"] 10 Demo.start)
         <> Returned m.
Proof.
  split; [reflexivity|]. split; [reflexivity|]. intros m H. discriminate H.
Qed.

(** C9, as stated, fails.  The signing party [1; 9] is authorized by the
    key, so the call passes the guard and draws its request id; signer 9
    is not in the directory, the lookups of line 69 raise before any
    request is built, and the id is sent to no signer, not even to
    signer 1. *)
Lemma request_id_is_not_sent_with_unknown_signer :
  issubset ["1"; "9"] (party Demo.key9) = true
  /\ request_signature Z Demo.honest Demo.provider Demo.unary Demo.sa Demo.key9
                       Demo.commitments Demo.payload ["1"; "9"] Demo.start =
       (Raised (KeyError "9"), World [EvLookup "1"; EvLookup "9"] 1)
  /\ Forall (fun ev => event_body ev = None)
            (trace (snd (request_signature Z Demo.honest Demo.provider
                           Demo.unary Demo.sa Demo.key9 Demo.commitments
                           Demo.payload ["1"; "9"] Demo.start))).
Proof.
  split; [reflexivity|]. split; [reflexivity|]. repeat constructor.
Qed.

(** *** A malicious record beside a timed-out peer *)

(** C6 fails on the code.  Signer 1 declares itself MALICIOUS, signer 2
    reports another nonce than signer 1, and the body of signer 3 does not
    arrive in time, so its response is the TIMEOUT sentinel.  The collected
    mapping holds a MALICIOUS record, the two reported nonces differ, the
    coordinator goes on to recompute, and the flagging loop reads
    [data['signature_data']] of the sentinel at line 105: whatever the
    crypto provider and the uuid source do, the call ends in an exception,
    not in a FAILED result with the collected mapping. *)
Theorem malicious_peer_beside_timed_out_peer_raises :
  forall (Point : Type) (crypto : CryptoProvider Point) (uuid4 : nat -> string)
         (nonces_list sa_data : pyval) (w : world Point),
    let signatures :=
      [("1", PDict (Demo.fields "aa" (PInt 7) "MALICIOUS"));
       ("2", PDict (Demo.fields "aa" (PInt 5) "SUCCESSFUL"));
       ("3", timeout_sentinel)] in
    fst (collect_signatures Point Demo.confessing_slow3 uuid4 Demo.sa Demo.key
                            nonces_list sa_data ["1"; "2"; "3"] w)
      = Returned (uuid4 (uuid_draws w), signatures)
    /\ Exists (fun kv => is_malicious (snd kv) = true) signatures
    /\ exists e w',
         request_signature Point Demo.confessing_slow3 crypto uuid4 Demo.sa
                           Demo.key nonces_list sa_data ["1"; "2"; "3"] w
           = (Raised e, w').
Proof.
  intros Point crypto uuid4 nonces_list sa_data w signatures.
  assert (Hsub : incl ["1"; "2"; "3"] (party Demo.key))
    by (apply issubset_incl; reflexivity).
  pose (request := sign_request (uuid4 (uuid_draws w)) Demo.key
                                nonces_list sa_data).
  assert (Hc : collect_signatures Point Demo.confessing_slow3 uuid4 Demo.sa
                 Demo.key nonces_list sa_data ["1"; "2"; "3"] w =
               (Returned (uuid4 (uuid_draws w), signatures),
                World (trace w
                         ++ [EvLookup "1"; EvLookup "2"; EvLookup "3";
                             EvPost Demo.sign1 request 200;
                             EvPost Demo.sign2 request 200;
                             EvPost Demo.sign3 request 200])
                      (S (uuid_draws w)))).
  { unfold collect_signatures, bind at 1, fresh_uuid.
    unfold bind at 1.
    rewrite (fan_out_ok Point Demo.confessing_slow3 Demo.sa "/v1/sign" _
               ["1"; "2"; "3"]
               [NodeInfo "10.0.0.1" 5001; NodeInfo "10.0.0.2" 5002;
                NodeInfo "10.0.0.3" 5003]
               [PDict (Demo.fields "aa" (PInt 7) "MALICIOUS");
                PDict (Demo.fields "aa" (PInt 5) "SUCCESSFUL");
                timeout_sentinel]);
      [reflexivity | repeat constructor | repeat constructor]. }
  split; [rewrite Hc; reflexivity|].
  split; [apply Exists_cons_hd; reflexivity|].
  rewrite (request_signature_collected Point Demo.confessing_slow3 crypto uuid4
             Demo.sa Demo.key nonces_list sa_data ["1"; "2"; "3"] w _ _ _
             Hsub Hc).
  assert (Hex : extract signatures =
                Returned
                  (Extraction [PDict (Demo.fields "aa" (PInt 7) "MALICIOUS")]
                              [Demo.signature_data (PInt 7);
                               Demo.signature_data (PInt 5)]
                              [PInt 7; PInt 5] (PStr "aa")))
    by reflexivity.
  unfold settle, bind at 1, lift. rewrite Hex.
  unfold bind at 1, consistency_check, bind at 1, recompute_and_flag,
    bind at 1, lift.
  change (len_set (aggregated_public_nonces _)) with (@Returned nat 2).
  cbv iota. change (negb (2 =? 1)%nat) with true. cbv iota.
  unfold bind at 1, call.
  destruct (aggregate_nonce Point crypto _ _ _) as [R|e]; [|eauto].
  unfold bind at 1.
  destruct (pub_to_code Point crypto R) as [code|e]; [|eauto].
  destruct (flag_disagreeing_missing code signatures) as [key [_ Hflag]].
  - repeat apply Forall_cons; [| | |apply Forall_nil];
      (eexists; split; [reflexivity|]);
      solve [left; reflexivity | right; eexists; reflexivity].
  - do 2 apply Exists_cons_tl. apply Exists_cons_hd. reflexivity.
  - rewrite Hflag. eauto.
Qed.

(** With the demo provider the exception is the [KeyError] of line 105,
    raised after the nonce was recomputed. *)
Example malicious_peer_beside_timed_out_peer_key_error :
  request_signature Z Demo.confessing_slow3 Demo.provider Demo.unary Demo.sa
                    Demo.key Demo.commitments Demo.payload ["1"; "2"; "3"]
                    Demo.start
    = (Raised (KeyError "signature_data"),
       log (EvPubToCode 7%Z)
           (log (EvAggregateNonce (PStr "aa") Demo.commitments (PInt 99))
                (Demo.asked Demo.confessing_slow3))).
Proof. reflexivity. Qed.
